(** * blitzdb.backends.base: the class registry, [serialize] and [deserialize]

    A shallow embedding of [Backend] from [blitzdb/backends/base.py].

    Python objects are finite trees.  A mutable container (dict, list) and a
    document instance carry the identity of the Python object they stand for,
    so that two occurrences of one object in a graph can be recognised; the one
    field the code assigns on an existing object, the primary key, is kept in
    a store keyed by that identity. *)

From Stdlib Require Import List String Ascii ZArith Bool Arith Lia.
From Stdlib Require Import DecimalString.
Import ListNotations.
Local Open Scope string_scope.
Local Open Scope list_scope.

Set Implicit Arguments.
Set Warnings "-register-all".

(** ** Values *)

(** Dictionary keys: the hashable scalars that occur as keys. *)
Inductive key : Type :=
| KStr (s : string)
| KInt (z : Z).

Definition key_eqb (k1 k2 : key) : bool :=
  match k1, k2 with
  | KStr a, KStr b => String.eqb a b
  | KInt a, KInt b => Z.eqb a b
  | _, _ => false
  end.

(** [str(key)]. *)
Definition str (k : key) : key :=
  match k with
  | KStr s => KStr s
  | KInt z => KStr (NilZero.string_of_int (Z.to_int z))
  end.

(** The [Meta] attribute of a document class, at the attributes the backend
    reads, and the class itself: [cid] tells two classes of one name apart. *)
Record meta : Type := mkMeta {
  m_collection : option string;
  m_primary_key : string;
  m_dbref_includes : option (list string)
}.

Record doc_class : Type := mkClass {
  cid : nat;
  __name__ : string;
  Meta : meta
}.

(** A Python value.  [a] in [VDict] and [VList] and [oid] in [Document] are
    object identities.

    Modelled from the spec: the document instance of [blitzdb.document], an
    object with a primary key ([pk0], [None] until it is saved), an attribute
    mapping, the lazy state and the embed flag; [remote] is what the store
    holds for the instance, [None] when the record is gone. *)
Inductive value : Type :=
| VNone
| VBool (b : bool)
| VInt (z : Z)
| VStr (s : string)
| VDict (a : nat) (items : list (key * value))
| VList (a : nat) (items : list value)
| VTuple (items : list value)
| VDoc (d : document)
with document : Type :=
| Document (oid : nat) (cls : doc_class) (pk0 : value)
           (attributes : list (key * value)) (_lazy embed : bool)
           (remote : option (list (key * value))).

Definition dict : Type := list (key * value).

(** ** Dictionaries in insertion order *)

Section Assoc.
Variables (K V : Type) (eqb : K -> K -> bool).

Fixpoint assoc_get (k : K) (d : list (K * V)) : option V :=
  match d with
  | [] => None
  | (k', v) :: d' => if eqb k k' then Some v else assoc_get k d'
  end.

Definition assoc_mem (k : K) (d : list (K * V)) : bool :=
  match assoc_get k d with Some _ => true | None => false end.

(** [d[k] = v]: an existing key keeps its place. *)
Fixpoint assoc_set (k : K) (v : V) (d : list (K * V)) : list (K * V) :=
  match d with
  | [] => [(k, v)]
  | (k', v') :: d' =>
      if eqb k k' then (k', v) :: d' else (k', v') :: assoc_set k v d'
  end.

(** [del d[k]]. *)
Fixpoint assoc_del (k : K) (d : list (K * V)) : list (K * V) :=
  match d with
  | [] => []
  | (k', v') :: d' =>
      if eqb k k' then assoc_del k d' else (k', v') :: assoc_del k d'
  end.
End Assoc.

Definition dict_get := assoc_get (V:=value) key_eqb.
Definition dict_mem := assoc_mem (V:=value) key_eqb.
Definition dict_set := assoc_set (V:=value) key_eqb.
Definition dict_del := assoc_del (V:=value) key_eqb.
Definition dict_keys (d : dict) : list key := map fst d.

(** ** Document instances: the capabilities the backend uses *)

Definition oid (d : document) : nat := let 'Document o _ _ _ _ _ _ := d in o.
Definition __class__ (d : document) : doc_class :=
  let 'Document _ c _ _ _ _ _ := d in c.
Definition pk0 (d : document) : value := let 'Document _ _ p _ _ _ _ := d in p.
Definition attributes (d : document) : dict :=
  let 'Document _ _ _ a _ _ _ := d in a.
Definition _lazy (d : document) : bool := let 'Document _ _ _ _ l _ _ := d in l.
Definition embed (d : document) : bool := let 'Document _ _ _ _ _ e _ := d in e.
Definition remote (d : document) : option dict :=
  let 'Document _ _ _ _ _ _ r := d in r.

(** Modelled from the spec: [lazy_attributes] of [blitzdb.document.Document],
    the mapping of the locally known fields of an instance. *)
Definition lazy_attributes (d : document) : dict := attributes d.

(** Modelled from the spec: [get_pk_name] of [blitzdb.document.Document]. *)
Definition get_pk_name (d : document) : string :=
  m_primary_key (Meta (__class__ d)).

Definition meta_eq_dec (x y : meta) : {x = y} + {x <> y}.
Proof.
  decide equality; try apply string_dec;
    repeat (decide equality; try apply string_dec).
Defined.

Definition doc_class_eq_dec (x y : doc_class) : {x = y} + {x <> y}.
Proof.
  decide equality; [apply meta_eq_dec | apply string_dec | apply Nat.eq_dec].
Defined.

(** Two classes are the same key of [self.classes] when they are one class. *)
Definition class_eqb (x y : doc_class) : bool :=
  if doc_class_eq_dec x y then true else false.

(** ** The class registry *)

(** A registered constructor: [constructor(attributes, lazy=lazy)]. *)
Definition constructor_fn : Type := dict -> bool -> document.

(** The [parameters] dictionary of [register], read at the two keys the
    backend uses; the other entries are carried along in [p_extra]. *)
Record params : Type := mkParams {
  p_collection : option string;
  p_constructor : option constructor_fn;
  p_extra : list (string * value)
}.

(** An entry of [self.classes]: [register] stores each one with its
    ['collection'] (line 101), so that key is always there. *)
Record entry : Type := mkEntry {
  e_collection : string;
  e_constructor : option constructor_fn;
  e_extra : list (string * value)
}.

Record Backend : Type := mkBackend {
  classes : list (doc_class * entry);
  collections : list (string * doc_class);
  _autoload_embedded : bool;
  _allow_documents_in_query : bool
}.

Definition lower_ascii (c : ascii) : ascii :=
  let n := nat_of_ascii c in
  if ((65 <=? n) && (n <=? 90))%nat then ascii_of_nat (n + 32) else c.

Fixpoint lower (s : string) : string :=
  match s with
  | EmptyString => EmptyString
  | String c s' => String (lower_ascii c) (lower s')
  end.

Definition collides (collection_name : string) (new : doc_class * entry)
    : bool :=
  String.eqb (e_collection (snd new)) collection_name.

Definition register (self : Backend) (cls : doc_class)
    (parameters : option params) : Backend :=
  let parameters :=
    match parameters with
    | None => mkParams None None []
    | Some p => p
    end in
  let collection_name :=
    match p_collection parameters with
    | Some c => c
    | None =>
        match m_collection (Meta cls) with
        | Some c => c
        | None => lower (__name__ cls)
        end
    end in
  let delete_list := map fst (filter (collides collection_name) (classes self)) in
  let classes1 :=
    fold_left (fun cs delete_cls => assoc_del class_eqb delete_cls cs)
              delete_list (classes self) in
  mkBackend
    (assoc_set class_eqb cls
       (mkEntry collection_name (p_constructor parameters)
                (p_extra parameters))
       classes1)
    (assoc_set String.eqb collection_name cls (collections self))
    (_autoload_embedded self)
    (_allow_documents_in_query self).

(** The user attributes of [cls.Meta] as a parameters dictionary. *)
Definition get_meta_attributes (cls : doc_class) : params :=
  mkParams (m_collection (Meta cls)) None
    (("primary_key", VStr (m_primary_key (Meta cls))) ::
     match m_dbref_includes (Meta cls) with
     | Some l => [("dbref_includes", VTuple (map VStr l))]
     | None => []
     end).

Definition autoregister (self : Backend) (cls : doc_class) : Backend :=
  let params := get_meta_attributes cls in
  register self cls (Some params).

Definition autodiscover_classes (document_classes : list doc_class)
    (self : Backend) : Backend :=
  fold_left (fun b document_class => register b document_class None)
            document_classes self.

(** [Backend.__init__]; [document_classes] is the list kept by the
    metaclass of [Document]. *)
Definition __init__ (document_classes : list doc_class)
    (autodiscover autoload_embedded allow_documents_in_query : bool) : Backend :=
  let self := mkBackend [] [] autoload_embedded allow_documents_in_query in
  if autodiscover then autodiscover_classes document_classes self else self.

(** A call on the registry. *)
Inductive registry_call : Type :=
| Register (cls : doc_class) (parameters : option params)
| Autoregister (cls : doc_class).

Definition do_call (self : Backend) (c : registry_call) : Backend :=
  match c with
  | Register cls parameters => register self cls parameters
  | Autoregister cls => autoregister self cls
  end.

Definition do_calls (cs : list registry_call) (self : Backend) : Backend :=
  fold_left do_call cs self.

Definition class_get := assoc_get (V:=entry) class_eqb.
Definition collection_get := assoc_get (V:=doc_class) String.eqb.

(** The resolved collection name of a registered type. *)
Definition registered_as (b : Backend) (t : doc_class) (c : string) : Prop :=
  exists p, class_get t (classes b) = Some p /\ e_collection p = c.

(** Every registry entry resolves back through the reverse index. *)
Definition resolves_back (b : Backend) : Prop :=
  forall t c, registered_as b t c -> collection_get c (collections b) = Some t.

(** Every entry of the reverse index is the collection of a registered type. *)
Definition no_orphan (b : Backend) : Prop :=
  forall c t, collection_get c (collections b) = Some t -> registered_as b t c.

Definition consistent (b : Backend) : Prop := resolves_back b /\ no_orphan b.

(** ** State, exceptions and the monad of the backend's methods *)

Inductive exn : Type :=
| ValueError (msg : string)
| DoesNotExist (c : doc_class)
| KeyError
| TypeError
| AttributeError.

(** The error raised for a document inside a query (line 186). *)
Definition QueryDocumentNotAllowed : exn :=
  ValueError "Documents are not allowed in queries!".

Inductive outcome (A : Type) : Type :=
| Return (a : A)
| Raise (e : exn).
Arguments Return {A} a.
Arguments Raise {A} e.

(** [saved] holds the primary keys that [save] assigned, by instance;
    [next_id] is the identity of the next object created. *)
Record state : Type := mkState {
  backend : Backend;
  saved : list (nat * Z);
  next_pk : Z;
  next_id : nat
}.

Definition M (A : Type) : Type := state -> outcome A * state.

Definition ret {A} (a : A) : M A := fun st => (Return a, st).
Definition raise {A} (e : exn) : M A := fun st => (Raise e, st).
Definition bind {A B} (m : M A) (k : A -> M B) : M B :=
  fun st =>
    match m st with
    | (Return a, st') => k a st'
    | (Raise e, st') => (Raise e, st')
    end.
Definition lift {A} (o : outcome A) : M A := fun st => (o, st).

Notation "x <- m ;; k" := (bind m (fun x => k))
  (at level 61, m at next level, right associativity).
Notation "m ;;; k" := (bind m (fun _ => k))
  (at level 61, right associativity).

(** [try: m except handles: h]; the state reached when the exception
    was raised is kept. *)
Definition try_except {A} (m : M A) (handles : exn -> bool) (h : M A) : M A :=
  fun st =>
    match m st with
    | (Raise e, st') => if handles e then h st' else (Raise e, st')
    | r => r
    end.

Definition get_backend : M Backend := fun st => (Return (backend st), st).
Definition set_backend (b : Backend) : M unit :=
  fun st => (Return tt, mkState b (saved st) (next_pk st) (next_id st)).

(** The identity of a newly created object. *)
Definition fresh : M nat :=
  fun st =>
    (Return (next_id st),
     mkState (backend st) (saved st) (next_pk st) (S (next_id st))).

(** ** The document capability set *)

(** Modelled from the spec: [obj.pk], the key the instance was built with or,
    when it had none, the one [save] gave it. *)
Definition pk_in (sv : list (nat * Z)) (d : document) : value :=
  match pk0 d with
  | VNone =>
      match assoc_get Nat.eqb (oid d) sv with
      | Some z => VInt z
      | None => VNone
      end
  | v => v
  end.

Definition pk (d : document) : M value :=
  fun st => (Return (pk_in (saved st) d), st).

Definition is_None (v : value) : bool :=
  match v with VNone => true | _ => false end.

(** Modelled from the spec: [Document.save(backend)], which persists the
    instance and assigns a primary key if it has none. *)
Definition save (d : document) : M unit :=
  fun st =>
    if is_None (pk_in (saved st) d)
    then (Return tt,
          mkState (backend st)
                  (assoc_set Nat.eqb (oid d) (next_pk st) (saved st))
                  (next_pk st + 1)%Z (next_id st))
    else (Return tt, st).

(** Modelled from the spec: [obj.eager.attributes], the full attribute set;
    for a lazy instance it is fetched and the fetch fails with [DoesNotExist]
    when the record is gone ([remote] is what the store holds). *)
Definition eager_attributes (d : document) : M dict :=
  if _lazy d
  then match remote d with
       | Some a => ret a
       | None => raise (DoesNotExist (__class__ d))
       end
  else ret (attributes d).

(** Modelled from the spec: [Document.serialize(embed=True)], the full
    attribute set inline. *)
Definition document_serialize (d : document) : M value :=
  a <- eager_attributes d ;;
  i <- fresh ;;
  ret (VDict i a).

(** Modelled from the spec: [except obj.DoesNotExist], the exception of the
    class of the instance. *)
Definition is_DoesNotExist (d : document) (e : exn) : bool :=
  match e with
  | DoesNotExist c => class_eqb c (__class__ d)
  | _ => false
  end.

(** ** Strings *)

(** [s.split(sep)] for a one-character separator. *)
Fixpoint split (sep : ascii) (s : string) : list string :=
  match s with
  | EmptyString => [EmptyString]
  | String c s' =>
      if Ascii.eqb c sep then EmptyString :: split sep s'
      else match split sep s' with
           | [] => [String c EmptyString]
           | w :: ws => String c w :: ws
           end
  end.

(** [s.replace(old, new)] for one-character arguments. *)
Fixpoint replace (old new : ascii) (s : string) : string :=
  match s with
  | EmptyString => EmptyString
  | String c s' =>
      String (if Ascii.eqb c old then new else c) (replace old new s')
  end.

(** ** [copy.deepcopy] *)

Section Copy.
Variable copy : value -> nat -> value * nat.

Fixpoint copy_items (l : dict) (n : nat) : dict * nat :=
  match l with
  | [] => ([], n)
  | (k, v) :: l' =>
      let (v', n1) := copy v n in
      let (l'', n2) := copy_items l' n1 in
      ((k, v') :: l'', n2)
  end.

Fixpoint copy_list (l : list value) (n : nat) : list value * nat :=
  match l with
  | [] => ([], n)
  | v :: l' =>
      let (v', n1) := copy v n in
      let (l'', n2) := copy_list l' n1 in
      (v' :: l'', n2)
  end.
End Copy.

(** The copy of an object graph from the counter [n] on: every dict, list and
    document instance of the copy is a new object.  A copied instance has the
    primary key the original has now. *)
Fixpoint deepcopy_from (sv : list (nat * Z)) (v : value) (n : nat)
    {struct v} : value * nat :=
  match v with
  | VDict _ items =>
      let (items', n') := copy_items (deepcopy_from sv) items (S n) in
      (VDict n items', n')
  | VList _ items =>
      let (items', n') := copy_list (deepcopy_from sv) items (S n) in
      (VList n items', n')
  | VTuple items =>
      let (items', n') := copy_list (deepcopy_from sv) items n in
      (VTuple items', n')
  | VDoc (Document o c p a l e r) =>
      let (p', n1) :=
        match p with
        | VNone => (pk_in sv (Document o c p a l e r), S n)
        | _ => deepcopy_from sv p (S n)
        end in
      let (a', n2) := copy_items (deepcopy_from sv) a n1 in
      (VDoc (Document n c p' a' l e r), n2)
  | _ => (v, n)
  end.

Definition deepcopy (v : value) : M value :=
  fun st =>
    let (v', n') := deepcopy_from (saved st) v (next_id st) in
    (Return v', mkState (backend st) (saved st) (next_pk st) n').

(** [copy.deepcopy] of a dictionary, by its items. *)
Definition deepcopy_dict (items : dict) : M (nat * dict) :=
  fun st =>
    let (items', n') :=
      copy_items (deepcopy_from (saved st)) items (S (next_id st)) in
    (Return (next_id st, items'),
     mkState (backend st) (saved st) (next_pk st) n').

(** ** Looking classes up *)

Definition get_collection_for_cls (cls : doc_class) : M string :=
  self <- get_backend ;;
  (if assoc_mem class_eqb cls (classes self)
   then ret tt
   else set_backend (autoregister self cls)) ;;;
  self <- get_backend ;;
  match class_get cls (classes self) with
  | Some p => ret (e_collection p)
  | None => raise KeyError
  end.

Definition get_collection_for_obj (obj : document) : M string :=
  get_collection_for_cls (__class__ obj).

(** [self.classes[obj.__class__]['collection']]. *)
Definition classes_collection (obj : document) : M string :=
  self <- get_backend ;;
  match class_get (__class__ obj) (classes self) with
  | Some p => ret (e_collection p)
  | None => raise KeyError
  end.

(** Modelled from the spec: the default document construction contract
    [cls(attributes, lazy=lazy, default_backend=self, autoload=...)]: a new
    instance without a primary key that knows the given attributes. *)
Definition new_document (i : nat) (cls : doc_class) (attrs : dict)
    (lazy : bool) : document :=
  Document i cls VNone attrs lazy false None.

(** The object a registered constructor returns: a new object. *)
Definition with_oid (i : nat) (d : document) : document :=
  let 'Document _ c p a l e r := d in Document i c p a l e r.

(** Modelled from the spec: [output_obj.pk = v] on an instance.  The primary
    key is the field [get_pk_name()] of the attribute mapping, so the
    assignment writes that field: a value the mapping had there is replaced,
    and the field is added when the mapping had none. *)
Definition set_pk (d : document) (v : value) : document :=
  let 'Document o c _ a l e r := d in
  Document o c v (dict_set (KStr (m_primary_key (Meta c))) v a) l e r.

Definition create_instance (collection_or_class : string + doc_class)
    (attrs : dict) (lazy : bool) : M document :=
  self <- get_backend ;;
  cls <- match collection_or_class with
         | inr c =>
             if assoc_mem class_eqb c (classes self) then ret c
             else raise AttributeError
         | inl name =>
             match collection_get name (collections self) with
             | Some c => ret c
             | None => raise AttributeError
             end
         end ;;
  match class_get cls (classes self) with
  | None => raise KeyError
  | Some p =>
      i <- fresh ;;
      match e_constructor p with
      | Some constructor => ret (with_oid i (constructor attrs lazy))
      | None => ret (new_document i cls attrs lazy)
      end
  end.

(** ** [serialize] *)

(** Modelled from the spec: [Document.__getitem__]; an include path is
    resolved against the attributes of the instance. *)
Definition document_getitem (d : document) (key_fragment : string)
    : outcome value :=
  match dict_get (KStr key_fragment) (attributes d) with
  | Some v => Return v
  | None => Raise KeyError
  end.

(** [current_dict[key_fragment]]: a mapping raises [KeyError] for a key it
    lacks; a value that has no items raises [TypeError], and so does a list,
    a tuple or a string subscripted with a string. *)
Definition getitem (current_dict : value) (key_fragment : string)
    : outcome value :=
  match current_dict with
  | VDoc d => document_getitem d key_fragment
  | VDict _ items =>
      match dict_get (KStr key_fragment) items with
      | Some v => Return v
      | None => Raise KeyError
      end
  | _ => Raise TypeError
  end.

Fixpoint get_value_loop (current_dict : value) (key_fragments : list string)
    : outcome value :=
  match key_fragments with
  | [] => Return current_dict
  | key_fragment :: rest =>
      match getitem current_dict key_fragment with
      | Return v => get_value_loop v rest
      | Raise e => Raise e
      end
  end.

Definition get_value (obj : value) (key : string) : outcome value :=
  get_value_loop obj (split "." key).

(** The loop over [obj.Meta.dbref_includes] (lines 190-195). *)
Fixpoint add_includes (obj : document) (includes : list string)
    (output_obj : dict) : outcome dict :=
  match includes with
  | [] => Return output_obj
  | include_key :: rest =>
      match get_value (VDoc obj) include_key with
      | Return value =>
          add_includes obj rest
            (dict_set (KStr (replace "." "_" include_key)) value output_obj)
      | Raise KeyError => add_includes obj rest output_obj
      | Raise e => Raise e
      end
  end.

(** An encoder or decoder: [(matcher, encoder)]. *)
Definition coder : Type := (value -> bool) * (value -> value).

(** The loop over [encoders] (lines 152-154) and [decoders] (213-215). *)
Definition apply_coders (coders : option (list coder)) (obj : value) : value :=
  match coders with
  | None => obj
  | Some l =>
      fold_left (fun obj (mc : coder) =>
                   if fst mc obj then snd mc obj else obj) l obj
  end.

Section Walk.
Variable rec : value -> M value.

(** [for key, value in obj.items(): output_obj[f(key)] = rec(value)]. *)
Fixpoint walk_items (f : key -> key) (items : dict) (output_obj : dict)
    : M dict :=
  match items with
  | [] => ret output_obj
  | (k, v) :: items' =>
      v' <- rec v ;;
      walk_items f items' (dict_set (f k) v' output_obj)
  end.

(** [map(rec, obj)], evaluated left to right. *)
Fixpoint walk_list (l : list value) : M (list value) :=
  match l with
  | [] => ret []
  | v :: l' =>
      v' <- rec v ;;
      l'' <- walk_list l' ;;
      ret (v' :: l'')
  end.

Definition walk_dict (f : key -> key) (items : dict) : M value :=
  i <- fresh ;;
  output_obj <- walk_items f items [] ;;
  ret (VDict i output_obj).
End Walk.

Section Serialize.
Variables (convert_keys_to_str autosave for_query : bool).

(** The reference case (lines 174-195). *)
Definition serialize_reference (obj : document) : M value :=
  p <- pk obj ;;
  (if is_None p && autosave then save obj else ret tt) ;;;
  if _lazy obj then
    c <- deepcopy_dict (lazy_attributes obj) ;;
    let output_obj := snd c in
    let output_obj :=
      if dict_mem (KStr (get_pk_name obj)) output_obj
      then dict_del (KStr (get_pk_name obj)) output_obj
      else output_obj in
    p <- pk obj ;;
    let output_obj := dict_set (KStr "pk") p output_obj in
    collection <- classes_collection obj ;;
    ret (VDict (fst c)
           (dict_set (KStr "__collection__") (VStr collection) output_obj))
  else
    self <- get_backend ;;
    if for_query && negb (_allow_documents_in_query self)
    then raise QueryDocumentNotAllowed
    else
      i <- fresh ;;
      p <- pk obj ;;
      collection <- classes_collection obj ;;
      let output_obj :=
        [(KStr "pk", p); (KStr "__collection__", VStr collection)] in
      match m_dbref_includes (Meta (__class__ obj)) with
      | Some (include_key :: rest) =>
          output_obj <- lift (add_includes obj (include_key :: rest)
                                           output_obj) ;;
          ret (VDict i output_obj)
      | _ => ret (VDict i output_obj)
      end.

(** [serialize] without encoders, as [serialize_with_opts] calls it. *)
Fixpoint serialize_with_opts (embed_level : nat) : value -> M value :=
  fix serialize_value (obj : value) : M value :=
    match obj with
    | VDict _ items =>
        walk_dict serialize_value
          (if convert_keys_to_str then str else fun k => k) items
    | VList _ items =>
        l <- walk_list serialize_value items ;;
        i <- fresh ;;
        ret (VList i l)
    | VTuple items =>
        l <- walk_list serialize_value items ;;
        ret (VTuple l)
    | VDoc d =>
        get_collection_for_obj d ;;;
        match embed_level with
        | S embed_level' =>
            try_except
              (a <- eager_attributes d ;;
               walk_dict (serialize_with_opts embed_level')
                 (if convert_keys_to_str then str else fun k => k) a)
              (is_DoesNotExist d)
              (walk_dict (serialize_with_opts embed_level')
                 (if convert_keys_to_str then str else fun k => k)
                 (attributes d))
        | O =>
            if embed d then document_serialize d
            else serialize_reference d
        end
    | _ => ret obj
    end.
End Serialize.

Definition serialize (obj : value) (convert_keys_to_str : bool)
    (embed_level : Z) (encoders : option (list coder))
    (autosave for_query : bool) : M value :=
  serialize_with_opts convert_keys_to_str autosave for_query
    (Z.to_nat embed_level) (apply_coders encoders obj).

(** ** [deserialize] *)

(** Whether [hash(v)] succeeds. *)
Fixpoint hashable (v : value) : bool :=
  match v with
  | VDict _ _ | VList _ _ => false
  | VTuple items => forallb hashable items
  | _ => true
  end.

(** [v in self.collections]: the collection name [v] is, when it is one. *)
Definition in_collections (v : value) : M (option string) :=
  self <- get_backend ;;
  if hashable v then
    match v with
    | VStr name =>
        if assoc_mem String.eqb name (collections self)
        then ret (Some name) else ret None
    | _ => ret None
    end
  else raise TypeError.

(** The primary-key field of a mapping (lines 217-222). *)
Definition pk_field_of (items : dict) : option string :=
  if dict_mem (KStr "__pk__") items then Some "__pk__"
  else if dict_mem (KStr "pk") items then Some "pk"
  else None.

(** The branch that builds a lazy instance (lines 225-229). *)
Definition deserialize_reference (items : dict) (name pk_field : string)
    : M value :=
  c <- deepcopy_dict items ;;
  let attrs := dict_del (KStr pk_field) (snd c) in
  let attrs := dict_del (KStr "__collection__") attrs in
  output_obj <- create_instance (inl name) attrs true ;;
  match dict_get (KStr pk_field) items with
  | Some v => ret (VDoc (set_pk output_obj v))
  | None => raise KeyError
  end.

(** [deserialize] without decoders, as the recursive calls run it. *)
Fixpoint deserialize_value (obj : value) : M value :=
  match obj with
  | VDict _ items =>
      let plain := walk_dict deserialize_value (fun k => k) items in
      match dict_get (KStr "__collection__") items with
      | Some cv =>
          known <- in_collections cv ;;
          match known, pk_field_of items with
          | Some name, Some pk_field =>
              deserialize_reference items name pk_field
          | _, _ => plain
          end
      | None => plain
      end
  | VList _ items | VTuple items =>
      l <- walk_list deserialize_value items ;;
      i <- fresh ;;
      ret (VList i l)
  | _ => ret obj
  end.

Definition deserialize (obj : value) (decoders : option (list coder))
    : M value :=
  deserialize_value (apply_coders decoders obj).

(** ** Identities of an object graph *)

Fixpoint ids (v : value) : list nat :=
  match v with
  | VDict a items => a :: flat_map (fun kv => ids (snd kv)) items
  | VList a items => a :: flat_map ids items
  | VTuple items => flat_map ids items
  | VDoc (Document o _ p a _ _ _) =>
      o :: ids p ++ flat_map (fun kv => ids (snd kv)) a
  | _ => []
  end.

(** The two graphs have no mutable object in common. *)
Definition shares_nothing (input output : value) : Prop :=
  forall i, In i (ids output) -> ~ In i (ids input).

(** The collection name [register] resolves. *)
Definition resolved_name (cls : doc_class) (parameters : option params)
    : string :=
  match match parameters with Some p => p_collection p | None => None end with
  | Some c => c
  | None =>
      match m_collection (Meta cls) with
      | Some c => c
      | None => lower (__name__ cls)
      end
  end.

(** ** What a call leaves behind *)

(** The registry once [get_collection_for_cls] has seen [cls]. *)
Definition ensure_registered (b : Backend) (cls : doc_class) : Backend :=
  if assoc_mem class_eqb cls (classes b) then b else autoregister b cls.

Definition with_backend (st : state) (b : Backend) : state :=
  mkState b (saved st) (next_pk st) (next_id st).

(** The state after [if obj.pk == None and autosave: obj.save(self)]. *)
Definition autosaved (autosave : bool) (d : document) (st : state) : state :=
  if is_None (pk_in (saved st) d) && autosave
  then mkState (backend st)
               (assoc_set Nat.eqb (oid d) (next_pk st) (saved st))
               (next_pk st + 1)%Z (next_id st)
  else st.

Definition bump (st : state) : state :=
  mkState (backend st) (saved st) (next_pk st) (S (next_id st)).

(** The collection a registered class is stored in; [""] stands for a class
    that is not registered. *)
Definition collection_of (b : Backend) (cls : doc_class) : string :=
  match class_get cls (classes b) with
  | Some p => e_collection p
  | None => ""
  end.

(** The key an include path is stored under. *)
Definition flat_key (include_key : string) : key :=
  KStr (replace "." "_" include_key).

Definition configured_includes (d : document) : list string :=
  match m_dbref_includes (Meta (__class__ d)) with
  | Some l => l
  | None => []
  end.

(** The include path is found on the instance, with this value. *)
Definition present (d : document) (path : string) (v : value) : Prop :=
  get_value (VDoc d) path = Return v.

(** The include path is missing: some mapping on the way lacks its key. *)
Definition absent (d : document) (path : string) : Prop :=
  get_value (VDoc d) path = Raise KeyError.

(** The include path runs into a value that cannot be subscripted. *)
Definition ill_typed (d : document) (path : string) : Prop :=
  get_value (VDoc d) path = Raise TypeError.

(** The stub after the present include paths were written into it. *)
Definition included (d : document) (includes : list string) (out : dict)
    : dict :=
  fold_left (fun out path =>
               match get_value (VDoc d) path with
               | Return v => dict_set (flat_key path) v out
               | Raise _ => out
               end) includes out.

(** The stub of an eager instance before the include paths are added. *)
Definition minimal_stub (d : document) (st : state) : dict :=
  [(KStr "pk", pk_in (saved st) d);
   (KStr "__collection__", VStr (collection_of (backend st) (__class__ d)))].

(** Every include path is found or missing: none is ill-typed. *)
Definition includes_well_typed (d : document) (includes : list string) : Prop :=
  Forall (fun path => ~ ill_typed d path) includes.

(** What the eager fetch of an instance brings: nothing when the record of
    a lazy instance is gone. *)
Definition fetched (d : document) : option dict :=
  if _lazy d then remote d else Some (attributes d).

(** [try: ... except obj.DoesNotExist: fallback] on a finished attempt. *)
Definition or_fall_back (d : document) (attempt : outcome value * state)
    (fallback : M value) : outcome value * state :=
  match attempt with
  | (Raise e, st') =>
      if is_DoesNotExist d e then fallback st' else (Raise e, st')
  | r => r
  end.

(** The stub of a lazy instance, from the copy of its known attributes. *)
Definition lazy_stub (d : document) (st : state) (copied : dict) : dict :=
  let output_obj :=
    if dict_mem (KStr (get_pk_name d)) copied
    then dict_del (KStr (get_pk_name d)) copied
    else copied in
  dict_set (KStr "__collection__")
    (VStr (collection_of (backend st) (__class__ d)))
    (dict_set (KStr "pk") (pk_in (saved st) d) output_obj).

(** The instance [create_instance] builds for a registered class. *)
Definition construct (p : entry) (i : nat) (cls : doc_class) (attrs : dict)
    (lazy : bool) : document :=
  match e_constructor p with
  | Some constructor => with_oid i (constructor attrs lazy)
  | None => new_document i cls attrs lazy
  end.

(** The attributes [deserialize] hands to [create_instance]: the deep copy
    of the mapping without its primary-key field and [__collection__]. *)
Definition reference_attributes (items : dict) (pk_field : string)
    (st : state) : dict :=
  dict_del (KStr "__collection__")
    (dict_del (KStr pk_field)
       (fst (copy_items (deepcopy_from (saved st)) items (S (next_id st))))).

(** The content of an object graph: what [==] compares.  Identities are left
    out and an instance is read with the primary key it has now. *)
Fixpoint content (sv : list (nat * Z)) (v : value) : value :=
  match v with
  | VDict _ items =>
      VDict 0 (map (fun kv => (fst kv, content sv (snd kv))) items)
  | VList _ items => VList 0 (map (content sv) items)
  | VTuple items => VTuple (map (content sv) items)
  | VDoc (Document o c p a l e r) =>
      VDoc (Document 0 c
              match p with
              | VNone => pk_in sv (Document o c p a l e r)
              | _ => content sv p
              end
              (map (fun kv => (fst kv, content sv (snd kv))) a) l e r)
  | _ => v
  end.

Definition content_items (sv : list (nat * Z)) (d : dict) : dict :=
  map (fun kv => (fst kv, content sv (snd kv))) d.

(** No object that is yet to be created has a saved primary key. *)
Definition store_closed (sv : list (nat * Z)) (n : nat) : Prop :=
  forall j, n <= j -> assoc_get Nat.eqb j sv = None.

(** Every identity of the graph lies in [[lo, hi)]. *)
Definition ids_within (lo hi : nat) (v : value) : Prop :=
  Forall (fun j => lo <= j < hi) (ids v).

Definition copies_fresh (sv : list (nat * Z)) (v : value) : Prop :=
  forall n v' n',
    deepcopy_from sv v n = (v', n') -> n <= n' /\ ids_within n n' v'.

Definition copy_keeps_content (sv : list (nat * Z)) (v : value) : Prop :=
  forall n, store_closed sv n ->
            content sv (fst (deepcopy_from sv v n)) = content sv v.

(** The keys [deserialize] reads a reference stub at. *)
Definition reserved (k : key) : bool :=
  key_eqb k (KStr "pk") || key_eqb k (KStr "__pk__")
  || key_eqb k (KStr "__collection__").

(** The fields an instance carries into its stub do not use the names of
    the stub's own fields: a lazy instance knows no attribute [__pk__], and
    no include path of an eager one is stored under a reserved key. *)
Definition carries_no_reserved_key (d : document) : Prop :=
  if _lazy d
  then dict_mem (KStr "__pk__") (lazy_attributes d) = false
  else Forall (fun path => reserved (flat_key path) = false)
              (configured_includes d).

(** Every [__collection__] value of the mappings [deserialize] walks
    through can be hashed. *)
Fixpoint collections_hashable (v : value) : bool :=
  match v with
  | VDict _ items =>
      match dict_get (KStr "__collection__") items with
      | Some cv => hashable cv
      | None => true
      end
      && forallb (fun kv => collections_hashable (snd kv)) items
  | VList _ items | VTuple items => forallb collections_hashable items
  | _ => true
  end.

(** Every name of the reverse index leads to a registered class. *)
Definition registry_closed (b : Backend) : Prop :=
  forall name cls,
    collection_get name (collections b) = Some cls ->
    class_get cls (classes b) <> None.

(** The mapping has the shape of a reference stub: a primary-key field and
    a [__collection__] that is a known collection name. *)
Definition is_reference (b : Backend) (items : dict) : bool :=
  match dict_get (KStr "__collection__") items with
  | Some (VStr name) =>
      assoc_mem String.eqb name (collections b)
      && (dict_mem (KStr "__pk__") items || dict_mem (KStr "pk") items)
  | _ => false
  end.

(** [rec] returns on [v] and leaves the registry as it is. *)
Definition returns_on (rec : value -> M value) (v : value) : Prop :=
  forall st, registry_closed (backend st) ->
    exists v' st', rec v st = (Return v', st') /\ backend st' = backend st.

(** ** Induction on object graphs *)

Section ValueInd.
Variable P : value -> Prop.
Hypothesis HNone : P VNone.
Hypothesis HBool : forall b, P (VBool b).
Hypothesis HInt : forall z, P (VInt z).
Hypothesis HStr : forall s, P (VStr s).
Hypothesis HDict : forall a items,
  Forall (fun kv => P (snd kv)) items -> P (VDict a items).
Hypothesis HList : forall a items, Forall P items -> P (VList a items).
Hypothesis HTuple : forall items, Forall P items -> P (VTuple items).
Hypothesis HDoc : forall o c p a l e r,
  P p -> Forall (fun kv => P (snd kv)) a ->
  P (VDoc (Document o c p a l e r)).

Fixpoint value_graph_ind (v : value) : P v :=
  let items_ind :=
    fix go (l : dict) : Forall (fun kv => P (snd kv)) l :=
      match l with
      | [] => Forall_nil _
      | kv :: l' => Forall_cons kv (value_graph_ind (snd kv)) (go l')
      end in
  let list_ind :=
    fix go (l : list value) : Forall P l :=
      match l with
      | [] => Forall_nil _
      | x :: l' => Forall_cons x (value_graph_ind x) (go l')
      end in
  match v with
  | VNone => HNone
  | VBool b => HBool b
  | VInt z => HInt z
  | VStr s => HStr s
  | VDict a items => HDict a (items_ind items)
  | VList a items => HList a (list_ind items)
  | VTuple items => HTuple (list_ind items)
  | VDoc (Document o c p a l e r) =>
      HDoc o c l e r (value_graph_ind p) (items_ind a)
  end.
End ValueInd.

(** ** Sample classes and instances *)

Module Sample.
Definition Author : doc_class := mkClass 1 "Author" (mkMeta None "pk" None).
Definition Book : doc_class :=
  mkClass 2 "Book" (mkMeta None "pk" (Some ["title"; "author.name"])).
Definition Tag : doc_class := mkClass 3 "Tag" (mkMeta None "pk" (Some ["labels"])).

(** A backend that saw no class yet. *)
Definition empty (allow_documents_in_query : bool) : Backend :=
  __init__ [] true true allow_documents_in_query.

Definition start (b : Backend) : state := mkState b [] 1000 100.

Definition named (c : string) : option params :=
  Some (mkParams (Some c) None []).
(** A book whose author is not set; [Book] includes "author.name". *)
Definition unauthored : document :=
  Document 7 Book (VInt 7)
    [(KStr "title", VStr "T"); (KStr "author", VNone)] false false None.

(** An unsaved author. *)
Definition jane : document :=
  Document 8 Author VNone [(KStr "name", VStr "Jane")] false false None.

(** A lazy reference to a book whose record is gone, and the same with the
    embed flag set. *)
Definition gone : document :=
  Document 9 Book (VInt 9) [(KStr "title", VStr "T")] true false None.
Definition gone_embedded : document :=
  Document 10 Book (VInt 10) [(KStr "title", VStr "T")] true true None.

(** A tag with a list of labels; [Tag] includes "labels". *)
Definition tagged : document :=
  Document 11 Tag (VInt 11)
    [(KStr "labels", VList 5 [VStr "a"; VStr "b"])] false false None.

(** A lazy reference to a tag that knows its labels. *)
Definition tagged_lazy : document :=
  Document 12 Tag (VInt 12)
    [(KStr "labels", VList 6 [VStr "a"; VStr "b"])] true false None.

(** A backend that knows [Author] and [Book]. *)
Definition library : Backend :=
  do_calls [Register Author None; Register Book None] (empty true).

(** A stored reference with both primary-key fields. *)
Definition legacy_stub : dict :=
  [(KStr "__pk__", VInt 1); (KStr "pk", VInt 2);
   (KStr "__collection__", VStr "book"); (KStr "title", VStr "T")].

(** A saved author with the embed flag set. *)
Definition embedded_jane : document :=
  Document 13 Author (VInt 13) [(KStr "name", VStr "Jane")] false true None.

(** A saved book with a title. *)
Definition novel : document :=
  Document 14 Book (VInt 14)
    [(KStr "title", VStr "T"); (KStr "pages", VInt 300)] false false None.

(** Stored data whose [__collection__] field is a list. *)
Definition odd_mapping : dict :=
  [(KStr "__collection__", VList 4 [VStr "a"]); (KStr "x", VInt 1)].

(** [Author] registered as "a", then as "b", then [Book] as "b": the
    reverse index keeps "a" for [Author], which is registered no more. *)
Definition renamed : Backend :=
  do_calls [Register Author (named "a"); Register Author (named "b");
            Register Book (named "b")] (empty true).

Definition stale_reference : dict :=
  [(KStr "x", VDict 4 [(KStr "pk", VInt 1);
                       (KStr "__collection__", VStr "a")])].

(** Plain data: a mapping with an integer key, a list and a tuple. *)
Definition plain : value :=
  VDict 1 [(KInt 1, VList 2 [VInt 1; VTuple [VStr "a"; VNone]]);
           (KStr "x", VDict 3 [(KStr "y", VBool true)])].

(** An unsaved author whose embed flag is not set, with plain attributes. *)
Definition writer : document :=
  Document 16 Author VNone
    [(KStr "name", VStr "Jane"); (KStr "tags", VList 17 [VStr "a"])]
    false false None.

(** A saved book whose attribute [prequel] is another saved book. *)
Definition sequel : document :=
  Document 18 Book (VInt 20)
    [(KStr "title", VStr "S"); (KStr "prequel", VDoc novel)] false false None.

(** An unsaved book with a title. *)
Definition draft : document :=
  Document 19 Book VNone [(KStr "title", VStr "T")] false false None.

(** [Author] registered, then registered anew as "writers". *)
Definition moved : Backend :=
  do_calls [Register Author None; Register Author (named "writers")]
           (empty true).
End Sample.

(** ** The encoder rule in the words of the specification *)

(** "The first matching predicate's transform replaces the value": the
    reading in which only that pair is applied. *)
Fixpoint first_match_only (encoders : list coder) (obj : value) : value :=
  match encoders with
  | [] => obj
  | (matcher, encoder) :: rest =>
      if matcher obj then encoder obj else first_match_only rest obj
  end.

Module SampleCoders.
Definition is_int (v : value) : bool :=
  match v with VInt _ => true | _ => false end.
Definition incr (v : value) : value :=
  match v with VInt z => VInt (z + 1) | _ => v end.
Definition double (v : value) : value :=
  match v with VInt z => VInt (2 * z) | _ => v end.
Definition encoders : list coder := [(is_int, incr); (is_int, double)].
End SampleCoders.

(** ** Further operations of the backend *)

(** The loop of [get_cls_for_collection] (lines 297-300). *)
Fixpoint get_cls_for_collection_loop (items : list (doc_class * entry))
    (collection : string) : outcome doc_class :=
  match items with
  | [] => Raise AttributeError
  | (cls, params) :: rest =>
      if String.eqb (e_collection params) collection then Return cls
      else get_cls_for_collection_loop rest collection
  end.

Definition get_cls_for_collection (self : Backend) (collection : string)
    : outcome doc_class :=
  get_cls_for_collection_loop (classes self) collection.

(** A backend as the code makes one: [__init__], then calls of [register]
    and [autoregister]. *)
Definition built (b : Backend) : Prop :=
  exists document_classes autodiscover autoload allow calls,
    b = do_calls calls (__init__ document_classes autodiscover autoload allow).

(** The entry [register] stores for a class (lines 100-101). *)
Definition new_entry (cls : doc_class) (parameters : option params) : entry :=
  mkEntry (resolved_name cls parameters)
    (match parameters with Some p => p_constructor p | None => None end)
    (match parameters with Some p => p_extra p | None => [] end).

(** ** Plain data *)

(** The value holds no document instance. *)
Fixpoint doc_free (v : value) : bool :=
  match v with
  | VDict _ items => forallb (fun kv => doc_free (snd kv)) items
  | VList _ items | VTuple items => forallb doc_free items
  | VDoc _ => false
  | _ => true
  end.

Fixpoint key_in (k : key) (l : list key) : bool :=
  match l with
  | [] => false
  | k' :: l' => key_eqb k k' || key_in k l'
  end.

Fixpoint nodup_keys (l : list key) : bool :=
  match l with
  | [] => true
  | k :: l' => negb (key_in k l') && nodup_keys l'
  end.

(** Every mapping of the value has each key once, as a Python dict has. *)
Fixpoint unique_keys (v : value) : bool :=
  match v with
  | VDict _ items =>
      nodup_keys (map fst items)
      && forallb (fun kv => unique_keys (snd kv)) items
  | VList _ items | VTuple items => forallb unique_keys items
  | _ => true
  end.

Definition is_str (k : key) : bool :=
  match k with KStr _ => true | KInt _ => false end.

(** Every key of every mapping of the value is a string. *)
Fixpoint str_keys (v : value) : bool :=
  match v with
  | VDict _ items =>
      forallb (fun kv => is_str (fst kv) && str_keys (snd kv)) items
  | VList _ items | VTuple items => forallb str_keys items
  | _ => true
  end.

(** The call changed nothing but the counter of objects. *)
Definition only_counts (st st' : state) : Prop :=
  backend st' = backend st /\ saved st' = saved st
  /\ next_pk st' = next_pk st /\ next_id st <= next_id st'.

(** [rec] returns on [v], with a result that [R] relates to [v], and
    changes nothing but the counter of objects. *)
Definition returns_with (rec : value -> M value) (R : value -> value -> Prop)
    (v : value) : Prop :=
  forall st, exists v' st',
    rec v st = (Return v', st') /\ only_counts st st' /\ R v v'.

(** [output_obj] after the entries were written into it one by one. *)
Definition written (entries : dict) (output_obj : dict) : dict :=
  fold_left (fun o kv => dict_set (fst kv) (snd kv) o) entries output_obj.

(** What [serialize] makes of plain data: plain data again; with
    [convert_keys_to_str] every key a string, without it the same content. *)
Definition plain_result (convert_keys_to_str : bool) (v v' : value) : Prop :=
  doc_free v' = true
  /\ (convert_keys_to_str = true -> str_keys v' = true)
  /\ (convert_keys_to_str = false -> unique_keys v = true ->
      unique_keys v' = true /\ forall sv, content sv v' = content sv v).

(** Whatever [m] does, returning or raising, the states before and after
    are related by [I]. *)
Definition keeps {A} (I : state -> state -> Prop) (m : M A) : Prop :=
  forall st o st', m st = (o, st') -> I st st'.


(** The backend allows documents in queries. *)
Definition allowed (st : state) : Prop :=
  _allow_documents_in_query (backend st) = true.

(** The setting for queries is left as it was. *)
Definition flag_kept (st st' : state) : Prop :=
  _allow_documents_in_query (backend st')
  = _allow_documents_in_query (backend st).

(** From a state whose backend allows documents in queries the two
    computations do the same, and the backend still allows them after. *)
Definition agree_when_allowed {A} (m1 m2 : M A) : Prop :=
  forall st, allowed st -> m1 st = m2 st /\ allowed (snd (m1 st)).

(** No mapping of the value has the key [__collection__]. *)
Fixpoint no_collection_key (v : value) : bool :=
  match v with
  | VDict _ items =>
      negb (key_in (KStr "__collection__") (map fst items))
      && forallb (fun kv => no_collection_key (snd kv)) items
  | VList _ items | VTuple items => forallb no_collection_key items
  | _ => true
  end.

(** The value with every tuple turned into a list. *)
Fixpoint listify (v : value) : value :=
  match v with
  | VDict a items => VDict a (map (fun kv => (fst kv, listify (snd kv))) items)
  | VList a items => VList a (map listify items)
  | VTuple items => VList 0 (map listify items)
  | _ => v
  end.

(** What [deserialize] makes of plain data: the same content, tuples as
    lists. *)
Definition listed (v v' : value) : Prop :=
  doc_free v' = true /\ forall sv, content sv v' = content sv (listify v).

(** ** The embedding rule in the words of the specification *)

Section Each.
Variables (convert_keys_to_str autosave for_query : bool) (embed_level : Z).

(** "Serializes the attributes recursively with [embed_level]": every value
    of the mapping is serialized by [serialize] at that level, one after the
    other, each from the state the one before left; the first error ends the
    run. *)
Fixpoint serialize_each (items : dict) : M dict :=
  match items with
  | [] => ret []
  | (key, value) :: rest =>
      value' <- serialize value convert_keys_to_str embed_level None
                  autosave for_query ;;
      out <- serialize_each rest ;;
      ret ((if convert_keys_to_str then str key else key, value') :: out)
  end.

(** The same for the elements of a list or a tuple. *)
Fixpoint serialize_all (l : list value) : M (list value) :=
  match l with
  | [] => ret []
  | value :: rest =>
      value' <- serialize value convert_keys_to_str embed_level None
                  autosave for_query ;;
      out <- serialize_all rest ;;
      ret (value' :: out)
  end.

(** What an instance is embedded as: a new mapping with the serialized
    values of the attributes. *)
Definition embedded_as (attrs : dict) : M value :=
  i <- fresh ;;
  out <- serialize_each attrs ;;
  ret (VDict i (written out [])).
End Each.

(** * Properties *)

(** ** Association lists *)

Section AssocFacts.
Variables (K V : Type) (eqb : K -> K -> bool).
Hypothesis eqb_spec : forall x y, eqb x y = true <-> x = y.

Lemma eqb_refl_of k : eqb k k = true.
Proof. now apply eqb_spec. Qed.

Lemma eqb_neq_of k k' : k <> k' -> eqb k k' = false.
Proof.
  intros H. destruct (eqb k k') eqn:E; [|reflexivity].
  apply eqb_spec in E. contradiction.
Qed.

Lemma assoc_get_set_same k (v : V) d :
  assoc_get eqb k (assoc_set eqb k v d) = Some v.
Proof.
  induction d as [|[k' v'] d IH]; simpl.
  - now rewrite eqb_refl_of.
  - destruct (eqb k k') eqn:E; simpl; rewrite E; auto.
Qed.

Lemma assoc_get_set_other k k' (v : V) d :
  k <> k' -> assoc_get eqb k (assoc_set eqb k' v d) = assoc_get eqb k d.
Proof.
  intros Hne. induction d as [|[k2 v2] d IH]; simpl.
  - now rewrite (eqb_neq_of Hne).
  - destruct (eqb k' k2) eqn:E; simpl.
    + apply eqb_spec in E. subst k2. now rewrite (eqb_neq_of Hne).
    + now rewrite IH.
Qed.

Lemma assoc_get_del_same k (d : list (K * V)) :
  assoc_get eqb k (assoc_del eqb k d) = None.
Proof.
  induction d as [|[k' v'] d IH]; simpl; auto.
  destruct (eqb k k') eqn:E; simpl; auto. now rewrite E.
Qed.

Lemma assoc_get_del_other k k' (d : list (K * V)) :
  k <> k' -> assoc_get eqb k (assoc_del eqb k' d) = assoc_get eqb k d.
Proof.
  intros Hne. induction d as [|[k2 v2] d IH]; simpl; auto.
  destruct (eqb k' k2) eqn:E; simpl.
  - apply eqb_spec in E. subst k2. now rewrite (eqb_neq_of Hne).
  - now rewrite IH.
Qed.

Lemma assoc_get_In k (v : V) d :
  assoc_get eqb k d = Some v -> In (k, v) d.
Proof.
  induction d as [|[k' v'] d IH]; simpl; [discriminate|].
  destruct (eqb k k') eqn:E.
  - intros [= <-]. apply eqb_spec in E. subst. now left.
  - intros H. right. auto.
Qed.

(** What is left of a key after the keys of [dl] were deleted. *)
Lemma assoc_get_fold_del (dl : list K) : forall (d : list (K * V)) k,
  assoc_get eqb k (fold_left (fun cs x => assoc_del eqb x cs) dl d)
  = if existsb (eqb k) dl then None else assoc_get eqb k d.
Proof.
  induction dl as [|x dl IH]; intros d k; simpl; auto.
  rewrite IH. destruct (eqb k x) eqn:E; simpl.
  - apply eqb_spec in E. subst x.
    rewrite assoc_get_del_same. now destruct (existsb (eqb k) dl).
  - rewrite assoc_get_del_other; auto.
    intros ->. now rewrite eqb_refl_of in E.
Qed.

Lemma assoc_mem_set k k' (v : V) d :
  assoc_mem eqb k d = true -> assoc_mem eqb k (assoc_set eqb k' v d) = true.
Proof.
  unfold assoc_mem. intros H.
  destruct (eqb k' k) eqn:E.
  - apply eqb_spec in E. subst. now rewrite assoc_get_set_same.
  - rewrite assoc_get_set_other; auto.
    intros ->. now rewrite eqb_refl_of in E.
Qed.
End AssocFacts.

Lemma class_eqb_spec x y : class_eqb x y = true <-> x = y.
Proof.
  unfold class_eqb. destruct (doc_class_eq_dec x y); split; congruence.
Qed.

Lemma key_eqb_spec x y : key_eqb x y = true <-> x = y.
Proof.
  destruct x, y; simpl; split; try congruence.
  - intros H. apply String.eqb_eq in H. congruence.
  - intros [= ->]. apply String.eqb_refl.
  - intros H. apply Z.eqb_eq in H. congruence.
  - intros [= ->]. apply Z.eqb_refl.
Qed.

(** ** The registry *)

Lemma register_collections b cls ps :
  collections (register b cls ps)
  = assoc_set String.eqb (resolved_name cls ps) cls (collections b).
Proof. destruct ps; reflexivity. Qed.

(** The entries of [register]'s result: the new one, and the old ones that
    own another collection. *)
Lemma register_class_get b cls ps t p :
  class_get t (classes (register b cls ps)) = Some p ->
  (t = cls /\ e_collection p = resolved_name cls ps) \/
  (t <> cls /\ class_get t (classes b) = Some p /\
   e_collection p <> resolved_name cls ps).
Proof.
  unfold class_get.
  assert (E : exists q, classes (register b cls ps)
     = assoc_set class_eqb cls
         (mkEntry (resolved_name cls ps) (p_constructor q) (p_extra q))
         (fold_left (fun cs x => assoc_del class_eqb x cs)
            (map fst (filter (collides (resolved_name cls ps)) (classes b)))
            (classes b))).
  { destruct ps as [q|]; [exists q | exists (mkParams None None [])];
      reflexivity. }
  destruct E as [q ->].
  destruct (doc_class_eq_dec t cls) as [->|Hne].
  - rewrite (assoc_get_set_same _ class_eqb_spec). intros [= <-]. now left.
  - rewrite (assoc_get_set_other _ class_eqb_spec) by assumption.
    rewrite (assoc_get_fold_del _ class_eqb_spec).
    destruct (existsb _ _) eqn:Ex; [discriminate|].
    intros Hget. right. repeat split; auto.
    intros Hc.
    assert (Hin : existsb (class_eqb t)
              (map fst (filter (collides (resolved_name cls ps)) (classes b)))
            = true).
    { apply existsb_exists. exists t. split; [|now apply class_eqb_spec].
      apply in_map_iff. exists (t, p). split; auto.
      apply filter_In. split.
      - now apply (assoc_get_In _ class_eqb_spec).
      - unfold collides. simpl. rewrite Hc. apply String.eqb_refl. }
    congruence.
Qed.

Lemma register_resolves_back b cls ps :
  resolves_back b -> resolves_back (register b cls ps).
Proof.
  intros Hb t c [p [Hget Hc]].
  rewrite register_collections. unfold collection_get.
  destruct (register_class_get _ _ _ _ Hget) as [[-> Hp] | (Hne & Hold & Hp)].
  - subst c. rewrite Hp.
    apply (assoc_get_set_same _ String.eqb_eq).
  - rewrite (assoc_get_set_other _ String.eqb_eq) by congruence.
    apply Hb. now exists p.
Qed.

Lemma do_calls_resolves_back cs : forall b,
  resolves_back b -> resolves_back (do_calls cs b).
Proof.
  induction cs as [|c cs IH]; intros b Hb; simpl; auto.
  apply IH. destruct c; simpl; apply register_resolves_back; assumption.
Qed.

Lemma init_resolves_back dcs a l q : resolves_back (__init__ dcs a l q).
Proof.
  assert (H0 : resolves_back (mkBackend [] [] l q)).
  { intros t c [p [H _]]. discriminate. }
  unfold __init__. destruct a; auto.
  unfold autodiscover_classes. revert H0. generalize (mkBackend [] [] l q).
  induction dcs as [|d dcs IH]; intros b Hb; simpl; auto.
  apply IH. now apply register_resolves_back.
Qed.

(** The reverse index never loses a name. *)
Lemma do_calls_keeps_names cs : forall b c,
  assoc_mem String.eqb c (collections b) = true ->
  assoc_mem String.eqb c (collections (do_calls cs b)) = true.
Proof.
  induction cs as [|x cs IH]; intros b c H; simpl; auto.
  apply IH. destruct x; cbn [do_call]; unfold autoregister;
    rewrite register_collections; now apply (assoc_mem_set _ String.eqb_eq).
Qed.

(** C3 at its failing input: after [register(Author)] and then
    [register(Author, {'collection': 'writers'})] the reverse index still maps
    "author" to [Author], whose resolved collection name is now "writers": an
    orphaned reverse mapping. *)
Lemma registry_orphan_after_rename :
  ~ consistent
      (do_calls [Register Sample.Author None;
                 Register Sample.Author (Sample.named "writers")]
                (Sample.empty true)).
Proof.
  intros [_ Horphan].
  destruct (Horphan "author" Sample.Author eq_refl) as [p [Hget Hc]].
  vm_compute in Hget. injection Hget as <-. discriminate Hc.
Qed.

(** X25 (the half of C3 that holds): after any sequence of [register] and
    [autoregister] calls on a new backend, every registered type with
    resolved collection name [c] is what the reverse index maps [c] to; and
    a name that is a key of the reverse index stays one, whatever is
    registered later. *)
Theorem registry_resolves_back :
  forall dcs autodiscover autoload allow calls,
    let b := do_calls calls (__init__ dcs autodiscover autoload allow) in
    resolves_back b /\
    forall later c,
      assoc_mem String.eqb c (collections b) = true ->
      assoc_mem String.eqb c (collections (do_calls later b)) = true.
Proof.
  intros dcs a l q calls b. split.
  - apply do_calls_resolves_back, init_resolves_back.
  - intros later c. apply do_calls_keeps_names.
Qed.

Lemma create_instance_stale c t attrs lazy st :
  collection_get c (collections (backend st)) = Some t ->
  class_get t (classes (backend st)) = None ->
  create_instance (inl c) attrs lazy st = (Raise KeyError, st).
Proof.
  intros Hc Ht. unfold create_instance, bind, get_backend, ret.
  rewrite Hc. cbn [backend]. now rewrite Ht.
Qed.

(** C3 (what the code does against the claim): [register] writes the
    reverse index at the collection name it resolved (line 99) and deletes
    nothing from it; lines 91-97 prune [self.classes] alone.  So a name [c]
    that the reverse index maps to the class that is registered anew under
    another name, or to a class that the call evicts, is still mapped to
    that class after the call, while the class is not registered with [c]:
    an orphaned reverse mapping, and the two tables are not consistent.  For
    an evicted class [create_instance(c, ...)] then finds the name in
    [self.collections] and raises [KeyError] at line 257. *)
Theorem register_leaves_orphan :
  forall (b : Backend) (cls t : doc_class) (parameters : option params)
         (c : string),
    collection_get c (collections b) = Some t ->
    c <> resolved_name cls parameters ->
    (t = cls \/
     exists p, class_get t (classes b) = Some p /\
               e_collection p = resolved_name cls parameters) ->
    let b' := register b cls parameters in
    collection_get c (collections b') = Some t
    /\ ~ registered_as b' t c
    /\ ~ consistent b'
    /\ (t <> cls ->
        class_get t (classes b') = None /\
        forall attrs lazy st,
          backend st = b' ->
          create_instance (inl c) attrs lazy st = (Raise KeyError, st)).
Proof.
  intros b cls t ps c Hc Hne Hwho b'.
  assert (Hkept : collection_get c (collections b') = Some t).
  { unfold b'. rewrite register_collections. unfold collection_get.
    now rewrite (assoc_get_set_other _ String.eqb_eq) by assumption. }
  assert (Hgone : t <> cls -> class_get t (classes b') = None).
  { intros Ht. destruct Hwho as [->|(p & Hp & Hpc)]; [congruence|].
    destruct (class_get t (classes b')) as [p'|] eqn:E; [|reflexivity].
    destruct (register_class_get _ _ _ _ E) as [[-> _]|(_ & Hold & Hc')];
      congruence. }
  assert (Hnot : ~ registered_as b' t c).
  { intros (p' & Hget & Hp').
    destruct (register_class_get _ _ _ _ Hget) as [[-> Hres]|(Ht & _ & _)].
    - congruence.
    - rewrite (Hgone Ht) in Hget. discriminate. }
  split; [exact Hkept|]. split; [exact Hnot|]. split.
  - intros [_ Horphan]. apply Hnot. now apply Horphan.
  - intros Ht. split; [now apply Hgone|].
    intros attrs lazy st Hst. apply create_instance_stale with (t := t).
    + now rewrite Hst.
    + rewrite Hst. now apply Hgone.
Qed.

Lemma register_leaves_orphan_witness :
  (collection_get "author" (collections Sample.moved) = Some Sample.Author
   /\ registered_as Sample.moved Sample.Author "writers"
   /\ ~ registered_as Sample.moved Sample.Author "author"
   /\ ~ consistent Sample.moved)
  /\ (collection_get "a" (collections Sample.renamed) = Some Sample.Author
      /\ class_get Sample.Author (classes Sample.renamed) = None
      /\ create_instance (inl "a") [] true (Sample.start Sample.renamed)
         = (Raise KeyError, Sample.start Sample.renamed)).
Proof.
  split.
  - destruct (@register_leaves_orphan
                (do_calls [Register Sample.Author None] (Sample.empty true))
                Sample.Author Sample.Author (Sample.named "writers")
                "author" eq_refl) as (Hkept & Hnot & Hinc & _).
    + discriminate.
    + now left.
    + split; [exact Hkept|]. split; [|split; [exact Hnot|exact Hinc]].
      eexists. split; reflexivity.
  - destruct (@register_leaves_orphan
                (do_calls [Register Sample.Author (Sample.named "a");
                           Register Sample.Author (Sample.named "b")]
                          (Sample.empty true))
                Sample.Book Sample.Author (Sample.named "b") "a" eq_refl)
      as (Hkept & _ & _ & Hstale).
    + discriminate.
    + right. eexists. split; reflexivity.
    + destruct Hstale as [Hnone Hraise]; [discriminate|].
      split; [exact Hkept|]. split; [exact Hnone|].
      now apply Hraise.
Defined.

(** ** Encoders *)

Lemma apply_coders_skip pre : forall post obj,
  Forall (fun mc : coder => fst mc obj = false) pre ->
  apply_coders (Some (pre ++ post)) obj = apply_coders (Some post) obj.
Proof.
  induction pre as [|[m e] pre IH]; intros post obj H; [reflexivity|].
  inversion H as [|? ? Hm Hpre]; subst. simpl in Hm.
  change (apply_coders (Some (((m, e) :: pre) ++ post)) obj)
    with (apply_coders (Some (pre ++ post)) (if m obj then e obj else obj)).
  rewrite Hm. now apply IH.
Qed.

(** C2 (as stated, refuted): with the encoders [(is_int, incr); (is_int,
    double)] the value 1 is serialized to 4, not to the 2 that the first
    matching pair alone gives: the second pair is applied to the value the
    first one returned. *)
Lemma encoders_not_first_match_only :
  exists (encoders : list coder) (obj : value) (st : state),
    encoders <> [] /\
    serialize obj false 0 (Some encoders) true false st
    <> serialize (first_match_only encoders obj) false 0 None true false st.
Proof.
  exists SampleCoders.encoders, (VInt 1), (Sample.start (Sample.empty true)).
  split; [discriminate|]. vm_compute. discriminate.
Qed.

(** C2 (amended): the pairs are checked in order, each against the current
    value; once the first matching pair has replaced the value, the rest of
    the list is run on the replaced value, and every later pair whose
    predicate matches it is applied too, before the remaining rules classify
    the result. *)
Theorem encoders_applied_in_sequence :
  forall pre matcher encoder post obj convert_keys_to_str embed_level
         autosave for_query,
    Forall (fun mc : coder => fst mc obj = false) pre ->
    matcher obj = true ->
    serialize obj convert_keys_to_str embed_level
      (Some (pre ++ (matcher, encoder) :: post)) autosave for_query
    = serialize (apply_coders (Some post) (encoder obj)) convert_keys_to_str
        embed_level None autosave for_query.
Proof.
  intros pre m e post obj k lvl a q Hpre Hm. unfold serialize.
  rewrite apply_coders_skip by assumption.
  change (apply_coders (Some ((m, e) :: post)) obj)
    with (apply_coders (Some post) (if m obj then e obj else obj)).
  now rewrite Hm.
Qed.

Lemma encoders_applied_in_sequence_witness :
  serialize (VInt 1) false 0
    (Some ([] ++ (SampleCoders.is_int, SampleCoders.incr)
              :: [(SampleCoders.is_int, SampleCoders.double)])) true false
  = serialize
      (apply_coders (Some [(SampleCoders.is_int, SampleCoders.double)])
                    (SampleCoders.incr (VInt 1)))
      false 0 None true false.
Proof.
  apply (@encoders_applied_in_sequence [] SampleCoders.is_int SampleCoders.incr
           [(SampleCoders.is_int, SampleCoders.double)] (VInt 1)).
  - constructor.
  - reflexivity.
Defined.

(** ** Running the reference case *)

Lemma register_class_get_same b cls ps :
  exists p, class_get cls (classes (register b cls ps)) = Some p /\
            e_collection p = resolved_name cls ps.
Proof.
  destruct ps as [q|]; eexists; (split; [apply (assoc_get_set_same _ class_eqb_spec)|]);
    reflexivity.
Qed.

Lemma ensure_registered_get b cls :
  exists p, class_get cls (classes (ensure_registered b cls)) = Some p.
Proof.
  unfold ensure_registered, assoc_mem.
  destruct (assoc_get class_eqb cls (classes b)) as [p|] eqn:E.
  - now exists p.
  - destruct (register_class_get_same b cls (Some (get_meta_attributes cls)))
      as [p [Hp _]]. now exists p.
Qed.

Lemma ensure_registered_flag b cls :
  _allow_documents_in_query (ensure_registered b cls)
  = _allow_documents_in_query b.
Proof.
  unfold ensure_registered. now destruct (assoc_mem _ _ _).
Qed.

Lemma get_collection_for_cls_run cls st :
  get_collection_for_cls cls st
  = (Return (collection_of (ensure_registered (backend st) cls) cls),
     with_backend st (ensure_registered (backend st) cls)).
Proof.
  destruct (ensure_registered_get (backend st) cls) as [p Hp].
  unfold collection_of. rewrite Hp.
  unfold get_collection_for_cls, ensure_registered in *.
  unfold bind, get_backend, set_backend, ret, with_backend.
  destruct (assoc_mem class_eqb cls (classes (backend st))) eqn:E;
    cbn [backend saved next_pk next_id]; rewrite Hp.
  - now destruct st.
  - reflexivity.
Qed.

Lemma serialize_document_run d k a q st :
  embed d = false ->
  serialize (VDoc d) k 0 None a q st
  = serialize_reference a q d
      (with_backend st (ensure_registered (backend st) (__class__ d))).
Proof.
  intros He. unfold serialize, apply_coders.
  change (Z.to_nat 0) with O. cbn [serialize_with_opts].
  unfold bind at 1. unfold get_collection_for_obj.
  rewrite get_collection_for_cls_run. now rewrite He.
Qed.

Lemma autosave_run A a d (k : M A) st :
  (p <- pk d ;; (if is_None p && a then save d else ret tt) ;;; k) st
  = k (autosaved a d st).
Proof.
  unfold bind, pk, autosaved, save, ret.
  destruct (is_None (pk_in (saved st) d)) eqn:E; destruct a; cbn;
    rewrite ?E; reflexivity.
Qed.

Lemma serialize_reference_eager_run a q d st p :
  _lazy d = false ->
  class_get (__class__ d) (classes (backend st)) = Some p ->
  serialize_reference a q d st
  = if q && negb (_allow_documents_in_query (backend st))
    then (Raise QueryDocumentNotAllowed, autosaved a d st)
    else match add_includes d (configured_includes d)
                 (minimal_stub d (autosaved a d st)) with
         | Return out =>
             (Return (VDict (next_id st) out), bump (autosaved a d st))
         | Raise e => (Raise e, bump (autosaved a d st))
         end.
Proof.
  intros Hl Hp. unfold serialize_reference.
  rewrite autosave_run. rewrite Hl.
  assert (Hb : backend (autosaved a d st) = backend st).
  { unfold autosaved. now destruct (_ && _). }
  assert (Hn : next_id (autosaved a d st) = next_id st).
  { unfold autosaved. now destruct (_ && _). }
  unfold bind at 1. unfold get_backend at 1. rewrite Hb.
  destruct (q && negb (_allow_documents_in_query (backend st))); [reflexivity|].
  unfold classes_collection, minimal_stub, collection_of,
    configured_includes, bump, lift.
  unfold bind, fresh, pk, get_backend, ret.
  cbn [backend saved next_pk next_id]. rewrite Hb, Hp, Hn.
  destruct (m_dbref_includes (Meta (__class__ d))) as [[|x l]|];
    try reflexivity.
Qed.

(** ** Include paths *)

Lemma dict_get_set k k' v d :
  dict_get k (dict_set k' v d) = if key_eqb k k' then Some v else dict_get k d.
Proof.
  unfold dict_get, dict_set. destruct (key_eqb k k') eqn:E.
  - apply key_eqb_spec in E. subst. apply (assoc_get_set_same _ key_eqb_spec).
  - apply (assoc_get_set_other _ key_eqb_spec).
    intros ->. rewrite (proj2 (key_eqb_spec k' k') eq_refl) in E. discriminate.
Qed.

Lemma getitem_raises v f e :
  getitem v f = Raise e -> e = KeyError \/ e = TypeError.
Proof.
  destruct v as [| | | |a items|a items|items|d]; simpl;
    try (intros [= <-]; now right).
  - destruct (dict_get _ _); [discriminate|]. intros [= <-]. now left.
  - unfold document_getitem.
    destruct (dict_get _ _); [discriminate|]. intros [= <-]. now left.
Qed.

Lemma get_value_raises v path e :
  get_value v path = Raise e -> e = KeyError \/ e = TypeError.
Proof.
  unfold get_value. generalize (split "." path) as fs.
  intros fs. revert v. induction fs as [|f fs IH]; intros v; simpl.
  - discriminate.
  - destruct (getitem v f) as [w|e'] eqn:E.
    + apply IH.
    + intros [= <-]. eapply getitem_raises, E.
Qed.

Lemma add_includes_run d includes : forall out,
  includes_well_typed d includes ->
  add_includes d includes out = Return (included d includes out).
Proof.
  induction includes as [|path rest IH]; intros out H; [reflexivity|].
  inversion H as [|? ? Hp Hrest]; subst. unfold included. simpl.
  destruct (get_value (VDoc d) path) as [v|e] eqn:E.
  - now apply IH.
  - destruct (get_value_raises _ _ E) as [-> | ->].
    + now apply IH.
    + now elim Hp.
Qed.

(** The first ill-typed path makes the loop fail. *)
Lemma add_includes_ill_typed d pre path post : forall out,
  includes_well_typed d pre ->
  ill_typed d path ->
  add_includes d (pre ++ path :: post) out = Raise TypeError.
Proof.
  induction pre as [|x pre IH]; intros out Hpre Hbad; simpl.
  - unfold ill_typed in Hbad. now rewrite Hbad.
  - inversion Hpre as [|? ? Hx Hrest]; subst.
    destruct (get_value (VDoc d) x) as [v|e] eqn:E; [now apply IH|].
    destruct (get_value_raises _ _ E) as [-> | ->]; [now apply IH|].
    now elim Hx.
Qed.

(** The keys of the stub: those it had, and the keys of the paths found. *)
Lemma included_mem d includes : forall out k,
  dict_mem k (included d includes out) = true <->
  dict_mem k out = true \/
  exists path v, In path includes /\ present d path v /\ k = flat_key path.
Proof.
  unfold included, present.
  induction includes as [|x rest IH]; intros out k; simpl.
  - split; [now left|]. intros [H|(p & v & [] & _)]. exact H.
  - rewrite IH. destruct (get_value (VDoc d) x) as [w|e] eqn:E.
    + unfold dict_mem, assoc_mem.
      change (assoc_get key_eqb) with dict_get.
      change (assoc_set key_eqb) with dict_set.
      rewrite dict_get_set.
      destruct (key_eqb k (flat_key x)) eqn:Ek; split.
      * intros _. right. exists x, w. apply key_eqb_spec in Ek. auto.
      * intros _. now left.
      * intros [H|(p & v & Hin & Hp & Hk)]; [now left|].
        right. exists p, v. auto.
      * intros [H|(p & v & [<-|Hin] & Hp & Hk)]; [now left| |].
        -- subst k. rewrite (proj2 (key_eqb_spec _ _) eq_refl) in Ek.
           discriminate.
        -- right. exists p, v. auto.
    + split.
      * intros [H|(p & v & Hin & Hp & Hk)]; [now left|].
        right. exists p, v. auto.
      * intros [H|(p & v & [<-|Hin] & Hp & Hk)]; [now left| |].
        -- congruence.
        -- right. exists p, v. auto.
Qed.

(** The value under a key: that of the last path found that is stored there. *)
Lemma included_get_last d pre path post v : forall out,
  present d path v ->
  Forall (fun p' => forall w, present d p' w -> flat_key p' <> flat_key path)
         post ->
  dict_get (flat_key path) (included d (pre ++ path :: post) out) = Some v.
Proof.
  intros out Hp Hpost. unfold included. rewrite fold_left_app. simpl.
  unfold present in Hp. rewrite Hp.
  match goal with |- context [dict_set ?k ?x ?o] =>
    assert (H0 : dict_get k (dict_set k x o) = Some v)
      by (rewrite dict_get_set, (proj2 (key_eqb_spec _ _) eq_refl); reflexivity);
    revert H0; generalize (dict_set k x o) end.
  induction post as [|x post IH]; intros o Ho; simpl; auto.
  inversion Hpost as [|? ? Hx Hrest]; subst. apply IH; auto.
  destruct (get_value (VDoc d) x) as [w|e] eqn:E; auto.
  rewrite dict_get_set.
  destruct (key_eqb (flat_key path) (flat_key x)) eqn:Ek; auto.
  apply key_eqb_spec in Ek. elim (Hx w E). congruence.
Qed.

(** ** The query restriction and autosave *)

Lemma autosaved_backend a d st : backend (autosaved a d st) = backend st.
Proof. unfold autosaved. now destruct (_ && _). Qed.

Lemma serialize_eager_run d k a q st :
  _lazy d = false -> embed d = false ->
  let st1 := with_backend st (ensure_registered (backend st) (__class__ d)) in
  serialize (VDoc d) k 0 None a q st
  = if q && negb (_allow_documents_in_query (backend st))
    then (Raise QueryDocumentNotAllowed, autosaved a d st1)
    else match add_includes d (configured_includes d)
                 (minimal_stub d (autosaved a d st1)) with
         | Return out =>
             (Return (VDict (next_id st) out), bump (autosaved a d st1))
         | Raise e => (Raise e, bump (autosaved a d st1))
         end.
Proof.
  intros Hl He st1. rewrite serialize_document_run by assumption.
  destruct (ensure_registered_get (backend st) (__class__ d)) as [p Hp].
  fold st1. rewrite (@serialize_reference_eager_run a q d st1 p Hl Hp).
  replace (_allow_documents_in_query (backend st1))
    with (_allow_documents_in_query (backend st))
    by (symmetry; apply ensure_registered_flag).
  reflexivity.
Qed.

(** X22 (what C4 says, where it holds): a non-lazy instance whose embed flag is
    false, serialized with [embed_level=0] and [for_query=True]: when the
    backend does not allow documents in queries the call raises the error of
    line 186; when it does, and no include path is ill-typed, the call
    returns the stub made of [pk] and [__collection__] and of the configured
    include fields that are found, which is exactly [{pk, __collection__}]
    when none is configured. *)
Theorem query_restriction :
  forall (d : document) (convert_keys_to_str autosave : bool) (st : state),
    _lazy d = false ->
    embed d = false ->
    (_allow_documents_in_query (backend st) = true ->
     includes_well_typed d (configured_includes d)) ->
    let st' :=
      autosaved autosave d
        (with_backend st (ensure_registered (backend st) (__class__ d))) in
    let stub := included d (configured_includes d) (minimal_stub d st') in
    serialize (VDoc d) convert_keys_to_str 0 None autosave true st
    = (if _allow_documents_in_query (backend st)
       then (Return (VDict (next_id st) stub), bump st')
       else (Raise QueryDocumentNotAllowed, st'))
    /\ (configured_includes d = [] ->
        stub = [(KStr "pk", pk_in (saved st') d);
                (KStr "__collection__",
                 VStr (collection_of (backend st') (__class__ d)))]).
Proof.
  intros d k a st Hl He Hinc st' stub. split.
  - rewrite serialize_eager_run by assumption. cbn [andb].
    destruct (_allow_documents_in_query (backend st)); cbn [negb]; auto.
    fold st'. now rewrite add_includes_run by auto.
  - intros E. unfold stub. now rewrite E.
Qed.

Lemma query_restriction_witness :
  serialize (VDoc Sample.jane) false 0 None true true
    (Sample.start (Sample.empty false))
  = (Raise QueryDocumentNotAllowed,
     mkState (ensure_registered (Sample.empty false) Sample.Author)
             [(8, 1000%Z)] 1001 100)
  /\ serialize (VDoc Sample.jane) false 0 None true true
       (Sample.start (Sample.empty true))
     = (Return (VDict 100 [(KStr "pk", VInt 1000);
                           (KStr "__collection__", VStr "author")]),
        mkState (ensure_registered (Sample.empty true) Sample.Author)
                [(8, 1000%Z)] 1001 101).
Proof.
  split.
  - apply (@query_restriction Sample.jane false true
             (Sample.start (Sample.empty false)) eq_refl eq_refl).
    discriminate.
  - apply (@query_restriction Sample.jane false true
             (Sample.start (Sample.empty true)) eq_refl eq_refl).
    intros _. constructor.
Defined.

(** C4 (what the code does against the claim): for an instance with an
    ill-typed include path the query call fails either way: with the error
    of line 186 when documents are not allowed in queries, and with the
    [TypeError] of [get_value] when they are, where the claim has the call
    succeed. *)
Theorem query_call_with_ill_typed_include :
  forall (d : document) (convert_keys_to_str autosave : bool)
         (st_no st_yes : state) (pre : list string) (path : string)
         (post : list string),
    _lazy d = false ->
    embed d = false ->
    _allow_documents_in_query (backend st_no) = false ->
    _allow_documents_in_query (backend st_yes) = true ->
    configured_includes d = pre ++ path :: post ->
    includes_well_typed d pre ->
    ill_typed d path ->
    (exists st',
       serialize (VDoc d) convert_keys_to_str 0 None autosave true st_no
       = (Raise QueryDocumentNotAllowed, st'))
    /\ (exists st',
         serialize (VDoc d) convert_keys_to_str 0 None autosave true st_yes
         = (Raise TypeError, st')).
Proof.
  intros d k a st_no st_yes pre path post Hl He Hno Hyes Hinc Hpre Hbad.
  split; eexists; rewrite serialize_eager_run by assumption.
  - rewrite Hno. reflexivity.
  - rewrite Hyes, Hinc. cbn [andb negb].
    now rewrite add_includes_ill_typed by assumption.
Qed.

Lemma query_call_with_ill_typed_include_witness :
  (exists st',
     serialize (VDoc Sample.unauthored) false 0 None true true
       (Sample.start (Sample.empty false))
     = (Raise QueryDocumentNotAllowed, st'))
  /\ (exists st',
       serialize (VDoc Sample.unauthored) false 0 None true true
         (Sample.start (Sample.empty true))
       = (Raise TypeError, st')).
Proof.
  apply (@query_call_with_ill_typed_include Sample.unauthored false true
           (Sample.start (Sample.empty false))
           (Sample.start (Sample.empty true)) ["title"] "author.name" []);
    try reflexivity.
  repeat constructor. discriminate.
Defined.

(** C10: the instance has no primary key, [autosave] and [for_query] are set
    and documents are not allowed in queries: the call raises the error of
    line 186, and in the state it leaves the instance has the primary key
    that [save] assigned. *)
Theorem autosave_before_query_error :
  forall (d : document) (convert_keys_to_str : bool) (st : state),
    _lazy d = false ->
    embed d = false ->
    pk_in (saved st) d = VNone ->
    _allow_documents_in_query (backend st) = false ->
    exists st',
      serialize (VDoc d) convert_keys_to_str 0 None true true st
      = (Raise QueryDocumentNotAllowed, st')
      /\ pk_in (saved st') d = VInt (next_pk st)
      /\ pk_in (saved st') d <> pk_in (saved st) d.
Proof.
  intros d k st Hl He Hpk Hq.
  eexists. split; [|split].
  - rewrite serialize_eager_run by assumption. rewrite Hq. reflexivity.
  - unfold autosaved. cbn [with_backend saved next_pk]. rewrite Hpk.
    cbn [is_None andb saved]. unfold pk_in in *.
    destruct (pk0 d); try discriminate.
    now rewrite (assoc_get_set_same _ Nat.eqb_eq).
  - unfold autosaved. cbn [with_backend saved next_pk]. rewrite Hpk.
    cbn [is_None andb saved]. unfold pk_in in *.
    destruct (pk0 d); try discriminate.
    now rewrite (assoc_get_set_same _ Nat.eqb_eq).
Qed.

Lemma autosave_before_query_error_witness :
  exists st',
    serialize (VDoc Sample.jane) false 0 None true true
      (Sample.start (Sample.empty false))
    = (Raise QueryDocumentNotAllowed, st')
    /\ pk_in (saved st') Sample.jane = VInt 1000
    /\ pk_in (saved st') Sample.jane
       <> pk_in (saved (Sample.start (Sample.empty false))) Sample.jane.
Proof.
  apply (@autosave_before_query_error Sample.jane false
           (Sample.start (Sample.empty false)));
    reflexivity.
Defined.

(** ** Embedding *)

Lemma bind_ret_run A B (v : A) (k : A -> M B) st :
  (x <- ret v ;; k x) st = k v st.
Proof. reflexivity. Qed.

Lemma bind_raise_run A B e (k : A -> M B) st :
  (x <- raise e ;; k x) st = (Raise e, st).
Proof. reflexivity. Qed.

Lemma serialize_with_opts_dict k a q n i items :
  serialize_with_opts k a q n (VDict i items)
  = walk_dict (serialize_with_opts k a q n)
      (if k then str else fun x => x) items.
Proof. destruct n; reflexivity. Qed.

Lemma serialize_with_opts_list k a q n i items :
  serialize_with_opts k a q n (VList i items)
  = (l <- walk_list (serialize_with_opts k a q n) items ;;
     j <- fresh ;; ret (VList j l)).
Proof. destruct n; reflexivity. Qed.

Lemma serialize_with_opts_tuple k a q n items :
  serialize_with_opts k a q n (VTuple items)
  = (l <- walk_list (serialize_with_opts k a q n) items ;;
     ret (VTuple l)).
Proof. destruct n; reflexivity. Qed.

Lemma serialize_mapping_run k a q n i items :
  serialize (VDict i items) k (Z.of_nat n) None a q
  = walk_dict (serialize_with_opts k a q n)
      (if k then str else fun x => x) items.
Proof.
  unfold serialize, apply_coders. rewrite Nat2Z.id.
  apply serialize_with_opts_dict.
Qed.

Lemma serialize_embedding_run d k a q n st :
  serialize (VDoc d) k (Z.of_nat (S n)) None a q st
  = try_except
      (attrs <- eager_attributes d ;;
       walk_dict (serialize_with_opts k a q n)
         (if k then str else fun x => x) attrs)
      (is_DoesNotExist d)
      (walk_dict (serialize_with_opts k a q n)
         (if k then str else fun x => x) (attributes d))
      (with_backend st (ensure_registered (backend st) (__class__ d))).
Proof.
  unfold serialize, apply_coders. rewrite Nat2Z.id.
  cbn [serialize_with_opts]. unfold bind at 1.
  unfold get_collection_for_obj. now rewrite get_collection_for_cls_run.
Qed.

(** ** Include paths in the stub *)

Lemma minimal_stub_mem k d st :
  dict_mem k (minimal_stub d st)
  = key_eqb k (KStr "pk") || key_eqb k (KStr "__collection__").
Proof.
  unfold dict_mem, assoc_mem, minimal_stub. cbn [assoc_get].
  destruct (key_eqb k (KStr "pk")); [reflexivity|].
  now destruct (key_eqb k (KStr "__collection__")).
Qed.

(** C6 (what the code does against the claim): an include path that is not
    on the instance because it runs through a value without items, such as
    "author.name" on a book whose [author] is [None], is not skipped: line
    194 catches [KeyError] only, and the [TypeError] of [get_value] leaves
    [serialize].  This holds for the first such path of the list, whatever
    comes after it. *)
Theorem ill_typed_include_path_raises :
  forall (d : document) (convert_keys_to_str autosave for_query : bool)
         (st : state) (pre : list string) (path : string)
         (post : list string),
    _lazy d = false ->
    embed d = false ->
    for_query && negb (_allow_documents_in_query (backend st)) = false ->
    configured_includes d = pre ++ path :: post ->
    includes_well_typed d pre ->
    ill_typed d path ->
    serialize (VDoc d) convert_keys_to_str 0 None autosave for_query st
    = (Raise TypeError,
       bump (autosaved autosave d
               (with_backend st
                  (ensure_registered (backend st) (__class__ d))))).
Proof.
  intros d k a q st pre path post Hl He Hq Hinc Hpre Hbad.
  rewrite serialize_eager_run by assumption. rewrite Hq, Hinc.
  now rewrite add_includes_ill_typed by assumption.
Qed.

Lemma ill_typed_include_path_raises_witness :
  serialize (VDoc Sample.unauthored) false 0 None true false
    (Sample.start (Sample.empty true))
  = (Raise TypeError,
     mkState (ensure_registered (Sample.empty true) Sample.Book) [] 1000 101).
Proof.
  apply (@ill_typed_include_path_raises Sample.unauthored false true false
           (Sample.start (Sample.empty true)) ["title"] "author.name" []);
    try reflexivity.
  repeat constructor. discriminate.
Defined.

(** X23: what holds of the include paths when none of them is ill-typed: a path
    that is found has its key in the stub, with its value unless a later
    path is stored under the same key; a path that is missing is skipped,
    and its key is in the stub only if something else is stored under it. *)
Theorem include_paths_found_or_skipped :
  forall (d : document) (convert_keys_to_str autosave for_query : bool)
         (st : state),
    _lazy d = false ->
    embed d = false ->
    for_query && negb (_allow_documents_in_query (backend st)) = false ->
    includes_well_typed d (configured_includes d) ->
    exists items st',
      serialize (VDoc d) convert_keys_to_str 0 None autosave for_query st
      = (Return (VDict (next_id st) items), st')
      /\ (forall pre path post v,
            configured_includes d = pre ++ path :: post ->
            present d path v ->
            Forall (fun p' => forall w, present d p' w ->
                              flat_key p' <> flat_key path) post ->
            dict_get (flat_key path) items = Some v)
      /\ (forall path,
            In path (configured_includes d) ->
            absent d path ->
            flat_key path <> KStr "pk" ->
            flat_key path <> KStr "__collection__" ->
            (forall p' w, In p' (configured_includes d) -> present d p' w ->
                          flat_key p' <> flat_key path) ->
            dict_mem (flat_key path) items = false).
Proof.
  intros d k a q st Hl He Hq Hwt. do 2 eexists. split; [|split].
  - rewrite serialize_eager_run by assumption. rewrite Hq.
    rewrite add_includes_run by assumption. reflexivity.
  - intros pre path post v E Hp Hpost. rewrite E.
    now apply included_get_last.
  - intros path Hin Habs Hpk Hcoll Hother.
    destruct (dict_mem (flat_key path) _) eqn:Em; [|reflexivity].
    apply included_mem in Em. destruct Em as [Em|(p' & w & Hin' & Hp' & Hk)].
    + rewrite minimal_stub_mem in Em.
      destruct (key_eqb (flat_key path) (KStr "pk")) eqn:E1.
      { apply key_eqb_spec in E1. contradiction. }
      destruct (key_eqb (flat_key path) (KStr "__collection__")) eqn:E2.
      { apply key_eqb_spec in E2. contradiction. }
      discriminate.
    + elim (Hother p' w Hin' Hp'). congruence.
Qed.

(** ** [copy.deepcopy] makes new objects *)

Lemma ids_within_weaken lo hi lo' hi' v :
  lo' <= lo -> hi <= hi' -> ids_within lo hi v -> ids_within lo' hi' v.
Proof.
  unfold ids_within. intros H1 H2 H. eapply Forall_impl; [|exact H].
  cbv beta. intros j Hj. lia.
Qed.

Lemma copy_items_fresh sv items :
  Forall (fun kv => copies_fresh sv (snd kv)) items ->
  forall n items' n',
    copy_items (deepcopy_from sv) items n = (items', n') ->
    n <= n' /\
    Forall (fun j => n <= j < n') (flat_map (fun kv => ids (snd kv)) items').
Proof.
  induction 1 as [|[k v] items Hv _ IH]; intros n items' n'; simpl.
  - intros [= <- <-]. split; [lia|constructor].
  - destruct (deepcopy_from sv v n) as [v1 n1] eqn:E1.
    destruct (copy_items (deepcopy_from sv) items n1) as [l2 n2] eqn:E2.
    intros [= <- <-]. destruct (Hv _ _ _ E1) as [Hle1 Hin1].
    destruct (IH _ _ _ E2) as [Hle2 Hin2]. split; [lia|].
    simpl. apply Forall_app. split.
    + eapply Forall_impl; [|exact Hin1]. cbv beta. intros j Hj. lia.
    + eapply Forall_impl; [|exact Hin2]. cbv beta. intros j Hj. lia.
Qed.

Lemma copy_list_fresh sv items :
  Forall (copies_fresh sv) items ->
  forall n items' n',
    copy_list (deepcopy_from sv) items n = (items', n') ->
    n <= n' /\ Forall (fun j => n <= j < n') (flat_map ids items').
Proof.
  induction 1 as [|v items Hv _ IH]; intros n items' n'; simpl.
  - intros [= <- <-]. split; [lia|constructor].
  - destruct (deepcopy_from sv v n) as [v1 n1] eqn:E1.
    destruct (copy_list (deepcopy_from sv) items n1) as [l2 n2] eqn:E2.
    intros [= <- <-]. destruct (Hv _ _ _ E1) as [Hle1 Hin1].
    destruct (IH _ _ _ E2) as [Hle2 Hin2]. split; [lia|].
    simpl. apply Forall_app. split.
    + eapply Forall_impl; [|exact Hin1]. cbv beta. intros j Hj. lia.
    + eapply Forall_impl; [|exact Hin2]. cbv beta. intros j Hj. lia.
Qed.

Lemma deepcopy_from_fresh sv v : copies_fresh sv v.
Proof.
  induction v using value_graph_ind; unfold copies_fresh; intros n v' n';
    try (simpl; intros [= <- <-]; split; [lia|constructor]).
  - simpl. destruct (copy_items _ items (S n)) as [l m] eqn:E.
    intros [= <- <-]. destruct (copy_items_fresh H _ E) as [Hle Hin].
    split; [lia|]. unfold ids_within. simpl. constructor; [lia|].
    eapply Forall_impl; [|exact Hin]. cbv beta. intros j Hj. lia.
  - simpl. destruct (copy_list _ items (S n)) as [l m] eqn:E.
    intros [= <- <-]. destruct (copy_list_fresh H _ E) as [Hle Hin].
    split; [lia|]. unfold ids_within. simpl. constructor; [lia|].
    eapply Forall_impl; [|exact Hin]. cbv beta. intros j Hj. lia.
  - simpl. destruct (copy_list _ items n) as [l m] eqn:E.
    intros [= <- <-]. now apply (copy_list_fresh H _ E).
  - cbn [deepcopy_from].
    set (pcopy := match v with
                  | VNone => (pk_in sv (Document o c v a l e r), S n)
                  | _ => deepcopy_from sv v (S n)
                  end).
    assert (Hp : S n <= snd pcopy /\ ids_within (S n) (snd pcopy) (fst pcopy)).
    { subst pcopy. destruct v;
        try (destruct (deepcopy_from sv _ (S n)) as [p1 n1] eqn:E1;
             apply IHv in E1; exact E1).
      unfold pk_in. simpl. split; [lia|].
      destruct (assoc_get Nat.eqb o sv); constructor. }
    destruct pcopy as [p1 n1]. simpl in Hp. destruct Hp as [Hle1 Hin1].
    destruct (copy_items _ a n1) as [a2 n2] eqn:E2.
    intros [= <- <-]. destruct (copy_items_fresh H _ E2) as [Hle2 Hin2].
    split; [lia|]. unfold ids_within. simpl. constructor; [lia|].
    apply Forall_app. split.
    + eapply Forall_impl; [|exact Hin1]. cbv beta. intros j Hj. lia.
    + eapply Forall_impl; [|exact Hin2]. cbv beta. intros j Hj. lia.
Qed.

(** ** The stub of a lazy instance *)

Lemma autosaved_next_id a d st : next_id (autosaved a d st) = next_id st.
Proof. unfold autosaved. now destruct (_ && _). Qed.

Lemma serialize_reference_lazy_run a q d st p :
  _lazy d = true ->
  class_get (__class__ d) (classes (backend st)) = Some p ->
  let st2 := autosaved a d st in
  let c := copy_items (deepcopy_from (saved st2)) (lazy_attributes d)
             (S (next_id st)) in
  serialize_reference a q d st
  = (Return (VDict (next_id st) (lazy_stub d st2 (fst c))),
     mkState (backend st) (saved st2) (next_pk st2) (snd c)).
Proof.
  intros Hl Hp st2 c. unfold serialize_reference.
  rewrite autosave_run. fold st2. rewrite Hl.
  unfold deepcopy_dict, classes_collection, lazy_stub, collection_of.
  unfold bind, pk, get_backend, ret.
  rewrite (autosaved_next_id a d st : next_id st2 = next_id st).
  fold c. destruct c as [items' n']. cbn [backend saved next_pk next_id fst snd].
  rewrite (autosaved_backend a d st : backend st2 = backend st).
  now rewrite Hp.
Qed.

Lemma serialize_lazy_run d k a q st :
  _lazy d = true -> embed d = false ->
  let st1 := with_backend st (ensure_registered (backend st) (__class__ d)) in
  let st2 := autosaved a d st1 in
  let c := copy_items (deepcopy_from (saved st2)) (lazy_attributes d)
             (S (next_id st)) in
  serialize (VDoc d) k 0 None a q st
  = (Return (VDict (next_id st) (lazy_stub d st2 (fst c))),
     mkState (backend st1) (saved st2) (next_pk st2) (snd c)).
Proof.
  intros Hl He st1 st2 c. rewrite serialize_document_run by assumption.
  destruct (ensure_registered_get (backend st) (__class__ d)) as [p Hp].
  fold st1. now rewrite (@serialize_reference_lazy_run a q d st1 p Hl Hp).
Qed.




Lemma getitem_ids cur frag v :
  getitem cur frag = Return v -> forall i, In i (ids v) -> In i (ids cur).
Proof.
  destruct cur as [| | | |a0 items|a0 items|items|d]; try discriminate; cbn.
  - destruct (dict_get (KStr frag) items) as [x|] eqn:E; [|discriminate].
    intros [= <-] i Hi. right. apply in_flat_map. exists (KStr frag, x).
    split; [|exact Hi]. now apply (assoc_get_In _ key_eqb_spec).
  - destruct d as [o c p at0 l e r]. unfold document_getitem.
    cbn [attributes].
    destruct (dict_get (KStr frag) at0) as [x|] eqn:E; [|discriminate].
    intros [= <-] i Hi. cbn [ids]. right. apply in_or_app. right.
    apply in_flat_map. exists (KStr frag, x).
    split; [|exact Hi]. now apply (assoc_get_In _ key_eqb_spec).
Qed.

Lemma get_value_ids obj path v :
  get_value obj path = Return v -> forall i, In i (ids v) -> In i (ids obj).
Proof.
  unfold get_value. generalize (split "." path). intros frags. revert obj.
  induction frags as [|f frags IH]; intros obj; cbn [get_value_loop].
  - now intros [= <-].
  - destruct (getitem obj f) as [x|e] eqn:E; [|discriminate].
    intros H i Hi. apply (getitem_ids _ _ E). now apply (IH x).
Qed.

(** C8 at its failing input: [Tag] includes "labels"; the stub of
    an eager tag holds under "labels" the very list object (identity 5) of
    the instance, so the stub and the input share a mutable object. *)
Lemma eager_stub_shares_included_value :
  exists stub st',
    serialize (VDoc Sample.tagged) false 0 None true false
      (Sample.start (Sample.empty true))
    = (Return stub, st')
    /\ ~ shares_nothing (VDoc Sample.tagged) stub.
Proof.
  do 2 eexists. split; [reflexivity|].
  intros H. apply (H 5); simpl; auto.
Qed.

(** C8 (what the code does against the claim): for an eager instance the
    value of an include path that is found goes into the stub as it is
    (lines 192-193): the stub holds the very object the instance holds, with
    every dict, list and instance inside it, so whenever that value has a
    mutable part the stub and the input share it.  Only the lazy branch
    copies (line 179). *)
Theorem eager_stub_holds_the_included_object :
  forall (d : document) (convert_keys_to_str autosave for_query : bool)
         (st : state) (pre : list string) (path : string)
         (post : list string) (v : value),
    _lazy d = false ->
    embed d = false ->
    for_query && negb (_allow_documents_in_query (backend st)) = false ->
    includes_well_typed d (configured_includes d) ->
    configured_includes d = pre ++ path :: post ->
    present d path v ->
    Forall (fun p' => forall w, present d p' w ->
                      flat_key p' <> flat_key path) post ->
    exists items st',
      serialize (VDoc d) convert_keys_to_str 0 None autosave for_query st
      = (Return (VDict (next_id st) items), st')
      /\ dict_get (flat_key path) items = Some v
      /\ (forall i, In i (ids v) ->
            In i (ids (VDoc d)) /\ In i (ids (VDict (next_id st) items)))
      /\ (ids v <> [] ->
          ~ shares_nothing (VDoc d) (VDict (next_id st) items)).
Proof.
  intros d k a q st pre path post v Hl He Hq Hwt Hinc Hp Hpost.
  do 2 eexists. split; [|split].
  - rewrite serialize_eager_run by assumption. rewrite Hq.
    rewrite add_includes_run by assumption. reflexivity.
  - rewrite Hinc. now apply included_get_last.
  - match goal with |- context [VDict _ ?it] => set (items := it) end.
    assert (Hget : dict_get (flat_key path) items = Some v).
    { unfold items. rewrite Hinc. now apply included_get_last. }
    assert (Hshared : forall i, In i (ids v) ->
              In i (ids (VDoc d)) /\ In i (ids (VDict (next_id st) items))).
    { intros i Hi. split; [now apply (get_value_ids _ _ Hp)|].
      cbn [ids]. right. apply in_flat_map. exists (flat_key path, v).
      split; [|exact Hi]. now apply (assoc_get_In _ key_eqb_spec). }
    split; [exact Hshared|].
    intros Hne Hnothing. destruct (ids v) as [|i l] eqn:E; [congruence|].
    destruct (Hshared i (or_introl eq_refl)) as [Hin Hout].
    exact (Hnothing i Hout Hin).
Qed.

Lemma eager_stub_holds_the_included_object_witness :
  exists items st',
    serialize (VDoc Sample.tagged) false 0 None true false
      (Sample.start (Sample.empty true))
    = (Return (VDict 100 items), st')
    /\ dict_get (KStr "labels") items = Some (VList 5 [VStr "a"; VStr "b"])
    /\ ~ shares_nothing (VDoc Sample.tagged) (VDict 100 items).
Proof.
  destruct (@eager_stub_holds_the_included_object Sample.tagged false true
              false (Sample.start (Sample.empty true)) [] "labels" []
              (VList 5 [VStr "a"; VStr "b"])
              eq_refl eq_refl eq_refl)
    as (items & st' & Hrun & Hget & _ & Hshare).
  - repeat constructor. discriminate.
  - reflexivity.
  - reflexivity.
  - constructor.
  - exists items, st'. split; [exact Hrun|]. split; [exact Hget|].
    apply Hshare. discriminate.
Defined.

(** ** Embedding, and where [DoesNotExist] is caught *)

Lemma walk_items_each k a q lvl items : forall acc st,
  walk_items (serialize_with_opts k a q (Z.to_nat lvl))
    (if k then str else fun x => x) items acc st
  = (out <- serialize_each k a q lvl items ;; ret (written out acc)) st.
Proof.
  induction items as [|[key v] items IH]; intros acc st; [reflexivity|].
  cbn [walk_items serialize_each].
  change (serialize v k lvl None a q)
    with (serialize_with_opts k a q (Z.to_nat lvl) v).
  unfold bind at 1 2 3.
  destruct (serialize_with_opts k a q (Z.to_nat lvl) v st) as [[v'|e] st1];
    [|reflexivity].
  rewrite IH. unfold bind.
  destruct (serialize_each k a q lvl items st1) as [[out|e] st2];
    [|reflexivity].
  now destruct k.
Qed.

Lemma walk_dict_embedded k a q lvl items st :
  walk_dict (serialize_with_opts k a q (Z.to_nat lvl))
    (if k then str else fun x => x) items st
  = embedded_as k a q lvl items st.
Proof.
  unfold walk_dict, embedded_as. unfold bind at 1 3. unfold fresh.
  unfold bind at 1 2. rewrite walk_items_each. unfold bind.
  now destruct (serialize_each k a q lvl items _) as [[out|e] st2].
Qed.

Lemma walk_list_all k a q lvl items : forall st,
  walk_list (serialize_with_opts k a q (Z.to_nat lvl)) items st
  = serialize_all k a q lvl items st.
Proof.
  induction items as [|v items IH]; intros st; [reflexivity|].
  cbn [walk_list serialize_all].
  change (serialize v k lvl None a q)
    with (serialize_with_opts k a q (Z.to_nat lvl) v).
  unfold bind at 1 3.
  destruct (serialize_with_opts k a q (Z.to_nat lvl) v st) as [[v'|e] st1];
    [|reflexivity].
  unfold bind. now rewrite IH.
Qed.

Lemma serialize_each_raise k a q lvl key v post e : forall pre out st st_a st_b,
  serialize_each k a q lvl pre st = (Return out, st_a) ->
  serialize v k lvl None a q st_a = (Raise e, st_b) ->
  serialize_each k a q lvl (pre ++ (key, v) :: post) st = (Raise e, st_b).
Proof.
  induction pre as [|[key0 v0] pre IH]; intros out st st_a st_b Hpre Hv.
  - injection Hpre as <- <-. cbn [app serialize_each]. unfold bind at 1.
    now rewrite Hv.
  - cbn [app serialize_each] in *. unfold bind at 1 in Hpre. unfold bind at 1.
    destruct (serialize v0 k lvl None a q st) as [[v0'|e0] st1];
      [|discriminate].
    unfold bind at 1 in Hpre. unfold bind at 1.
    destruct (serialize_each k a q lvl pre st1) as [[out1|e1] st2] eqn:E;
      [|discriminate].
    injection Hpre as <- <-. now rewrite (IH _ _ _ _ E Hv).
Qed.

Lemma serialize_all_raise k a q lvl v post e : forall pre out st st_a st_b,
  serialize_all k a q lvl pre st = (Return out, st_a) ->
  serialize v k lvl None a q st_a = (Raise e, st_b) ->
  serialize_all k a q lvl (pre ++ v :: post) st = (Raise e, st_b).
Proof.
  induction pre as [|v0 pre IH]; intros out st st_a st_b Hpre Hv.
  - injection Hpre as <- <-. cbn [app serialize_all]. unfold bind at 1.
    now rewrite Hv.
  - cbn [app serialize_all] in *. unfold bind at 1 in Hpre. unfold bind at 1.
    destruct (serialize v0 k lvl None a q st) as [[v0'|e0] st1];
      [|discriminate].
    unfold bind at 1 in Hpre. unfold bind at 1.
    destruct (serialize_all k a q lvl pre st1) as [[out1|e1] st2] eqn:E;
      [|discriminate].
    injection Hpre as <- <-. now rewrite (IH _ _ _ _ E Hv).
Qed.

Lemma add_includes_raises d includes : forall out e,
  add_includes d includes out = Raise e -> e = TypeError.
Proof.
  induction includes as [|x rest IH]; intros out e; cbn [add_includes];
    [discriminate|].
  destruct (get_value (VDoc d) x) as [v|e0] eqn:E; [apply IH|].
  destruct (get_value_raises _ _ E) as [-> | ->]; [apply IH|].
  now intros [= <-].
Qed.

Lemma serialize_nonpositive v k lvl a q :
  (lvl <= 0)%Z -> serialize v k lvl None a q = serialize v k 0 None a q.
Proof.
  intros H. unfold serialize. now replace (Z.to_nat lvl) with (Z.to_nat 0) by lia.
Qed.

(** C5: with [embed_level > 0] a document instance is serialized as a new
    mapping whose values are the eager attributes of the instance, each
    serialized by [serialize] with [embed_level - 1], in order.  A
    [DoesNotExist] of the class of the instance that leaves this attempt,
    the one of the failed fetch above all, is caught, and the attributes the
    instance knows are serialized in the same way instead; any other error
    of the attempt reaches the caller.  No other path catches anything: an
    error, [DoesNotExist] or other, raised for a value of a mapping or for an
    element of a list or a tuple leaves the call as it is; with
    [embed_level <= 0] the failed fetch of an instance whose embed flag is
    set reaches the caller, and the reference path of an instance whose
    embed flag is not set fetches nothing and never raises [DoesNotExist]. *)
Theorem embedding_catches_DoesNotExist :
  forall (d : document) (convert_keys_to_str autosave for_query : bool)
         (embed_level : Z) (st : state),
    (0 < embed_level)%Z ->
    let st1 :=
      with_backend st (ensure_registered (backend st) (__class__ d)) in
    let embedded :=
      embedded_as convert_keys_to_str autosave for_query (embed_level - 1) in
    let serialize' (v : value) (level : Z) :=
      serialize v convert_keys_to_str level None autosave for_query in
    serialize' (VDoc d) embed_level st
    = match fetched d with
      | Some attrs =>
          or_fall_back d (embedded attrs st1) (embedded (attributes d))
      | None => embedded (attributes d) st1
      end
    /\ (forall level i pre key v post out st0 st_a st_b e,
          serialize_each convert_keys_to_str autosave for_query level pre
            (bump st0) = (Return out, st_a) ->
          serialize' v level st_a = (Raise e, st_b) ->
          serialize' (VDict i (pre ++ (key, v) :: post)) level st0
          = (Raise e, st_b))
    /\ (forall level i pre v post out st0 st_a st_b e,
          serialize_all convert_keys_to_str autosave for_query level pre st0
          = (Return out, st_a) ->
          serialize' v level st_a = (Raise e, st_b) ->
          serialize' (VList i (pre ++ v :: post)) level st0 = (Raise e, st_b)
          /\ serialize' (VTuple (pre ++ v :: post)) level st0
             = (Raise e, st_b))
    /\ (forall level,
          (level <= 0)%Z -> embed d = true -> fetched d = None ->
          serialize' (VDoc d) level st
          = (Raise (DoesNotExist (__class__ d)), st1))
    /\ (forall level c st',
          (level <= 0)%Z -> embed d = false ->
          serialize' (VDoc d) level st <> (Raise (DoesNotExist c), st')).
Proof.
  intros d k a q lvl st Hpos st1 embedded serialize'. subst serialize'.
  cbv beta. split; [|split; [|split; [|split]]].
  - assert (E : exists n, lvl = Z.of_nat (S n)).
    { exists (Z.to_nat (lvl - 1)). lia. }
    destruct E as [n ->]. rewrite serialize_embedding_run. fold st1.
    pose proof (walk_dict_embedded k a q (Z.of_nat (S n) - 1)) as HW.
    replace (Z.to_nat (Z.of_nat (S n) - 1)) with n in HW by lia.
    fold embedded in HW.
    set (W := walk_dict (serialize_with_opts k a q n)
                (if k then str else fun x => x)) in *.
    assert (Hc : class_eqb (__class__ d) (__class__ d) = true)
      by now apply class_eqb_spec.
    unfold try_except, fetched, eager_attributes, or_fall_back.
    destruct (_lazy d); [destruct (remote d) as [attrs|]|].
    + rewrite bind_ret_run, HW.
      destruct (embedded attrs st1) as [[v|e] st']; [reflexivity|].
      destruct (is_DoesNotExist d e); [apply HW|reflexivity].
    + rewrite bind_raise_run. cbn [is_DoesNotExist]. rewrite Hc. apply HW.
    + rewrite bind_ret_run, HW.
      destruct (embedded (attributes d) st1) as [[v|e] st']; [reflexivity|].
      destruct (is_DoesNotExist d e); [apply HW|reflexivity].
  - intros level i pre key v post out st0 st_a st_b e Hpre Hv.
    unfold serialize, apply_coders. rewrite serialize_with_opts_dict.
    rewrite walk_dict_embedded. unfold embedded_as.
    unfold bind at 1. unfold fresh. fold (bump st0). unfold bind at 1.
    now rewrite (@serialize_each_raise k a q level key v post e pre out _ _ _
                   Hpre Hv).
  - intros level i pre v post out st0 st_a st_b e Hpre Hv.
    pose proof (@serialize_all_raise k a q level v post e pre out _ _ _
                  Hpre Hv) as Hall.
    rewrite <- walk_list_all in Hall.
    unfold serialize, apply_coders.
    rewrite serialize_with_opts_list, serialize_with_opts_tuple.
    unfold bind at 1 3. now rewrite Hall.
  - intros level Hle He Hgone.
    unfold serialize, apply_coders.
    replace (Z.to_nat level) with O by lia.
    cbn [serialize_with_opts]. unfold bind at 1.
    unfold get_collection_for_obj. rewrite get_collection_for_cls_run.
    fold st1. rewrite He.
    unfold document_serialize, eager_attributes, fetched, bind in *.
    destruct (_lazy d); [|discriminate]. now rewrite Hgone.
  - intros level c st' Hle He. rewrite serialize_nonpositive by assumption.
    destruct (_lazy d) eqn:Hl.
    + rewrite serialize_lazy_run by assumption. discriminate.
    + rewrite serialize_eager_run by assumption.
      destruct (q && negb _); [discriminate|].
      destruct (add_includes d _ _) as [out|e] eqn:E; [discriminate|].
      apply add_includes_raises in E. subst e. discriminate.
Qed.

Lemma embedding_catches_DoesNotExist_witness :
  let st := Sample.start Sample.library in
  serialize (VDoc Sample.sequel) false 1 None true false st
  = (Return
       (VDict 100
          [(KStr "title", VStr "S");
           (KStr "prequel",
            VDict 101 [(KStr "pk", VInt 14);
                       (KStr "__collection__", VStr "book");
                       (KStr "title", VStr "T")])]),
     mkState Sample.library [] 1000 102)
  /\ serialize (VDoc Sample.gone) false 1 None true false st
     = (Return (VDict 100 [(KStr "title", VStr "T")]),
        mkState Sample.library [] 1000 101)
  /\ serialize (VDoc Sample.gone_embedded) false 0 None true false st
     = (Raise (DoesNotExist Sample.Book), st)
  /\ serialize (VList 1 [VInt 1; VDoc Sample.gone_embedded]) false 0 None
       true false st
     = (Raise (DoesNotExist Sample.Book), st).
Proof.
  intros st.
  destruct (@embedding_catches_DoesNotExist Sample.sequel false true false 1
              st eq_refl) as (Hsequel & _).
  destruct (@embedding_catches_DoesNotExist Sample.gone false true false 1
              st eq_refl) as (Hgone & _).
  destruct (@embedding_catches_DoesNotExist Sample.gone_embedded false true
              false 1 st eq_refl) as (_ & _ & Hlist & Hflag & _).
  split; [rewrite Hsequel; reflexivity|].
  split; [rewrite Hgone; reflexivity|].
  split; [apply Hflag; reflexivity|].
  apply (Hlist 0%Z 1 [VInt 1] (VDoc Sample.gone_embedded) [] [VInt 1] st st
           st (DoesNotExist Sample.Book)); [reflexivity|].
  apply Hflag; reflexivity.
Defined.

(** ** Building lazy instances *)

Lemma deserialize_reference_run items name pk_field cls p v st :
  collection_get name (collections (backend st)) = Some cls ->
  class_get cls (classes (backend st)) = Some p ->
  dict_get (KStr pk_field) items = Some v ->
  let c := copy_items (deepcopy_from (saved st)) items (S (next_id st)) in
  deserialize_reference items name pk_field st
  = (Return (VDoc (set_pk (construct p (snd c) cls
                             (reference_attributes items pk_field st) true) v)),
     mkState (backend st) (saved st) (next_pk st) (S (snd c))).
Proof.
  intros Hc Hp Hv c. unfold deserialize_reference, reference_attributes.
  unfold deepcopy_dict, create_instance, construct.
  unfold bind, get_backend, fresh, ret. fold c. destruct c as [items' n'].
  cbn [backend saved next_pk next_id fst snd]. rewrite Hc.
  cbn [backend]. rewrite Hp. cbn [next_id backend saved next_pk].
  destruct (e_constructor p); now rewrite Hv.
Qed.

Lemma pk_field_of_get items pk_field :
  pk_field_of items = Some pk_field ->
  exists v, dict_get (KStr pk_field) items = Some v.
Proof.
  unfold pk_field_of, dict_mem, assoc_mem. fold dict_get.
  destruct (dict_get (KStr "__pk__") items) as [v|] eqn:E1.
  - intros [= <-]. now exists v.
  - destruct (dict_get (KStr "pk") items) as [v|] eqn:E2; [|discriminate].
    intros [= <-]. now exists v.
Qed.

Lemma deserialize_stub_run a items name pk_field st :
  dict_get (KStr "__collection__") items = Some (VStr name) ->
  assoc_mem String.eqb name (collections (backend st)) = true ->
  pk_field_of items = Some pk_field ->
  deserialize (VDict a items) None st
  = deserialize_reference items name pk_field st.
Proof.
  intros Hc Hmem Hpk. unfold deserialize, apply_coders.
  cbn [deserialize_value]. rewrite Hc.
  unfold in_collections. cbn [hashable].
  unfold bind, get_backend, ret. rewrite Hmem. now rewrite Hpk.
Qed.

(** ** [copy.deepcopy] returns an equal graph *)

Lemma store_closed_le sv n m : n <= m -> store_closed sv n -> store_closed sv m.
Proof. intros H Hc j Hj. apply Hc. lia. Qed.

Lemma copy_items_content sv items :
  Forall (fun kv => copy_keeps_content sv (snd kv)) items ->
  forall n, store_closed sv n ->
    content_items sv (fst (copy_items (deepcopy_from sv) items n))
    = content_items sv items.
Proof.
  induction 1 as [|[k v] items Hv _ IH]; intros n Hn; simpl; auto.
  destruct (deepcopy_from sv v n) as [v1 n1] eqn:E1.
  destruct (copy_items (deepcopy_from sv) items n1) as [l2 n2] eqn:E2.
  simpl. f_equal.
  - f_equal. specialize (Hv n Hn). simpl in Hv. now rewrite E1 in Hv.
  - specialize (IH n1). rewrite E2 in IH. apply IH.
    destruct (deepcopy_from_fresh sv v _ E1) as [Hle _].
    now apply (store_closed_le Hle).
Qed.

Lemma copy_list_content sv items :
  Forall (copy_keeps_content sv) items ->
  forall n, store_closed sv n ->
    map (content sv) (fst (copy_list (deepcopy_from sv) items n))
    = map (content sv) items.
Proof.
  induction 1 as [|v items Hv _ IH]; intros n Hn; simpl; auto.
  destruct (deepcopy_from sv v n) as [v1 n1] eqn:E1.
  destruct (copy_list (deepcopy_from sv) items n1) as [l2 n2] eqn:E2.
  simpl. f_equal.
  - specialize (Hv n Hn). now rewrite E1 in Hv.
  - specialize (IH n1). rewrite E2 in IH. apply IH.
    destruct (deepcopy_from_fresh sv v _ E1) as [Hle _].
    now apply (store_closed_le Hle).
Qed.

Lemma deepcopy_from_content sv v : copy_keeps_content sv v.
Proof.
  induction v using value_graph_ind; unfold copy_keeps_content; intros n Hn;
    try reflexivity.
  - simpl. destruct (copy_items _ items (S n)) as [l m] eqn:E. simpl.
    f_equal. pose proof (@copy_items_content sv items H (S n)) as Hc.
    rewrite E in Hc. apply Hc. apply (store_closed_le (n:=n)); auto.
  - simpl. destruct (copy_list _ items (S n)) as [l m] eqn:E. simpl.
    f_equal. pose proof (@copy_list_content sv items H (S n)) as Hc.
    rewrite E in Hc. apply Hc. apply (store_closed_le (n:=n)); auto.
  - simpl. destruct (copy_list _ items n) as [l m] eqn:E. simpl.
    f_equal. pose proof (@copy_list_content sv items H n) as Hc.
    rewrite E in Hc. now apply Hc.
  - cbn [deepcopy_from].
    set (pcopy := match v with
                  | VNone => (pk_in sv (Document o c v a l e r), S n)
                  | _ => deepcopy_from sv v (S n)
                  end).
    assert (Hn1 : store_closed sv (S n)) by (apply (store_closed_le (n:=n)); auto).
    assert (Hp : S n <= snd pcopy /\
                 match fst pcopy with
                 | VNone => pk_in sv (Document n c (fst pcopy) [] l e r)
                 | _ => content sv (fst pcopy)
                 end
                 = match v with
                   | VNone => pk_in sv (Document o c v a l e r)
                   | _ => content sv v
                   end).
    { subst pcopy. destruct v.
      - split; [simpl; lia|]. unfold pk_in. simpl.
        destruct (assoc_get Nat.eqb o sv); [reflexivity|].
        now rewrite (Hn n (le_n n)).
      - split; [simpl; lia|reflexivity].
      - split; [simpl; lia|reflexivity].
      - split; [simpl; lia|reflexivity].
      - destruct (deepcopy_from sv (VDict a0 items) (S n)) as [p1 n1] eqn:E1.
        split; [apply (deepcopy_from_fresh sv _ _ E1)|].
        pose proof (IHv (S n) Hn1) as Hc. rewrite E1 in Hc.
        simpl in E1. destruct (copy_items _ items (S (S n))). inversion E1.
        subst. exact Hc.
      - destruct (deepcopy_from sv (VList a0 items) (S n)) as [p1 n1] eqn:E1.
        split; [apply (deepcopy_from_fresh sv _ _ E1)|].
        pose proof (IHv (S n) Hn1) as Hc. rewrite E1 in Hc.
        simpl in E1. destruct (copy_list _ items (S (S n))). inversion E1.
        subst. exact Hc.
      - destruct (deepcopy_from sv (VTuple items) (S n)) as [p1 n1] eqn:E1.
        split; [apply (deepcopy_from_fresh sv _ _ E1)|].
        pose proof (IHv (S n) Hn1) as Hc. rewrite E1 in Hc.
        simpl in E1. destruct (copy_list _ items (S n)). inversion E1.
        subst. exact Hc.
      - destruct (deepcopy_from sv (VDoc d) (S n)) as [p1 n1] eqn:E1.
        split; [apply (deepcopy_from_fresh sv _ _ E1)|].
        pose proof (IHv (S n) Hn1) as Hc. rewrite E1 in Hc.
        destruct d as [o' c' p' a' l' e' r']. cbn [deepcopy_from] in E1.
        destruct (match p' with VNone => _ | _ => _ end) as [p2 n2].
        destruct (copy_items _ a' n2). inversion E1. subst. exact Hc. }
    destruct pcopy as [p1 n1]. cbn [fst snd] in Hp. destruct Hp as [Hle1 Hpk].
    destruct (copy_items _ a n1) as [a2 n2] eqn:E2. cbn [fst content].
    f_equal. f_equal.
    + rewrite <- Hpk. destruct p1; try reflexivity.
    + pose proof (@copy_items_content sv a H n1) as Hc.
      rewrite E2 in Hc. apply Hc. apply (store_closed_le (n:=n)); auto. lia.
Qed.

(** ** The legacy primary-key field *)

Lemma dict_get_del k k' d :
  dict_get k (dict_del k' d) = if key_eqb k k' then None else dict_get k d.
Proof.
  unfold dict_get, dict_del. destruct (key_eqb k k') eqn:E.
  - apply key_eqb_spec in E. subst. apply (@assoc_get_del_same _ _ key_eqb).
  - apply (@assoc_get_del_other _ _ key_eqb key_eqb_spec).
    intros ->. rewrite (proj2 (key_eqb_spec k' k') eq_refl) in E. discriminate.
Qed.

Lemma copy_items_get sv items : forall n k v,
  dict_get k items = Some v ->
  exists m, n <= m /\
    dict_get k (fst (copy_items (deepcopy_from sv) items n))
    = Some (fst (deepcopy_from sv v m)).
Proof.
  induction items as [|[k' v'] items IH]; intros n k v; simpl; [discriminate|].
  destruct (deepcopy_from sv v' n) as [v1 n1] eqn:E1.
  destruct (copy_items (deepcopy_from sv) items n1) as [l2 n2] eqn:E2.
  simpl. destruct (key_eqb k k') eqn:Ek.
  - intros [= <-]. exists n. split; [lia|]. now rewrite E1.
  - intros H. destruct (IH n1 k v H) as [m [Hm Hg]]. rewrite E2 in Hg.
    exists m. split; [|exact Hg].
    destruct (deepcopy_from_fresh sv v' _ E1). lia.
Qed.

Lemma copy_items_get_None sv items : forall n k,
  dict_get k items = None ->
  dict_get k (fst (copy_items (deepcopy_from sv) items n)) = None.
Proof.
  induction items as [|[k' v'] items IH]; intros n k; simpl; auto.
  destruct (deepcopy_from sv v' n) as [v1 n1] eqn:E1.
  destruct (copy_items (deepcopy_from sv) items n1) as [l2 n2] eqn:E2.
  simpl. destruct (key_eqb k k'); [discriminate|].
  intros H. specialize (IH n1 k H). now rewrite E2 in IH.
Qed.

Lemma deserialize_reference_stale items name pk_field cls st :
  collection_get name (collections (backend st)) = Some cls ->
  class_get cls (classes (backend st)) = None ->
  exists st', deserialize_reference items name pk_field st
              = (Raise KeyError, st').
Proof.
  intros Hc Hp. unfold deserialize_reference, deepcopy_dict, create_instance.
  unfold bind, get_backend, ret.
  destruct (copy_items _ items (S (next_id st))) as [items' n'].
  cbn [backend saved next_pk next_id fst snd]. rewrite Hc.
  cbn [backend]. rewrite Hp. eexists. reflexivity.
Qed.

Lemma pk0_set_pk d v : pk0 (set_pk d v) = v.
Proof. now destruct d. Qed.

Lemma attributes_set_pk d v :
  attributes (set_pk d v) = dict_set (KStr (get_pk_name d)) v (attributes d).
Proof. now destruct d. Qed.

(** C9 (as stated, refuted): [Book] has the primary-key field [pk].  The
    stored reference has [__pk__] 1 and [pk] 2; the instance that comes back
    has the attribute [pk], but with the value 1: the assignment of line 229
    wrote the primary key over the value that was passed through. *)
Lemma legacy_pk_field_is_overwritten :
  exists (d : document) (st' : state),
    deserialize (VDict 3 Sample.legacy_stub) None (Sample.start Sample.library)
    = (Return (VDoc d), st')
    /\ dict_get (KStr "pk") Sample.legacy_stub = Some (VInt 2)
    /\ dict_get (KStr "pk") (attributes d) = Some (VInt 1).
Proof. do 2 eexists. vm_compute. repeat split. Qed.

(** C9 (amended): a mapping with both [__pk__] and [pk] and a
    [__collection__] that is a known collection name.  When the class the
    reverse index gives for that name is registered, the instance is built
    with the value of [__pk__] as its primary key, from attributes that hold
    no [__pk__] but still hold [pk], with a copy of the value the mapping has
    there.  Line 229 then assigns the primary key, which writes the
    primary-key field of the instance: under the default construction
    contract the instance is a lazy instance of the class whose attributes
    are the ones it was built from with that field set to the value of
    [__pk__]; so its attribute [pk] holds the value of [__pk__] when the
    primary-key field of the class is named [pk], and the copy of the stored
    value otherwise.  When the class is registered no more, no instance is
    built: [create_instance] raises [KeyError]. *)
Theorem legacy_pk_field_wins :
  forall (a : nat) (items : dict) (name : string) (cls : doc_class)
         (v_legacy v_pk : value) (st : state),
    dict_get (KStr "__pk__") items = Some v_legacy ->
    dict_get (KStr "pk") items = Some v_pk ->
    dict_get (KStr "__collection__") items = Some (VStr name) ->
    collection_get name (collections (backend st)) = Some cls ->
    let attrs := reference_attributes items "__pk__" st in
    match class_get cls (classes (backend st)) with
    | None =>
        exists st', deserialize (VDict a items) None st = (Raise KeyError, st')
    | Some p =>
        exists (d : document) (st' : state),
          deserialize (VDict a items) None st = (Return (VDoc d), st')
          /\ pk0 d = v_legacy
          /\ dict_get (KStr "__pk__") attrs = None
          /\ (exists copied,
                dict_get (KStr "pk") attrs = Some copied /\
                (store_closed (saved st) (next_id st) ->
                 content (saved st) copied = content (saved st) v_pk))
          /\ (e_constructor p = None ->
              _lazy d = true /\ __class__ d = cls
              /\ attributes d
                 = dict_set (KStr (m_primary_key (Meta cls))) v_legacy attrs
              /\ dict_get (KStr "pk") (attributes d)
                 = if String.eqb (m_primary_key (Meta cls)) "pk"
                   then Some v_legacy
                   else dict_get (KStr "pk") attrs)
          /\ (forall constructor, e_constructor p = Some constructor ->
              exists i,
                d = set_pk (with_oid i (constructor attrs true)) v_legacy)
    end.
Proof.
  intros a items name cls v_legacy v_pk st Hlegacy Hpk Hc Hcls attrs.
  assert (Hmem : assoc_mem String.eqb name (collections (backend st)) = true).
  { unfold assoc_mem. unfold collection_get in Hcls. now rewrite Hcls. }
  assert (Hfield : pk_field_of items = Some "__pk__").
  { unfold pk_field_of, dict_mem, assoc_mem. fold dict_get. now rewrite Hlegacy. }
  destruct (class_get cls (classes (backend st))) as [p|] eqn:Hp.
  2:{ rewrite (@deserialize_stub_run a items name "__pk__" st Hc Hmem Hfield).
      now apply (@deserialize_reference_stale items name "__pk__" cls st). }
  do 2 eexists. split; [|split; [|split; [|split; [|split]]]].
  - rewrite (@deserialize_stub_run a items name "__pk__" st Hc Hmem Hfield).
    apply (@deserialize_reference_run items name "__pk__" cls p v_legacy st
             Hcls Hp Hlegacy).
  - apply pk0_set_pk.
  - unfold attrs, reference_attributes. rewrite !dict_get_del. reflexivity.
  - destruct (copy_items_get (saved st) items (S (next_id st)) _ Hpk)
      as [m [Hm Hg]].
    eexists. split.
    + unfold attrs, reference_attributes. rewrite !dict_get_del.
      cbn [key_eqb String.eqb Ascii.eqb Bool.eqb]. exact Hg.
    + intros Hclosed. apply deepcopy_from_content.
      apply (store_closed_le (n:=next_id st)); auto. lia.
  - intros E. unfold construct. rewrite E.
    split; [reflexivity|]. split; [reflexivity|]. split; [reflexivity|].
    rewrite attributes_set_pk. unfold get_pk_name, new_document.
    cbn [__class__ attributes]. fold attrs.
    rewrite dict_get_set. cbn [key_eqb].
    rewrite String.eqb_sym. reflexivity.
  - intros f E. unfold construct. rewrite E. eauto.
Qed.

Lemma legacy_pk_field_wins_witness :
  exists (d : document) (st' : state),
    deserialize (VDict 3 Sample.legacy_stub) None (Sample.start Sample.library)
    = (Return (VDoc d), st')
    /\ pk0 d = VInt 1
    /\ dict_get (KStr "pk") (attributes d) = Some (VInt 1)
    /\ dict_get (KStr "__pk__") (attributes d) = None
    /\ _lazy d = true /\ __class__ d = Sample.Book.
Proof.
  pose proof (@legacy_pk_field_wins 3 Sample.legacy_stub "book" Sample.Book
                (VInt 1) (VInt 2) (Sample.start Sample.library)
                eq_refl eq_refl eq_refl eq_refl) as H.
  cbv zeta in H.
  change (class_get Sample.Book
            (classes (backend (Sample.start Sample.library))))
    with (Some (mkEntry "book" None [])) in H.
  destruct H as (d & st' & Hrun & Hpk & _ & _ & Hdefault & _).
  destruct (Hdefault eq_refl) as (Hl & Hcls & Hattrs & Hfield).
  exists d, st'. repeat split; auto.
  rewrite Hattrs. reflexivity.
Defined.

(** ** The round trip of a reference *)

Lemma content_items_del sv k d :
  content_items sv (dict_del k d) = dict_del k (content_items sv d).
Proof.
  unfold dict_del, content_items.
  induction d as [|[k' v'] d IH]; simpl; auto.
  destruct (key_eqb k k'); simpl; now rewrite IH.
Qed.

Lemma content_items_set sv k v d :
  content_items sv (dict_set k v d)
  = dict_set k (content sv v) (content_items sv d).
Proof.
  unfold dict_set, content_items.
  induction d as [|[k' v'] d IH]; simpl; auto.
  destruct (key_eqb k k'); simpl; now rewrite ?IH.
Qed.

Lemma included_get_other d includes k : forall out,
  Forall (fun path => flat_key path <> k) includes ->
  dict_get k (included d includes out) = dict_get k out.
Proof.
  unfold included. induction includes as [|x rest IH]; intros out H; simpl; auto.
  inversion H as [|? ? Hx Hrest]; subst. rewrite IH by assumption.
  destruct (get_value (VDoc d) x); auto.
  rewrite dict_get_set. destruct (key_eqb k (flat_key x)) eqn:E; auto.
  apply key_eqb_spec in E. congruence.
Qed.

Lemma pk_in_autosaved d st : pk_in (saved (autosaved true d st)) d <> VNone.
Proof.
  unfold autosaved. rewrite andb_true_r.
  destruct (is_None (pk_in (saved st) d)) eqn:E.
  - cbn [saved]. unfold pk_in in *. destruct (pk0 d); try discriminate.
    now rewrite (assoc_get_set_same _ Nat.eqb_eq).
  - intros H. rewrite H in E. discriminate.
Qed.

Lemma ensure_registered_known b cls p :
  class_get cls (classes b) = Some p -> ensure_registered b cls = b.
Proof.
  unfold ensure_registered, assoc_mem, class_get. now intros ->.
Qed.

Lemma reserved_split k :
  reserved k = false ->
  k <> KStr "pk" /\ k <> KStr "__pk__" /\ k <> KStr "__collection__".
Proof.
  unfold reserved. intros H.
  apply orb_false_iff in H. destruct H as [H H3].
  apply orb_false_iff in H. destruct H as [H1 H2].
  repeat split; intros ->; cbn in *; discriminate.
Qed.

(** What [deserialize] makes of a stub with the fields [pk] and
    [__collection__] and without [__pk__]. *)
Lemma deserialize_current_stub i items name cls p v st :
  dict_get (KStr "__collection__") items = Some (VStr name) ->
  dict_get (KStr "__pk__") items = None ->
  dict_get (KStr "pk") items = Some v ->
  collection_get name (collections (backend st)) = Some cls ->
  class_get cls (classes (backend st)) = Some p ->
  e_constructor p = None ->
  exists m,
    deserialize (VDict i items) None st
    = (Return (VDoc (Document m cls v
                       (dict_set (KStr (m_primary_key (Meta cls))) v
                          (reference_attributes items "pk" st))
                       true false None)),
       mkState (backend st) (saved st) (next_pk st) (S m)).
Proof.
  intros Hc Hlegacy Hpk Hcls Hp Hctor.
  assert (Hmem : assoc_mem String.eqb name (collections (backend st)) = true).
  { unfold assoc_mem. unfold collection_get in Hcls. now rewrite Hcls. }
  assert (Hfield : pk_field_of items = Some "pk").
  { unfold pk_field_of, dict_mem, assoc_mem. fold dict_get.
    now rewrite Hlegacy, Hpk. }
  eexists.
  rewrite (@deserialize_stub_run i items name "pk" st Hc Hmem Hfield).
  rewrite (@deserialize_reference_run items name "pk" cls p v st Hcls Hp Hpk).
  unfold construct. rewrite Hctor. reflexivity.
Qed.

Lemma dict_mem_false_get k d : dict_mem k d = false -> dict_get k d = None.
Proof.
  unfold dict_mem, assoc_mem. fold dict_get.
  now destruct (dict_get k d).
Qed.

(** The fields [deserialize] looks for, in the stub [serialize] returns. *)
Lemma serialize_stub_fields d k st p :
  embed d = false ->
  class_get (__class__ d) (classes (backend st)) = Some p ->
  carries_no_reserved_key d ->
  (_lazy d = false -> includes_well_typed d (configured_includes d)) ->
  exists items st1,
    serialize (VDoc d) k 0 None true false st
    = (Return (VDict (next_id st) items), st1)
    /\ backend st1 = backend st
    /\ saved st1 = saved (autosaved true d st)
    /\ dict_get (KStr "__collection__") items = Some (VStr (e_collection p))
    /\ dict_get (KStr "__pk__") items = None
    /\ dict_get (KStr "pk") items = Some (pk_in (saved st1) d).
Proof.
  intros He Hp Hres Hwt.
  assert (Hst : with_backend st (ensure_registered (backend st) (__class__ d))
                = st).
  { rewrite (ensure_registered_known _ _ Hp). now destruct st. }
  unfold carries_no_reserved_key in Hres. destruct (_lazy d) eqn:Hl.
  - do 2 eexists. split; [|split; [|split; [|split; [|split]]]].
    + rewrite serialize_lazy_run by assumption. rewrite Hst. reflexivity.
    + reflexivity.
    + reflexivity.
    + unfold lazy_stub. rewrite dict_get_set.
      change (key_eqb (KStr "__collection__") (KStr "__collection__"))
        with true. cbv iota. unfold collection_of.
      rewrite autosaved_backend, Hp. reflexivity.
    + unfold lazy_stub. rewrite !dict_get_set.
      change (key_eqb (KStr "__pk__") (KStr "__collection__")) with false.
      change (key_eqb (KStr "__pk__") (KStr "pk")) with false. cbv iota.
      apply dict_mem_false_get in Hres.
      match goal with |- context [copy_items ?f ?l ?n] =>
        pose proof (@copy_items_get_None (saved (autosaved true d st))
                      (lazy_attributes d) n _ Hres) as Hnone end.
      destruct (dict_mem (KStr (get_pk_name d)) _); [|exact Hnone].
      rewrite dict_get_del. now destruct (key_eqb _ _).
    + unfold lazy_stub. rewrite !dict_get_set.
      change (key_eqb (KStr "pk") (KStr "__collection__")) with false.
      change (key_eqb (KStr "pk") (KStr "pk")) with true. reflexivity.
  - specialize (Hwt eq_refl).
    assert (H3 : forall k', reserved k' = true ->
                Forall (fun path => flat_key path <> k') (configured_includes d)).
    { intros k' Hk'. eapply Forall_impl; [|exact Hres]. cbv beta.
      intros path Hpath E. rewrite E in Hpath. congruence. }
    do 2 eexists. split; [|split; [|split; [|split; [|split]]]].
    + rewrite serialize_eager_run by assumption. rewrite Hst. cbn [andb].
      rewrite add_includes_run by assumption. reflexivity.
    + unfold bump. cbn [backend]. apply autosaved_backend.
    + reflexivity.
    + rewrite included_get_other by (apply H3; reflexivity).
      unfold minimal_stub, collection_of. rewrite autosaved_backend, Hp.
      reflexivity.
    + rewrite included_get_other by (apply H3; reflexivity). reflexivity.
    + rewrite included_get_other by (apply H3; reflexivity). reflexivity.
Qed.

(** C1 (as stated, refuted): [Author] is registered, yet an author whose
    embed flag is set is serialized as its attribute mapping, and what
    [deserialize] returns for that is a plain mapping, not an instance. *)
Lemma embedded_instance_does_not_round_trip :
  exists stub st1 out st2,
    class_get Sample.Author (classes Sample.library) <> None
    /\ serialize (VDoc Sample.embedded_jane) false 0 None true false
         (Sample.start Sample.library)
       = (Return stub, st1)
    /\ deserialize stub None st1 = (Return out, st2)
    /\ forall d', out <> VDoc d'.
Proof.
  do 4 eexists. split; [|split; [|split]].
  - discriminate.
  - vm_compute. reflexivity.
  - vm_compute. reflexivity.
  - discriminate.
Qed.

Lemma pk_in_built m cls v attrs l e r sv :
  v <> VNone -> pk_in sv (Document m cls v attrs l e r) = v.
Proof. unfold pk_in. simpl. now destruct v. Qed.

(** The round trip on any state whose registry resolves back. *)
Lemma round_trip_on_resolving_registry d k p st :
  embed d = false ->
  class_get (__class__ d) (classes (backend st)) = Some p ->
  e_constructor p = None ->
  resolves_back (backend st) ->
  carries_no_reserved_key d ->
  (_lazy d = false -> includes_well_typed d (configured_includes d)) ->
  exists items st1 d' st2,
    serialize (VDoc d) k 0 None true false st
    = (Return (VDict (next_id st) items), st1)
    /\ deserialize (VDict (next_id st) items) None st1
       = (Return (VDoc d'), st2)
    /\ _lazy d' = true
    /\ __class__ d' = __class__ d
    /\ pk_in (saved st2) d' = pk_in (saved st2) d
    /\ attributes d'
       = dict_set (KStr (get_pk_name d)) (pk_in (saved st1) d)
           (reference_attributes items "pk" st1)
    /\ (store_closed (saved st1) (next_id st1) ->
        content_items (saved st1) (attributes d')
        = content_items (saved st1)
            (dict_set (KStr (get_pk_name d)) (pk_in (saved st1) d)
               (dict_del (KStr "__collection__")
                  (dict_del (KStr "pk") items)))).
Proof.
  intros He Hp Hctor Hback Hres Hwt.
  destruct (@serialize_stub_fields d k st p He Hp Hres Hwt)
    as (items & st1 & Hser & Hb1 & Hs1 & Hcoll & Hlegacy & Hpk).
  assert (Hcls : collection_get (e_collection p) (collections (backend st1))
                 = Some (__class__ d)).
  { rewrite Hb1. apply Hback. now exists p. }
  assert (Hp1 : class_get (__class__ d) (classes (backend st1)) = Some p)
    by now rewrite Hb1.
  destruct (@deserialize_current_stub (next_id st) items (e_collection p)
              (__class__ d) p (pk_in (saved st1) d) st1
              Hcoll Hlegacy Hpk Hcls Hp1 Hctor) as [m Hdes].
  exists items, st1. do 2 eexists.
  split; [exact Hser|]. split; [exact Hdes|].
  split; [reflexivity|]. split; [reflexivity|].
  split; [|split; [reflexivity|]].
  - cbn [saved]. apply pk_in_built. rewrite Hs1. apply pk_in_autosaved.
  - intros Hclosed. cbn [attributes]. unfold reference_attributes, get_pk_name.
    rewrite !content_items_set, !content_items_del. do 3 f_equal.
    apply copy_items_content.
    + apply Forall_forall. intros kv _. apply deepcopy_from_content.
    + apply (store_closed_le (n:=next_id st1)); auto.
Qed.

(** A second way in which the round trip of C1 fails as stated: a lazy book
    with primary key 7 that knows an attribute [__pk__] comes back with that
    attribute as its primary key (lines 217-218). *)
Lemma carried_legacy_key_becomes_pk :
  exists stub st1 d' st2,
    serialize
      (VDoc (Document 15 Sample.Book (VInt 7) [(KStr "__pk__", VInt 99)]
               true false None))
      false 0 None true false (Sample.start Sample.library)
    = (Return stub, st1)
    /\ deserialize stub None st1 = (Return (VDoc d'), st2)
    /\ pk0 d' = VInt 99.
Proof.
  do 4 eexists. split; [|split].
  - vm_compute. reflexivity.
  - vm_compute. reflexivity.
  - reflexivity.
Qed.

(** C1 (amended): on a backend built by [register] and [autoregister]
    calls, for an instance whose class is registered with the default
    construction contract, whose embed flag is not set and which carries no
    field under a key of the stub itself (and, when it is eager, has no
    ill-typed include path): serializing it with [embed_level=0] and
    [autosave=True] and deserializing the result gives a lazy instance of
    the same class, with the primary key the instance has after the call,
    whose attributes are a deep copy of the fields of the stub other than
    [pk] and [__collection__], with the primary-key field of the instance
    set to that primary key. *)
Theorem reference_round_trip :
  forall (document_classes : list doc_class)
         (autodiscover autoload allow : bool) (calls : list registry_call)
         (sv : list (nat * Z)) (npk : Z) (nid : nat)
         (d : document) (convert_keys_to_str : bool) (p : entry),
    let st :=
      mkState (do_calls calls
                 (__init__ document_classes autodiscover autoload allow))
              sv npk nid in
    embed d = false ->
    class_get (__class__ d) (classes (backend st)) = Some p ->
    e_constructor p = None ->
    carries_no_reserved_key d ->
    (_lazy d = false -> includes_well_typed d (configured_includes d)) ->
    exists items st1 d' st2,
      serialize (VDoc d) convert_keys_to_str 0 None true false st
      = (Return (VDict (next_id st) items), st1)
      /\ deserialize (VDict (next_id st) items) None st1
         = (Return (VDoc d'), st2)
      /\ _lazy d' = true
      /\ __class__ d' = __class__ d
      /\ pk_in (saved st2) d' = pk_in (saved st2) d
      /\ attributes d'
         = dict_set (KStr (get_pk_name d)) (pk_in (saved st1) d)
             (reference_attributes items "pk" st1)
      /\ (store_closed (saved st1) (next_id st1) ->
          content_items (saved st1) (attributes d')
          = content_items (saved st1)
              (dict_set (KStr (get_pk_name d)) (pk_in (saved st1) d)
                 (dict_del (KStr "__collection__")
                    (dict_del (KStr "pk") items)))).
Proof.
  intros dcs a l q calls sv npk nid d k p st He Hp Hctor Hres Hwt.
  apply (@round_trip_on_resolving_registry d k p st); auto.
  apply do_calls_resolves_back, init_resolves_back.
Qed.

Lemma reference_round_trip_witness :
  exists items st1 d' st2,
    serialize (VDoc Sample.novel) false 0 None true false
      (Sample.start Sample.library)
    = (Return (VDict 100 items), st1)
    /\ deserialize (VDict 100 items) None st1 = (Return (VDoc d'), st2)
    /\ _lazy d' = true
    /\ __class__ d' = Sample.Book
    /\ pk_in (saved st2) d' = pk_in (saved st2) Sample.novel.
Proof.
  destruct (@reference_round_trip [] true true true
              [Register Sample.Author None; Register Sample.Book None]
              [] 1000%Z 100 Sample.novel false (mkEntry "book" None [])
              eq_refl eq_refl eq_refl)
    as (items & st1 & d' & st2 & Hser & Hdes & Hl & Hc & Hpk & _).
  - repeat constructor.
  - intros _. repeat constructor; discriminate.
  - exists items, st1, d', st2. auto.
Defined.

(** ** Mappings that are not reference stubs *)

(** C7 (what the code does against the claim): a mapping whose
    [__collection__] value cannot be hashed, a list say, is not a reference
    stub, whether or not it has a primary-key field; yet no plain mapping
    comes back: line 223 looks the value up in [self.collections] before it
    looks at the primary-key field, and that raises [TypeError]. *)
Theorem unhashable_collection_raises :
  forall (a : nat) (items : dict) (cv : value) (st : state),
    dict_get (KStr "__collection__") items = Some cv ->
    hashable cv = false ->
    deserialize (VDict a items) None st = (Raise TypeError, st).
Proof.
  intros a items cv st Hc Hh. unfold deserialize, apply_coders.
  cbn [deserialize_value]. rewrite Hc.
  unfold in_collections, bind, get_backend. now rewrite Hh.
Qed.

Lemma unhashable_collection_raises_witness :
  pk_field_of Sample.odd_mapping = None
  /\ deserialize (VDict 3 Sample.odd_mapping) None
       (Sample.start Sample.library)
     = (Raise TypeError, Sample.start Sample.library).
Proof.
  split; [reflexivity|].
  apply (@unhashable_collection_raises 3 Sample.odd_mapping
           (VList 4 [VStr "a"]) (Sample.start Sample.library));
    reflexivity.
Defined.

(** The same claim fails in a second way: below a mapping without a
    primary-key field, a stub whose collection name the reverse index still
    holds for a class that is registered no more makes [create_instance]
    raise [KeyError]. *)
Lemma stale_reverse_index_raises :
  exists st',
    deserialize (VDict 3 Sample.stale_reference) None
      (Sample.start Sample.renamed)
    = (Raise KeyError, st').
Proof. eexists. vm_compute. reflexivity. Qed.

Lemma walk_items_returns (rec : value -> M value) items :
  Forall (fun kv => returns_on rec (snd kv)) items ->
  forall out st, registry_closed (backend st) ->
    exists out' st',
      walk_items rec (fun k => k) items out st = (Return out', st')
      /\ backend st' = backend st
      /\ forall k, dict_mem k out' = dict_mem k out || dict_mem k items.
Proof.
  induction 1 as [|[k v] items Hv _ IH]; intros out st Hst.
  - exists out, st. repeat split. intros k. now rewrite orb_false_r.
  - cbn [walk_items]. destruct (Hv st Hst) as (v' & st1 & Hrun & Hb).
    cbn [snd] in Hrun. unfold bind at 1. rewrite Hrun.
    destruct (IH (dict_set k v' out) st1) as (out' & st' & Hrun' & Hb' & Hk).
    { now rewrite Hb. }
    exists out', st'. split; [exact Hrun'|]. split; [congruence|].
    intros k0. rewrite Hk. unfold dict_mem, assoc_mem. fold dict_get.
    fold dict_set. rewrite dict_get_set.
    change (dict_get k0 ((k, v) :: items))
      with (if key_eqb k0 k then Some v else dict_get k0 items).
    destruct (key_eqb k0 k); [|reflexivity].
    now destruct (dict_get k0 out), (dict_get k0 items).
Qed.

Lemma walk_list_returns (rec : value -> M value) items :
  Forall (returns_on rec) items ->
  forall st, registry_closed (backend st) ->
    exists l st',
      walk_list rec items st = (Return l, st') /\ backend st' = backend st.
Proof.
  induction 1 as [|v items Hv _ IH]; intros st Hst.
  - exists [], st. now split.
  - cbn [walk_list]. destruct (Hv st Hst) as (v' & st1 & Hrun & Hb).
    unfold bind at 1. rewrite Hrun.
    destruct (IH st1) as (l & st' & Hrun' & Hb'); [now rewrite Hb|].
    unfold bind at 1. rewrite Hrun'. exists (v' :: l), st'.
    split; [reflexivity|congruence].
Qed.

Lemma walk_dict_returns (rec : value -> M value) items :
  Forall (fun kv => returns_on rec (snd kv)) items ->
  forall st, registry_closed (backend st) ->
    exists out st',
      walk_dict rec (fun k => k) items st
      = (Return (VDict (next_id st) out), st')
      /\ backend st' = backend st
      /\ forall k, dict_mem k out = dict_mem k items.
Proof.
  intros H st Hst. unfold walk_dict, bind, fresh.
  destruct (@walk_items_returns rec items H []
              (mkState (backend st) (saved st) (next_pk st) (S (next_id st)))
              Hst)
    as (out & st' & Hrun & Hb & Hk).
  rewrite Hrun. exists out, st'. repeat split; auto.
Qed.

Lemma in_collections_run cv st :
  hashable cv = true ->
  in_collections cv st
  = (Return match cv with
            | VStr name =>
                if assoc_mem String.eqb name (collections (backend st))
                then Some name else None
            | _ => None
            end, st).
Proof.
  intros H. unfold in_collections, bind, get_backend. rewrite H.
  destruct cv; try reflexivity.
  now destruct (assoc_mem String.eqb s (collections (backend st))).
Qed.

Lemma deserialize_reference_returns items name pk_field st :
  registry_closed (backend st) ->
  assoc_mem String.eqb name (collections (backend st)) = true ->
  pk_field_of items = Some pk_field ->
  exists v' st',
    deserialize_reference items name pk_field st = (Return v', st')
    /\ backend st' = backend st.
Proof.
  intros Hst Hmem Hpk. unfold assoc_mem in Hmem.
  destruct (assoc_get String.eqb name (collections (backend st)))
    as [cls|] eqn:Hcls; [|discriminate].
  destruct (class_get cls (classes (backend st))) as [p|] eqn:Hp.
  - destruct (pk_field_of_get _ Hpk) as [v Hv].
    rewrite (@deserialize_reference_run items name pk_field cls p v st
               Hcls Hp Hv).
    do 2 eexists. split; reflexivity.
  - elim (Hst name cls Hcls Hp).
Qed.

(** On a backend whose reverse index is closed, [deserialize] returns on
    every value whose [__collection__] fields can be hashed. *)
Lemma deserialize_value_returns v :
  collections_hashable v = true -> returns_on deserialize_value v.
Proof.
  induction v using value_graph_ind; intros Hh st Hst;
    try (do 2 eexists; split; reflexivity).
  - cbn [collections_hashable] in Hh. apply andb_true_iff in Hh.
    destruct Hh as [Hc Hall].
    assert (Hrec : Forall (fun kv => returns_on deserialize_value (snd kv))
                          items).
    { rewrite forallb_forall in Hall. rewrite Forall_forall in *.
      intros kv Hin. apply H; auto. }
    destruct (walk_dict_returns Hrec st Hst) as (out & st' & Hplain & Hb & _).
    cbn [deserialize_value].
    destruct (dict_get (KStr "__collection__") items) as [cv|];
      [|eauto].
    unfold bind at 1. rewrite (in_collections_run _ st Hc).
    destruct cv; eauto.
    destruct (assoc_mem String.eqb s (collections (backend st))) eqn:Hmem;
      eauto.
    destruct (pk_field_of items) as [pk_field|] eqn:Hpk; eauto.
    now apply deserialize_reference_returns.
  - cbn [collections_hashable] in Hh.
    assert (Hrec : Forall (returns_on deserialize_value) items).
    { rewrite forallb_forall in Hh. rewrite Forall_forall in *.
      intros x Hin. apply H; auto. }
    destruct (walk_list_returns Hrec st Hst) as (l & st' & Hrun & Hb).
    cbn [deserialize_value]. unfold bind at 1. rewrite Hrun.
    do 2 eexists. split; [reflexivity|exact Hb].
  - cbn [collections_hashable] in Hh.
    assert (Hrec : Forall (returns_on deserialize_value) items).
    { rewrite forallb_forall in Hh. rewrite Forall_forall in *.
      intros x Hin. apply H; auto. }
    destruct (walk_list_returns Hrec st Hst) as (l & st' & Hrun & Hb).
    cbn [deserialize_value]. unfold bind at 1. rewrite Hrun.
    do 2 eexists. split; [reflexivity|exact Hb].
Qed.

Lemma pk_field_of_None items :
  dict_mem (KStr "__pk__") items || dict_mem (KStr "pk") items = false ->
  pk_field_of items = None.
Proof.
  unfold pk_field_of. intros H. apply orb_false_iff in H.
  destruct H as [-> ->]. reflexivity.
Qed.

(** X24 (what C7 says, where it holds): on a backend whose reverse index is
    closed, a mapping that is not a reference stub (and in which every
    [__collection__] value can be hashed) comes back as a new plain mapping
    with the same keys. *)
Theorem plain_mapping_is_kept :
  forall (a : nat) (items : dict) (st : state),
    registry_closed (backend st) ->
    collections_hashable (VDict a items) = true ->
    is_reference (backend st) items = false ->
    exists out st',
      deserialize (VDict a items) None st
      = (Return (VDict (next_id st) out), st')
      /\ forall k, dict_mem k out = dict_mem k items.
Proof.
  intros a items st Hst Hh Hnot.
  cbn [collections_hashable] in Hh. apply andb_true_iff in Hh.
  destruct Hh as [Hc Hall].
  assert (Hrec : Forall (fun kv => returns_on deserialize_value (snd kv))
                        items).
  { rewrite forallb_forall in Hall. apply Forall_forall.
    intros kv Hin. apply deserialize_value_returns; auto. }
  destruct (walk_dict_returns Hrec st Hst) as (out & st' & Hplain & _ & Hk).
  exists out, st'. split; [|exact Hk].
  unfold deserialize, apply_coders. cbn [deserialize_value].
  unfold is_reference in Hnot.
  destruct (dict_get (KStr "__collection__") items) as [cv|]; [|exact Hplain].
  unfold bind at 1. rewrite (in_collections_run _ st Hc).
  destruct cv; try exact Hplain.
  destruct (assoc_mem String.eqb s (collections (backend st)));
    [|exact Hplain].
  cbn [andb] in Hnot. now rewrite (pk_field_of_None _ Hnot).
Qed.

(** ** The model at work *)

(** The scenario of the specification: a mapping with a name and a book. *)
Example serialize_mapping_with_reference :
  fst (serialize
         (VDict 1 [(KStr "name", VStr "Jane");
                   (KStr "book", VDoc (Document 2 Sample.Author (VInt 7) []
                                         false false None))])
         false 0 None true false (Sample.start Sample.library))
  = Return (VDict 100
              [(KStr "name", VStr "Jane");
               (KStr "book", VDict 101 [(KStr "pk", VInt 7);
                                        (KStr "__collection__", VStr "author")])]).
Proof. reflexivity. Qed.

Example deserialize_mapping_with_reference :
  fst (deserialize
         (VDict 100
            [(KStr "name", VStr "Jane");
             (KStr "book", VDict 101 [(KStr "pk", VInt 7);
                                      (KStr "__collection__", VStr "author")])])
         None (Sample.start Sample.library))
  = Return (VDict 100
              [(KStr "name", VStr "Jane");
               (KStr "book", VDoc (Document 102 Sample.Author (VInt 7)
                                     [(KStr "pk", VInt 7)] true false None))]).
Proof. reflexivity. Qed.

(** An include path that is found is flattened; one that is missing is
    left out. *)
Example serialize_with_includes :
  fst (serialize (VDoc Sample.novel) false 0 None true false
         (Sample.start Sample.library))
  = Return (VDict 100 [(KStr "pk", VInt 14);
                       (KStr "__collection__", VStr "book");
                       (KStr "title", VStr "T")]).
Proof. reflexivity. Qed.

Example split_dotted : split "." "author.name" = ["author"; "name"].
Proof. reflexivity. Qed.

Example str_of_int_key : str (KInt (-12)) = KStr "-12".
Proof. reflexivity. Qed.

(** * Further properties of the code *)

Unset Implicit Arguments.

(** ** The registry: keys and entries *)

Section AssocKeys.
Variables (K V : Type) (eqb : K -> K -> bool).
Hypothesis eqb_spec : forall x y, eqb x y = true <-> x = y.

Lemma In_assoc_del_key k (kv : K * V) d :
  In kv (assoc_del eqb k d) -> In kv d /\ fst kv <> k.
Proof.
  induction d as [|[k' v'] d IH]; simpl; [intros []|].
  destruct (eqb k k') eqn:E; simpl.
  - intros H. destruct (IH H). auto.
  - intros [<-|H].
    + split; [now left|]. simpl. intros ->.
      rewrite (proj2 (eqb_spec k k) eq_refl) in E. discriminate.
    + destruct (IH H). auto.
Qed.

Lemma In_fold_del dl : forall (kv : K * V) d,
  In kv (fold_left (fun cs x => assoc_del eqb x cs) dl d) ->
  In kv d /\ ~ In (fst kv) dl.
Proof.
  induction dl as [|x dl IH]; intros kv d; simpl; [auto|].
  intros H. apply IH in H. destruct H as [H Hn].
  apply In_assoc_del_key in H. destruct H as [H Hx].
  split; [exact H|]. intros [E|E]; [congruence|contradiction].
Qed.

Lemma In_assoc_set k v (kv : K * V) d :
  In kv (assoc_set eqb k v d) -> kv = (k, v) \/ In kv d.
Proof.
  induction d as [|[k' v'] d IH]; simpl.
  - intros [<-|[]]. now left.
  - destruct (eqb k k') eqn:E; simpl.
    + apply eqb_spec in E. subst k'. intros [<-|H]; auto.
    + intros [<-|H]; auto. destruct (IH H); auto.
Qed.

Lemma assoc_set_keys k v (d : list (K * V)) :
  forall x, In x (map fst (assoc_set eqb k v d)) -> x = k \/ In x (map fst d).
Proof.
  intros x H. apply in_map_iff in H. destruct H as [kv [<- H]].
  apply In_assoc_set in H. destruct H as [->|H]; [now left|].
  right. now apply in_map.
Qed.

Lemma assoc_set_NoDup k v (d : list (K * V)) :
  NoDup (map fst d) -> NoDup (map fst (assoc_set eqb k v d)).
Proof.
  induction d as [|[k' v'] d IH]; simpl; intros H.
  - constructor; [intros []|constructor].
  - inversion H as [|? ? Hn Hd]; subst.
    destruct (eqb k k') eqn:E; simpl.
    + now constructor.
    + constructor; [|now apply IH].
      intros Hin. apply assoc_set_keys in Hin. destruct Hin as [->|Hin].
      * rewrite (proj2 (eqb_spec k k) eq_refl) in E. discriminate.
      * contradiction.
Qed.

Lemma assoc_del_NoDup k (d : list (K * V)) :
  NoDup (map fst d) -> NoDup (map fst (assoc_del eqb k d)).
Proof.
  induction d as [|[k' v'] d IH]; simpl; intros H; [constructor|].
  inversion H as [|? ? Hn Hd]; subst.
  destruct (eqb k k'); simpl; [now apply IH|].
  constructor; [|now apply IH].
  intros Hin. apply in_map_iff in Hin. destruct Hin as [kv [E Hin]].
  apply In_assoc_del_key in Hin. destruct Hin as [Hin _].
  apply Hn. rewrite <- E. now apply in_map.
Qed.

Lemma fold_del_NoDup dl : forall (d : list (K * V)),
  NoDup (map fst d) ->
  NoDup (map fst (fold_left (fun cs x => assoc_del eqb x cs) dl d)).
Proof.
  induction dl as [|x dl IH]; intros d H; simpl; auto.
  apply IH. now apply assoc_del_NoDup.
Qed.

(** In a dictionary an entry is what its key looks up. *)
Lemma In_assoc_get k v (d : list (K * V)) :
  NoDup (map fst d) -> In (k, v) d -> assoc_get eqb k d = Some v.
Proof.
  induction d as [|[k' v'] d IH]; simpl; intros Hnd; [intros []|].
  inversion Hnd as [|? ? Hn Hd]; subst. intros [[= -> ->]|Hin].
  - now rewrite (proj2 (eqb_spec k k) eq_refl).
  - destruct (eqb k k') eqn:E; [|now apply IH].
    apply eqb_spec in E. subst k'. elim Hn.
    change k with (fst (k, v)). now apply in_map.
Qed.
End AssocKeys.

Lemma register_classes b cls ps :
  classes (register b cls ps)
  = assoc_set class_eqb cls (new_entry cls ps)
      (fold_left (fun cs x => assoc_del class_eqb x cs)
         (map fst (filter (collides (resolved_name cls ps)) (classes b)))
         (classes b)).
Proof. destruct ps; reflexivity. Qed.

(** What [register] leaves of the old entries: those of the classes that
    own another collection. *)
Lemma register_In b cls ps t p :
  In (t, p) (classes (register b cls ps)) ->
  (t, p) = (cls, new_entry cls ps) \/
  (In (t, p) (classes b) /\ e_collection p <> resolved_name cls ps).
Proof.
  rewrite register_classes. intros H.
  apply (@In_assoc_set _ _ class_eqb class_eqb_spec) in H. destruct H as [H|H]; [now left|].
  right. apply (@In_fold_del _ _ class_eqb class_eqb_spec) in H. destruct H as [Hin Hn].
  split; [exact Hin|]. intros Hc. apply Hn. simpl.
  apply in_map_iff. exists (t, p). split; [reflexivity|].
  apply filter_In. split; [exact Hin|].
  unfold collides. simpl. rewrite Hc. apply String.eqb_refl.
Qed.

Lemma register_NoDup b cls ps :
  NoDup (map fst (classes b)) ->
  NoDup (map fst (classes (register b cls ps))).
Proof.
  intros H. rewrite register_classes.
  apply (@assoc_set_NoDup _ _ class_eqb class_eqb_spec).
  now apply (@fold_del_NoDup _ _ class_eqb class_eqb_spec).
Qed.

Lemma do_calls_NoDup cs : forall b,
  NoDup (map fst (classes b)) -> NoDup (map fst (classes (do_calls cs b))).
Proof.
  induction cs as [|c cs IH]; intros b Hb; simpl; auto.
  apply IH. destruct c; cbn [do_call]; unfold autoregister;
    now apply register_NoDup.
Qed.

Lemma built_NoDup b : built b -> NoDup (map fst (classes b)).
Proof.
  intros (dcs & a & l & q & calls & ->). apply do_calls_NoDup.
  unfold __init__. destruct a; [|constructor].
  unfold autodiscover_classes.
  assert (H0 : NoDup (map fst (classes (mkBackend [] [] l q))))
    by constructor.
  revert H0. generalize (mkBackend [] [] l q).
  induction dcs as [|d dcs IH]; intros b Hb; simpl; auto.
  apply IH. now apply register_NoDup.
Qed.

Lemma built_resolves_back b : built b -> resolves_back b.
Proof.
  intros (dcs & a & l & q & calls & ->).
  apply do_calls_resolves_back, init_resolves_back.
Qed.

Lemma built_register b cls ps : built b -> built (register b cls ps).
Proof.
  intros (dcs & a & l & q & calls & ->).
  exists dcs, a, l, q, (calls ++ [Register cls ps]).
  unfold do_calls. now rewrite fold_left_app.
Qed.

Lemma get_cls_loop_found items : forall c t,
  get_cls_for_collection_loop items c = Return t ->
  exists p, In (t, p) items /\ e_collection p = c.
Proof.
  induction items as [|[t' p'] items IH]; intros c t; simpl; [discriminate|].
  destruct (String.eqb (e_collection p') c) eqn:E.
  - intros [= <-]. exists p'. split; [now left|]. now apply String.eqb_eq.
  - intros H. destruct (IH _ _ H) as [p [Hin Hc]]. exists p. auto.
Qed.

Lemma get_cls_loop_some items : forall c t p,
  In (t, p) items -> e_collection p = c ->
  exists t', get_cls_for_collection_loop items c = Return t'.
Proof.
  induction items as [|[t' p'] items IH]; intros c t p; simpl; [intros []|].
  intros Hin Hc. destruct (String.eqb (e_collection p') c) eqn:E; [eauto|].
  destruct Hin as [[= -> ->]|Hin]; [|eauto].
  subst c. rewrite String.eqb_refl in E. discriminate.
Qed.

Lemma get_cls_loop_missing items c :
  (forall t p, In (t, p) items -> e_collection p <> c) ->
  get_cls_for_collection_loop items c = Raise AttributeError.
Proof.
  induction items as [|[t' p'] items IH]; intros H; simpl; auto.
  destruct (String.eqb (e_collection p') c) eqn:E.
  - apply String.eqb_eq in E. elim (H t' p'); [now left|exact E].
  - apply IH. intros t p Hin. apply (H t p). now right.
Qed.

Lemma register_then_lookup_aux b cls ps :
  get_cls_for_collection (register b cls ps) (resolved_name cls ps)
  = Return cls.
Proof.
  unfold get_cls_for_collection.
  assert (Hin : In (cls, new_entry cls ps) (classes (register b cls ps))).
  { apply (assoc_get_In _ class_eqb_spec). rewrite register_classes.
    apply (assoc_get_set_same _ class_eqb_spec). }
  destruct (get_cls_loop_some _ _ _ _ Hin eq_refl) as [t' Ht'].
  change (e_collection (new_entry cls ps)) with (resolved_name cls ps)
    in Ht'.
  rewrite Ht'. f_equal.
  destruct (get_cls_loop_found _ _ _ Ht') as [p [Hp Hc]].
  destruct (register_In _ _ _ _ _ Hp) as [[= -> _]|[_ Hne]]; [reflexivity|].
  contradiction.
Qed.

(** X1: after [register(cls, parameters)] the three lookups agree, on any
    backend: the class is registered with the collection name the call
    resolved (the explicit parameter, else the one of [Meta], else the
    lower-cased class name) and with the constructor it was given, the
    reverse index maps that name to the class, and
    [get_cls_for_collection] finds the class by that name. *)
Theorem register_then_lookup :
  forall (b : Backend) (cls : doc_class) (parameters : option params),
    let name :=
      match parameters with
      | Some (mkParams (Some c) _ _) => c
      | _ =>
          match m_collection (Meta cls) with
          | Some c => c
          | None => lower (__name__ cls)
          end
      end in
    let b' := register b cls parameters in
    class_get cls (classes b')
    = Some (mkEntry name
              (match parameters with
               | Some p => p_constructor p
               | None => None
               end)
              (match parameters with Some p => p_extra p | None => [] end))
    /\ collection_get name (collections b') = Some cls
    /\ get_cls_for_collection b' name = Return cls.
Proof.
  intros b cls ps name b'.
  assert (Hname : name = resolved_name cls ps).
  { unfold name, resolved_name. destruct ps as [[[c|] f x]|]; reflexivity. }
  rewrite Hname. subst b'. split; [|split].
  - rewrite register_classes. unfold class_get.
    rewrite (assoc_get_set_same _ class_eqb_spec). reflexivity.
  - rewrite register_collections. apply (assoc_get_set_same _ String.eqb_eq).
  - unfold get_cls_for_collection.
    assert (Hin : In (cls, new_entry cls ps) (classes (register b cls ps))).
    { apply (assoc_get_In _ class_eqb_spec). rewrite register_classes.
      apply (assoc_get_set_same _ class_eqb_spec). }
    destruct (get_cls_loop_some _ _ _ _ Hin eq_refl) as [t' Ht'].
    change (e_collection (new_entry cls ps)) with (resolved_name cls ps)
      in Ht'.
    rewrite Ht'. f_equal.
    destruct (get_cls_loop_found _ _ _ Ht') as [p [Hp Hc]].
    destruct (register_In _ _ _ _ _ Hp) as [[= -> _]|[_ Hne]]; [reflexivity|].
    contradiction.
Qed.

(** X2: a class that owns the collection a call of [register] resolves for
    another class is evicted: after the call it is registered no more, and
    [get_collection_for_cls] would have to register it anew. *)
Theorem register_evicts_owner :
  forall (b : Backend) (cls t : doc_class) (parameters : option params)
         (p : entry),
    t <> cls ->
    class_get t (classes b) = Some p ->
    e_collection p = resolved_name cls parameters ->
    class_get t (classes (register b cls parameters)) = None
    /\ collection_get (e_collection p)
         (collections (register b cls parameters)) = Some cls.
Proof.
  intros b cls t ps p Hne Hget Hc. split.
  - rewrite register_classes. unfold class_get.
    rewrite (assoc_get_set_other _ class_eqb_spec) by assumption.
    rewrite (assoc_get_fold_del _ class_eqb_spec).
    assert (Hin : existsb (class_eqb t)
              (map fst (filter (collides (resolved_name cls ps)) (classes b)))
            = true).
    { apply existsb_exists. exists t. split; [|now apply class_eqb_spec].
      apply in_map_iff. exists (t, p). split; [reflexivity|].
      apply filter_In. split.
      - now apply (assoc_get_In _ class_eqb_spec).
      - unfold collides. simpl. rewrite Hc. apply String.eqb_refl. }
    now rewrite Hin.
  - rewrite Hc, register_collections.
    apply (assoc_get_set_same _ String.eqb_eq).
Qed.

Lemma register_evicts_owner_witness :
  class_get Sample.Author
    (classes (register Sample.library Sample.Book (Sample.named "author")))
  = None
  /\ collection_get "author"
       (collections
          (register Sample.library Sample.Book (Sample.named "author")))
     = Some Sample.Book.
Proof.
  apply (@register_evicts_owner Sample.library Sample.Book Sample.Author
           (Sample.named "author") (mkEntry "author" None []));
    [discriminate|reflexivity|reflexivity].
Defined.

(** X3: on a backend the code built, [register] leaves every other class
    that owns another collection as it was: same entry, and the reverse
    index still maps its collection to it. *)
Theorem register_keeps_others :
  forall (b : Backend) (cls t : doc_class) (parameters : option params)
         (p : entry),
    built b ->
    t <> cls ->
    class_get t (classes b) = Some p ->
    e_collection p <> resolved_name cls parameters ->
    class_get t (classes (register b cls parameters)) = Some p
    /\ collection_get (e_collection p)
         (collections (register b cls parameters)) = Some t.
Proof.
  intros b cls t ps p Hb Hne Hget Hc. split.
  - rewrite register_classes. unfold class_get.
    rewrite (assoc_get_set_other _ class_eqb_spec) by assumption.
    rewrite (assoc_get_fold_del _ class_eqb_spec).
    destruct (existsb _ _) eqn:Ex; [|exact Hget].
    apply existsb_exists in Ex. destruct Ex as [x [Hx Ex]].
    apply class_eqb_spec in Ex. subst x.
    apply in_map_iff in Hx. destruct Hx as [[t' p'] [Ht' Hx]].
    simpl in Ht'. subst t'. apply filter_In in Hx. destruct Hx as [Hin Hcol].
    apply (@In_assoc_get _ _ class_eqb class_eqb_spec _ _ _ (built_NoDup _ Hb)) in Hin.
    unfold class_get in Hget. rewrite Hget in Hin. injection Hin as <-.
    unfold collides in Hcol. simpl in Hcol. apply String.eqb_eq in Hcol.
    contradiction.
  - rewrite register_collections. unfold collection_get.
    rewrite (assoc_get_set_other _ String.eqb_eq) by assumption.
    apply (built_resolves_back _ Hb). now exists p.
Qed.

Lemma register_keeps_others_witness :
  class_get Sample.Author
    (classes (register Sample.library Sample.Tag None))
  = Some (mkEntry "author" None [])
  /\ collection_get "author"
       (collections (register Sample.library Sample.Tag None))
     = Some Sample.Author.
Proof.
  apply (@register_keeps_others Sample.library Sample.Tag Sample.Author None
           (mkEntry "author" None [])).
  - exists [], true, true, true,
      [Register Sample.Author None; Register Sample.Book None]. reflexivity.
  - discriminate.
  - reflexivity.
  - discriminate.
Defined.

Lemma register_keeps_entry b cls t ps p :
  NoDup (map fst (classes b)) ->
  t <> cls ->
  class_get t (classes b) = Some p ->
  e_collection p <> resolved_name cls ps ->
  class_get t (classes (register b cls ps)) = Some p.
Proof.
  intros Hnd Hne Hget Hc. rewrite register_classes. unfold class_get.
  rewrite (assoc_get_set_other _ class_eqb_spec) by assumption.
  rewrite (assoc_get_fold_del _ class_eqb_spec).
  destruct (existsb _ _) eqn:Ex; [|exact Hget].
  apply existsb_exists in Ex. destruct Ex as [x [Hx Ex]].
  apply class_eqb_spec in Ex. subst x.
  apply in_map_iff in Hx. destruct Hx as [[t' p'] [Ht' Hx]].
  simpl in Ht'. subst t'. apply filter_In in Hx. destruct Hx as [Hin Hcol].
  apply (@In_assoc_get _ _ class_eqb class_eqb_spec _ _ _ Hnd) in Hin.
  unfold class_get in Hget. rewrite Hget in Hin. injection Hin as <-.
  unfold collides in Hcol. simpl in Hcol. apply String.eqb_eq in Hcol.
  contradiction.
Qed.

(** X4: registering a class a second time with the same parameters changes
    no lookup: every class and every collection name resolves as after the
    first call. *)
Theorem register_twice :
  forall (b : Backend) (cls : doc_class) (parameters : option params)
         (t : doc_class) (c : string),
    let once := register b cls parameters in
    let twice := register once cls parameters in
    class_get t (classes twice) = class_get t (classes once)
    /\ collection_get c (collections twice) = collection_get c (collections once)
    /\ get_cls_for_collection twice (resolved_name cls parameters)
       = get_cls_for_collection once (resolved_name cls parameters).
Proof.
  intros b cls ps t c once twice. subst twice once. split; [|split].
  - destruct (doc_class_eq_dec t cls) as [->|Hne].
    + rewrite (register_classes (register b cls ps)), (register_classes b).
      unfold class_get. now rewrite !(assoc_get_set_same _ class_eqb_spec).
    + rewrite (register_classes (register b cls ps)). unfold class_get.
      rewrite (assoc_get_set_other _ class_eqb_spec) by assumption.
      rewrite (assoc_get_fold_del _ class_eqb_spec).
      destruct (existsb _ _) eqn:Ex; [|reflexivity].
      apply existsb_exists in Ex. destruct Ex as [x [Hx Ex]].
      apply class_eqb_spec in Ex. subst x.
      apply in_map_iff in Hx. destruct Hx as [[t' p'] [Ht' Hx]].
      simpl in Ht'. subst t'. apply filter_In in Hx. destruct Hx as [Hin Hcol].
      unfold collides in Hcol. simpl in Hcol. apply String.eqb_eq in Hcol.
      destruct (register_In _ _ _ _ _ Hin) as [[= -> _]|[_ Hc]]; contradiction.
  - rewrite (register_collections (register b cls ps)). unfold collection_get.
    destruct (string_dec c (resolved_name cls ps)) as [->|Hne].
    + rewrite (assoc_get_set_same _ String.eqb_eq).
      rewrite register_collections.
      now rewrite (assoc_get_set_same _ String.eqb_eq).
    + now rewrite (assoc_get_set_other _ String.eqb_eq).
  - now rewrite !register_then_lookup_aux.
Qed.

Lemma built_library : built Sample.library.
Proof.
  exists [], true, true, true,
    [Register Sample.Author None; Register Sample.Book None]. reflexivity.
Qed.

Lemma registered_In b t c :
  NoDup (map fst (classes b)) ->
  (registered_as b t c <-> exists p, In (t, p) (classes b) /\ e_collection p = c).
Proof.
  intros Hnd. split; intros [p [H Hc]]; exists p; split; auto.
  - now apply (assoc_get_In _ class_eqb_spec).
  - now apply (@In_assoc_get _ _ class_eqb class_eqb_spec).
Qed.

(** X5: on a backend the code built, [get_cls_for_collection] is the
    inverse of the registry: it returns the one class registered with the
    collection name, and raises [AttributeError] exactly when no class is
    registered with it (the reverse index may still hold the name). *)
Theorem get_cls_for_collection_inverts :
  forall (b : Backend) (c : string),
    built b ->
    match get_cls_for_collection b c with
    | Return t =>
        registered_as b t c /\ forall t', registered_as b t' c -> t' = t
    | Raise e =>
        e = AttributeError /\ forall t, ~ registered_as b t c
    end.
Proof.
  intros b c Hb. pose proof (built_NoDup _ Hb) as Hnd.
  unfold get_cls_for_collection.
  destruct (get_cls_for_collection_loop (classes b) c) as [t|e] eqn:E.
  - apply get_cls_loop_found in E.
    assert (Ht : registered_as b t c) by now apply registered_In.
    split; [exact Ht|]. intros t' Ht'.
    pose proof (built_resolves_back _ Hb _ _ Ht) as H1.
    pose proof (built_resolves_back _ Hb _ _ Ht') as H2. congruence.
  - assert (Hnone : forall t, ~ registered_as b t c).
    { intros t Ht. apply registered_In in Ht; [|exact Hnd].
      destruct Ht as [p [Hin Hc]].
      destruct (get_cls_loop_some _ _ _ _ Hin Hc) as [t' Ht']. congruence. }
    split; [|exact Hnone].
    rewrite get_cls_loop_missing in E; [congruence|].
    intros t p Hin Hc. apply (Hnone t). apply registered_In; eauto.
Qed.

Lemma get_cls_for_collection_inverts_witness :
  (registered_as Sample.renamed Sample.Book "b" /\
   forall t', registered_as Sample.renamed t' "b" -> t' = Sample.Book)
  /\ (AttributeError = AttributeError /\
      forall t, ~ registered_as Sample.renamed t "a")
  /\ collection_get "a" (collections Sample.renamed) = Some Sample.Author.
Proof.
  assert (Hb : built Sample.renamed).
  { exists [], true, true, true,
      [Register Sample.Author (Sample.named "a");
       Register Sample.Author (Sample.named "b");
       Register Sample.Book (Sample.named "b")]. reflexivity. }
  split; [|split].
  - exact (get_cls_for_collection_inverts Sample.renamed "b" Hb).
  - exact (get_cls_for_collection_inverts Sample.renamed "a" Hb).
  - reflexivity.
Defined.

Lemma ensure_registered_twice b cls :
  ensure_registered (ensure_registered b cls) cls = ensure_registered b cls.
Proof.
  destruct (ensure_registered_get b cls) as [p Hp].
  now apply (ensure_registered_known _ _ Hp).
Qed.

(** X6: [get_collection_for_cls] never fails for a document class: it
    returns the name the class is registered with, registering the class from
    its [Meta] first when it was unknown (under [Meta.collection], else the
    lower-cased class name); a class that was registered keeps its entry, and
    a second call returns the same name and changes nothing. *)
Theorem get_collection_for_cls_registers :
  forall (cls : doc_class) (st : state),
    exists c st1,
      get_collection_for_cls cls st = (Return c, st1)
      /\ registered_as (backend st1) cls c
      /\ get_collection_for_cls cls st1 = (Return c, st1)
      /\ saved st1 = saved st /\ next_pk st1 = next_pk st
      /\ next_id st1 = next_id st
      /\ match class_get cls (classes (backend st)) with
         | Some p => c = e_collection p /\ st1 = st
         | None =>
             c = match m_collection (Meta cls) with
                 | Some name => name
                 | None => lower (__name__ cls)
                 end
         end.
Proof.
  intros cls st. do 2 eexists.
  split; [apply get_collection_for_cls_run|].
  destruct (ensure_registered_get (backend st) cls) as [p Hp].
  split; [|split; [|split; [|split; [|split]]]]; try reflexivity.
  - exists p. split; [exact Hp|]. unfold collection_of.
    cbn [with_backend backend]. now rewrite Hp.
  - rewrite get_collection_for_cls_run. cbn [with_backend backend].
    rewrite ensure_registered_twice. reflexivity.
  - unfold collection_of, ensure_registered, assoc_mem, class_get in *.
    destruct (assoc_get class_eqb cls (classes (backend st))) as [p0|] eqn:E.
    + rewrite E. split; [reflexivity|]. unfold with_backend. now destruct st.
    + unfold autoregister.
      destruct (register_class_get_same (backend st) cls
                  (Some (get_meta_attributes cls))) as [p1 [Hp1 Hc1]].
      unfold class_get in Hp1. rewrite Hp1, Hc1.
      unfold resolved_name, get_meta_attributes. cbn [p_collection].
      now destruct (m_collection (Meta cls)).
Qed.

(** ** The instance factory *)

(** X7: on a backend the code built, [create_instance] does the same for a
    registered class and for the name of its collection: both build the
    instance the registered constructor (or the default one) gives, as a new
    object, and change nothing but the counter of objects. *)
Theorem create_instance_by_name_or_class :
  forall (st : state) (cls : doc_class) (p : entry) (attrs : dict)
         (lazy : bool),
    built (backend st) ->
    class_get cls (classes (backend st)) = Some p ->
    create_instance (inl (e_collection p)) attrs lazy st
    = create_instance (inr cls) attrs lazy st
    /\ create_instance (inr cls) attrs lazy st
       = (Return (construct p (next_id st) cls attrs lazy), bump st).
Proof.
  intros st cls p attrs lazy Hb Hp.
  assert (Hc : collection_get (e_collection p) (collections (backend st))
               = Some cls).
  { apply (built_resolves_back _ Hb). now exists p. }
  assert (Hm : assoc_mem class_eqb cls (classes (backend st)) = true).
  { unfold assoc_mem. unfold class_get in Hp. now rewrite Hp. }
  assert (Hrun : forall arg,
            (arg = inl (e_collection p) \/ arg = inr cls) ->
            create_instance arg attrs lazy st
            = (Return (construct p (next_id st) cls attrs lazy), bump st)).
  { intros arg Harg. unfold create_instance, construct, bump.
    unfold bind, get_backend, fresh, ret.
    destruct Harg as [-> | ->]; [rewrite Hc|rewrite Hm];
      cbn [backend]; rewrite Hp; cbn [next_id];
      destruct (e_constructor p); reflexivity. }
  split; [|apply Hrun; now right].
  rewrite (Hrun (inl (e_collection p))) by now left.
  rewrite (Hrun (inr cls)) by now right. reflexivity.
Qed.

Lemma create_instance_by_name_or_class_witness :
  create_instance (inl "book") [(KStr "title", VStr "T")] true
    (Sample.start Sample.library)
  = create_instance (inr Sample.Book) [(KStr "title", VStr "T")] true
      (Sample.start Sample.library)
  /\ create_instance (inr Sample.Book) [(KStr "title", VStr "T")] true
       (Sample.start Sample.library)
     = (Return (Document 100 Sample.Book VNone [(KStr "title", VStr "T")]
                  true false None),
        bump (Sample.start Sample.library)).
Proof.
  apply (create_instance_by_name_or_class (Sample.start Sample.library)
           Sample.Book (mkEntry "book" None []) [(KStr "title", VStr "T")]
           true built_library eq_refl).
Defined.

(** ** Discovery of the classes *)

Lemma register_same_registered b cls ps :
  registered_as (register b cls ps) cls (resolved_name cls ps).
Proof.
  exists (new_entry cls ps). split; [|reflexivity].
  rewrite register_classes. apply (assoc_get_set_same _ class_eqb_spec).
Qed.

Lemma discover_keeps post : forall b c,
  NoDup (map fst (classes b)) ->
  registered_as b c (resolved_name c None) ->
  Forall (fun c' => c' = c \/ resolved_name c' None <> resolved_name c None)
         post ->
  registered_as (autodiscover_classes post b) c (resolved_name c None).
Proof.
  unfold autodiscover_classes.
  induction post as [|x post IH]; intros b c Hnd Hreg Hpost; simpl; auto.
  inversion Hpost as [|? ? Hx Hrest]; subst.
  apply IH; [now apply register_NoDup| |exact Hrest].
  destruct (doc_class_eq_dec x c) as [->|Hne].
  - apply register_same_registered.
  - destruct Hx as [->|Hx]; [contradiction|].
    destruct Hreg as [p [Hp Hc]]. exists p. split; [|exact Hc].
    apply register_keeps_entry; auto. congruence.
Qed.

Lemma discover_names dcs : forall b0 c',
  (forall p, class_get c' (classes b0) = Some p ->
             e_collection p = resolved_name c' None) ->
  forall p, class_get c' (classes (autodiscover_classes dcs b0)) = Some p ->
            e_collection p = resolved_name c' None.
Proof.
  unfold autodiscover_classes.
  induction dcs as [|d dcs IH]; intros b0 c' Hb0 p; simpl; [apply Hb0|].
  apply IH. intros p0 Hp0.
  destruct (register_class_get _ _ _ _ Hp0) as [[-> Hp]|(_ & Hold & _)]; auto.
Qed.

(** X8: a backend created with [autodiscover_classes=True] knows every
    class of [document_classes] whose collection name no different class
    later in the list resolves to as well: it is registered with the
    collection of its [Meta], else with its lower-cased name.  No other class
    that resolves to the same name is registered then: if the list has one,
    it was evicted. *)
Theorem autodiscover_registers :
  forall (pre : list doc_class) (c : doc_class) (post : list doc_class)
         (autoload allow : bool),
    Forall (fun c' => c' = c \/ resolved_name c' None <> resolved_name c None)
           post ->
    let b := __init__ (pre ++ c :: post) true autoload allow in
    registered_as b c
      match m_collection (Meta c) with
      | Some name => name
      | None => lower (__name__ c)
      end
    /\ forall c', c' <> c ->
         resolved_name c' None = resolved_name c None ->
         class_get c' (classes b) = None.
Proof.
  intros pre c post l q Hpost b.
  assert (Hb : built b).
  { exists (pre ++ c :: post), true, l, q, []. reflexivity. }
  assert (Hc : registered_as b c (resolved_name c None)).
  { subst b. unfold __init__.
    replace (autodiscover_classes (pre ++ c :: post) (mkBackend [] [] l q))
      with (autodiscover_classes post
              (register (__init__ pre true l q) c None))
      by (unfold __init__, autodiscover_classes; now rewrite fold_left_app).
    apply (discover_keeps post); [| |exact Hpost].
    - apply register_NoDup.
      assert (Hpre : built (__init__ pre true l q)).
      { exists pre, true, l, q, []. reflexivity. }
      exact (built_NoDup _ Hpre).
    - apply register_same_registered. }
  split; [exact Hc|].
  intros c' Hne Hname.
  destruct (class_get c' (classes b)) as [p'|] eqn:E; [|reflexivity].
  exfalso.
  assert (Hn : e_collection p' = resolved_name c' None).
  { subst b. unfold __init__ in E.
    apply (discover_names (pre ++ c :: post) (mkBackend [] [] l q) c');
      [discriminate|exact E]. }
  assert (Hreg : registered_as b c' (resolved_name c None)).
  { exists p'. split; [exact E|congruence]. }
  pose proof (built_resolves_back _ Hb _ _ Hreg) as H1.
  pose proof (built_resolves_back _ Hb _ _ Hc) as H2.
  congruence.
Qed.

Lemma autodiscover_registers_witness :
  let b := __init__ ([Sample.Author] ++ Sample.Book :: [Sample.Tag])
             true true true in
  registered_as b Sample.Book "book"
  /\ forall c', c' <> Sample.Book ->
       resolved_name c' None = resolved_name Sample.Book None ->
       class_get c' (classes b) = None.
Proof.
  apply (autodiscover_registers [Sample.Author] Sample.Book [Sample.Tag]
           true true).
  constructor; [right; discriminate|constructor].
Defined.

(** ** Walking through plain data *)

Lemma only_counts_refl st : only_counts st st.
Proof. unfold only_counts. auto. Qed.

Lemma only_counts_trans st1 st2 st3 :
  only_counts st1 st2 -> only_counts st2 st3 -> only_counts st1 st3.
Proof.
  unfold only_counts. intros (A & B & C & D) (A' & B' & C' & D').
  repeat split; try congruence. lia.
Qed.

Lemma only_counts_fresh st : only_counts st (bump st).
Proof. unfold only_counts, bump. cbn. auto. Qed.

Lemma walk_items_returns_with rec R f items :
  Forall (fun kv => returns_with rec R (snd kv)) items ->
  forall out st,
    exists items' st',
      walk_items rec f items out st = (Return (written items' out), st')
      /\ only_counts st st'
      /\ map fst items' = map f (map fst items)
      /\ Forall2 (fun kv kv' => R (snd kv) (snd kv')) items items'.
Proof.
  induction 1 as [|[k v] items Hv _ IH]; intros out st.
  - exists [], st. repeat split; auto using only_counts_refl.
  - cbn [walk_items]. destruct (Hv st) as (v' & st1 & Hrun & Hc1 & HR).
    cbn [snd] in Hrun, HR. unfold bind at 1. rewrite Hrun.
    destruct (IH (dict_set (f k) v' out) st1)
      as (items' & st' & Hrun' & Hc' & Hk & HF).
    exists ((f k, v') :: items'), st'. split; [exact Hrun'|].
    split; [eapply only_counts_trans; eauto|].
    split; [cbn; now rewrite Hk|].
    constructor; auto.
Qed.

Lemma walk_list_returns_with rec R items :
  Forall (returns_with rec R) items ->
  forall st,
    exists items' st',
      walk_list rec items st = (Return items', st')
      /\ only_counts st st'
      /\ Forall2 R items items'.
Proof.
  induction 1 as [|v items Hv _ IH]; intros st.
  - exists [], st. repeat split; auto using only_counts_refl.
  - cbn [walk_list]. destruct (Hv st) as (v' & st1 & Hrun & Hc1 & HR).
    unfold bind at 1. rewrite Hrun.
    destruct (IH st1) as (items' & st' & Hrun' & Hc' & HF).
    unfold bind at 1. rewrite Hrun'.
    exists (v' :: items'), st'. split; [reflexivity|].
    split; [eapply only_counts_trans; eauto|]. constructor; auto.
Qed.

Lemma walk_dict_returns_with rec R f items :
  Forall (fun kv => returns_with rec R (snd kv)) items ->
  forall st,
    exists items' st',
      walk_dict rec f items st
      = (Return (VDict (next_id st) (written items' [])), st')
      /\ only_counts st st'
      /\ map fst items' = map f (map fst items)
      /\ Forall2 (fun kv kv' => R (snd kv) (snd kv')) items items'.
Proof.
  intros H st. unfold walk_dict, bind, fresh.
  destruct (walk_items_returns_with rec R f items H [] (bump st))
    as (items' & st' & Hrun & Hc & Hk & HF).
  unfold bump in Hrun. rewrite Hrun.
  exists items', st'. repeat split; auto.
  - apply Hc.
  - apply Hc.
  - apply Hc.
  - destruct Hc as (_ & _ & _ & Hn). cbn in Hn. lia.
Qed.

Lemma dict_mem_key_in k (d : dict) : dict_mem k d = key_in k (map fst d).
Proof.
  unfold dict_mem, assoc_mem. induction d as [|[k' v'] d IH]; simpl; auto.
  destruct (key_eqb k k'); simpl; auto.
Qed.

Lemma dict_set_new k v (d : dict) :
  key_in k (map fst d) = false -> dict_set k v d = d ++ [(k, v)].
Proof.
  unfold dict_set. induction d as [|[k' v'] d IH]; simpl; auto.
  destruct (key_eqb k k'); simpl; [discriminate|].
  intros H. now rewrite IH.
Qed.

Lemma key_in_app k l1 l2 : key_in k (l1 ++ l2) = key_in k l1 || key_in k l2.
Proof.
  induction l1 as [|x l1 IH]; simpl; auto. now rewrite IH, orb_assoc.
Qed.

Lemma key_eqb_sym k1 k2 : key_eqb k1 k2 = key_eqb k2 k1.
Proof.
  destruct k1, k2; simpl; auto using String.eqb_sym, Z.eqb_sym.
Qed.

(** Entries with different keys, written one by one into a mapping that has
    none of the keys, are appended in order. *)
Lemma written_unique entries : forall out,
  nodup_keys (map fst entries) = true ->
  (forall k, key_in k (map fst entries) = true ->
             key_in k (map fst out) = false) ->
  written entries out = out ++ entries.
Proof.
  unfold written.
  induction entries as [|[k v] entries IH]; intros out Hnd Hout; simpl.
  - now rewrite app_nil_r.
  - simpl in Hnd. apply andb_true_iff in Hnd. destruct Hnd as [Hk Hnd].
    apply negb_true_iff in Hk.
    rewrite dict_set_new.
    2:{ apply Hout. simpl.
        now rewrite (proj2 (key_eqb_spec k k) eq_refl). }
    rewrite IH; [now rewrite <- app_assoc|exact Hnd|].
    intros k0 Hk0. rewrite map_app, key_in_app. simpl.
    rewrite orb_false_r. apply orb_false_iff. split.
    + apply Hout. simpl. rewrite Hk0. apply orb_true_r.
    + destruct (key_eqb k0 k) eqn:E; [|reflexivity].
      apply key_eqb_spec in E. subst. congruence.
Qed.

Lemma dict_set_Forall (P : key * value -> Prop) k v (d : dict) :
  P (k, v) -> Forall P d -> Forall P (dict_set k v d).
Proof.
  unfold dict_set. intros Hkv. induction 1 as [|[k' v'] d Hx Hd IH]; simpl.
  - constructor; auto.
  - destruct (key_eqb k k') eqn:E.
    + apply key_eqb_spec in E. subst k'. constructor; auto.
    + constructor; auto.
Qed.

Lemma written_Forall (P : key * value -> Prop) entries : forall out,
  Forall P entries -> Forall P out -> Forall P (written entries out).
Proof.
  unfold written. induction entries as [|[k v] entries IH]; intros out He Ho;
    simpl; auto.
  inversion He; subst. apply IH; auto. now apply dict_set_Forall.
Qed.

Lemma str_is_str k : is_str (str k) = true.
Proof. now destruct k. Qed.

Lemma serialize_plain k a q v :
  doc_free v = true ->
  forall n, returns_with (serialize_with_opts k a q n) (plain_result k) v.
Proof.
  induction v using value_graph_ind; intros Hfree n st.
  - exists VNone, st. destruct n; repeat split; auto using only_counts_refl.
  - exists (VBool b), st. destruct n; repeat split; auto using only_counts_refl.
  - exists (VInt z), st. destruct n; repeat split; auto using only_counts_refl.
  - exists (VStr s), st. destruct n; repeat split; auto using only_counts_refl.
  - (* a mapping *)
    cbn [doc_free] in Hfree. rewrite forallb_forall in Hfree.
    assert (Hrec : Forall (fun kv => returns_with (serialize_with_opts k a q n)
                                       (plain_result k) (snd kv)) items).
    { rewrite Forall_forall in *. intros kv Hin. apply H; auto. }
    rewrite serialize_with_opts_dict.
    destruct (walk_dict_returns_with _ _ (if k then str else fun x => x)
                items Hrec st) as (items' & st' & Hrun & Hc & Hk & HF).
    exists (VDict (next_id st) (written items' [])), st'.
    split; [exact Hrun|]. split; [exact Hc|].
    assert (Hsnd : forall (Q : value -> Prop),
              (forall v v', plain_result k v v' -> Q v') ->
              Forall (fun kv => Q (snd kv)) items').
    { intros Q HQ. clear - HF HQ.
      induction HF as [|x y l l' Hxy _ IH]; constructor; eauto. }
    split; [|split].
    + cbn [doc_free]. apply forallb_forall. apply Forall_forall.
      apply written_Forall; [|constructor].
      apply (Hsnd (fun v' => doc_free v' = true)). now intros ? ? [? _].
    + intros ->. cbn [str_keys]. apply forallb_forall. apply Forall_forall.
      apply written_Forall; [|constructor].
      assert (Hkeys : Forall (fun k0 => is_str k0 = true) (map fst items')).
      { rewrite Hk. apply Forall_forall. intros x Hx.
        apply in_map_iff in Hx. destruct Hx as [y [<- _]]. apply str_is_str. }
      pose proof (Hsnd (fun v' => str_keys v' = true)
                    (fun _ _ H0 => proj1 (proj2 H0) eq_refl)) as Hv.
      clear - Hkeys Hv. induction items' as [|[k0 v0] l IH]; constructor.
      * inversion Hkeys; inversion Hv; subst. cbn in *.
        apply andb_true_iff. auto.
      * inversion Hkeys; inversion Hv; subst. auto.
    + intros -> Hu. cbn [unique_keys] in Hu. apply andb_true_iff in Hu.
      destruct Hu as [Hnd Hu]. rewrite forallb_forall in Hu.
      rewrite map_id in Hk.
      assert (Hw : written items' [] = items').
      { apply written_unique; [now rewrite Hk|reflexivity]. }
      rewrite Hw.
      assert (Heach : Forall2 (fun kv kv' =>
                 unique_keys (snd kv') = true /\
                 forall sv, content sv (snd kv') = content sv (snd kv))
                items items').
      { clear - HF Hu. induction HF as [|x y l l' Hxy _ IH]; constructor.
        - destruct Hxy as (_ & _ & Hxy). apply Hxy; auto. apply Hu. now left.
        - apply IH. intros z Hz. apply Hu. now right. }
      split.
      * cbn [unique_keys]. apply andb_true_iff. split; [now rewrite Hk|].
        apply forallb_forall. apply Forall_forall.
        clear - Heach. induction Heach as [|x y l l' [Hxy _] _ IH];
          constructor; auto.
      * intros sv. cbn [content]. f_equal.
        clear - Heach Hk. revert Hk.
        induction Heach as [|[k1 v1] [k2 v2] l l' [_ Hxy] _ IH]; intros Hk;
          [reflexivity|].
        cbn in Hk. injection Hk as -> Hk. cbn. f_equal; auto.
        f_equal. apply Hxy.
  - (* a list *)
    cbn [doc_free] in Hfree. rewrite forallb_forall in Hfree.
    assert (Hrec : Forall (returns_with (serialize_with_opts k a q n)
                             (plain_result k)) items).
    { rewrite Forall_forall in *. intros x Hin. apply H; auto. }
    destruct (walk_list_returns_with _ _ items Hrec st)
      as (items' & st' & Hrun & Hc & HF).
    exists (VList (next_id st') items'), (bump st').
    split; [|split; [|split; [|split]]].
    + rewrite serialize_with_opts_list. unfold bind at 1.
      rewrite Hrun. reflexivity.
    + eapply only_counts_trans; [exact Hc|apply only_counts_fresh].
    + cbn [doc_free]. apply forallb_forall. apply Forall_forall.
      clear - HF. induction HF as [|x y l l' [Hxy _] _ IH]; constructor; auto.
    + intros ->. cbn [str_keys]. apply forallb_forall. apply Forall_forall.
      clear - HF. induction HF as [|x y l l' (_ & Hxy & _) _ IH];
        constructor; auto.
    + intros -> Hu. cbn [unique_keys] in Hu. rewrite forallb_forall in Hu.
      assert (Heach : Forall2 (fun x y =>
                 unique_keys y = true /\
                 forall sv, content sv y = content sv x) items items').
      { clear - HF Hu. induction HF as [|x y l l' Hxy _ IH]; constructor.
        - destruct Hxy as (_ & _ & Hxy). apply Hxy; auto. apply Hu. now left.
        - apply IH. intros z Hz. apply Hu. now right. }
      split.
      * cbn [unique_keys]. apply forallb_forall. apply Forall_forall.
        clear - Heach. induction Heach as [|x y l l' [Hxy _] _ IH];
          constructor; auto.
      * intros sv. cbn [content]. f_equal.
        clear - Heach. induction Heach as [|x y l l' [_ Hxy] _ IH];
          [reflexivity|]. cbn. f_equal; auto.
  - (* a tuple *)
    cbn [doc_free] in Hfree. rewrite forallb_forall in Hfree.
    assert (Hrec : Forall (returns_with (serialize_with_opts k a q n)
                             (plain_result k)) items).
    { rewrite Forall_forall in *. intros x Hin. apply H; auto. }
    destruct (walk_list_returns_with _ _ items Hrec st)
      as (items' & st' & Hrun & Hc & HF).
    exists (VTuple items'), st'.
    split; [|split; [|split; [|split]]].
    + rewrite serialize_with_opts_tuple. unfold bind at 1.
      rewrite Hrun. reflexivity.
    + exact Hc.
    + cbn [doc_free]. apply forallb_forall. apply Forall_forall.
      clear - HF. induction HF as [|x y l l' [Hxy _] _ IH]; constructor; auto.
    + intros ->. cbn [str_keys]. apply forallb_forall. apply Forall_forall.
      clear - HF. induction HF as [|x y l l' (_ & Hxy & _) _ IH];
        constructor; auto.
    + intros -> Hu. cbn [unique_keys] in Hu. rewrite forallb_forall in Hu.
      assert (Heach : Forall2 (fun x y =>
                 unique_keys y = true /\
                 forall sv, content sv y = content sv x) items items').
      { clear - HF Hu. induction HF as [|x y l l' Hxy _ IH]; constructor.
        - destruct Hxy as (_ & _ & Hxy). apply Hxy; auto. apply Hu. now left.
        - apply IH. intros z Hz. apply Hu. now right. }
      split.
      * cbn [unique_keys]. apply forallb_forall. apply Forall_forall.
        clear - Heach. induction Heach as [|x y l l' [Hxy _] _ IH];
          constructor; auto.
      * intros sv. cbn [content]. f_equal.
        clear - Heach. induction Heach as [|x y l l' [_ Hxy] _ IH];
          [reflexivity|]. cbn. f_equal; auto.
  - discriminate.
Qed.

(** ** Plain data through [serialize] *)

(** X9: on data without document instances [serialize] never fails, for
    any [embed_level], [autosave] and [for_query]; it changes nothing but the
    counter of objects, and without [convert_keys_to_str] what it returns has
    the content of what it was given (mappings key by key in order, lists
    and tuples element by element, tuples still tuples). *)
Theorem serialize_plain_data :
  forall (v : value) (embed_level : Z) (autosave for_query : bool)
         (st : state),
    doc_free v = true ->
    unique_keys v = true ->
    exists v' st',
      serialize v false embed_level None autosave for_query st
      = (Return v', st')
      /\ only_counts st st'
      /\ doc_free v' = true
      /\ forall sv, content sv v' = content sv v.
Proof.
  intros v lvl a q st Hfree Hu. unfold serialize, apply_coders.
  destruct (serialize_plain false a q v Hfree (Z.to_nat lvl) st)
    as (v' & st' & Hrun & Hc & Hd & _ & Hcontent).
  exists v', st'. repeat split; try apply Hc; auto.
  now apply Hcontent.
Qed.

Lemma serialize_plain_data_witness :
  exists v' st',
    serialize Sample.plain false 2 None true true
      (Sample.start (Sample.empty false))
    = (Return v', st')
    /\ only_counts (Sample.start (Sample.empty false)) st'
    /\ doc_free v' = true
    /\ forall sv, content sv v' = content sv Sample.plain.
Proof.
  apply (serialize_plain_data Sample.plain 2 true true
           (Sample.start (Sample.empty false))); reflexivity.
Defined.

(** X10: with [convert_keys_to_str] every key of every mapping that
    [serialize] returns for data without document instances is a string. *)
Theorem serialize_stringifies_keys :
  forall (v : value) (embed_level : Z) (autosave for_query : bool)
         (st : state),
    doc_free v = true ->
    exists v' st',
      serialize v true embed_level None autosave for_query st
      = (Return v', st')
      /\ str_keys v' = true
      /\ doc_free v' = true.
Proof.
  intros v lvl a q st Hfree. unfold serialize, apply_coders.
  destruct (serialize_plain true a q v Hfree (Z.to_nat lvl) st)
    as (v' & st' & Hrun & Hc & Hd & Hs & _).
  exists v', st'. repeat split; auto.
Qed.

Lemma serialize_stringifies_keys_witness :
  exists v' st',
    serialize Sample.plain true 0 None true false
      (Sample.start (Sample.empty true))
    = (Return v', st')
    /\ str_keys v' = true
    /\ doc_free v' = true.
Proof.
  apply (serialize_stringifies_keys Sample.plain 0 true false
           (Sample.start (Sample.empty true))); reflexivity.
Defined.

Lemma apply_coders_none coders obj :
  Forall (fun mc : coder => fst mc obj = false) coders ->
  apply_coders (Some coders) obj = obj.
Proof.
  intros H. rewrite <- (app_nil_r coders).
  rewrite apply_coders_skip by exact H. reflexivity.
Qed.

(** X11: encoders and decoders are tried on the value the call is given
    and on nothing below it: when no predicate matches that value the call
    does what it does without them, whatever they would match inside. *)
Theorem coders_only_at_the_top :
  forall (coders : list coder) (obj : value) (convert_keys_to_str : bool)
         (embed_level : Z) (autosave for_query : bool),
    Forall (fun mc : coder => fst mc obj = false) coders ->
    serialize obj convert_keys_to_str embed_level (Some coders) autosave
      for_query
    = serialize obj convert_keys_to_str embed_level None autosave for_query
    /\ deserialize obj (Some coders) = deserialize obj None.
Proof.
  intros coders obj k lvl a q H. unfold serialize, deserialize.
  now rewrite (apply_coders_none coders obj H).
Qed.

Lemma coders_only_at_the_top_witness :
  fst (serialize (VList 1 [VInt 1]) false 0 (Some SampleCoders.encoders)
         true false (Sample.start (Sample.empty true)))
  = Return (VList 100 [VInt 1])
  /\ fst (deserialize (VList 1 [VInt 1]) (Some SampleCoders.encoders)
            (Sample.start (Sample.empty true)))
     = Return (VList 100 [VInt 1]).
Proof.
  destruct (coders_only_at_the_top SampleCoders.encoders (VList 1 [VInt 1])
              false 0 true false) as [Hs Hd].
  - repeat constructor.
  - rewrite Hs, Hd. split; reflexivity.
Defined.

(** ** Autosave *)

Lemma autosaved_unsaved d st :
  pk_in (saved st) d = VNone ->
  autosaved true d st
  = mkState (backend st) (assoc_set Nat.eqb (oid d) (next_pk st) (saved st))
            (next_pk st + 1)%Z (next_id st)
  /\ pk_in (saved (autosaved true d st)) d = VInt (next_pk st).
Proof.
  intros H. unfold autosaved. rewrite H. cbn [is_None andb]. split; auto.
  cbn [saved]. unfold pk_in in *. destruct (pk0 d); try discriminate.
  now rewrite (assoc_get_set_same _ Nat.eqb_eq).
Qed.

Lemma autosaved_saved d a st v :
  pk_in (saved st) d = v -> v <> VNone -> autosaved a d st = st.
Proof.
  intros H Hv. unfold autosaved. rewrite H. now destruct v.
Qed.

(** X12: an eager instance without a primary key whose embed flag is not
    set, and none of whose include paths is ill-typed, that occurs twice in
    a list serialized with [embed_level=0] and [autosave=True] (and no query
    restriction in the way) is saved once: the first occurrence triggers
    [save], the second finds the key, and the two stubs are equal mappings
    built on the one key that was assigned. *)
Theorem autosave_once :
  forall (d : document) (a0 : nat) (convert_keys_to_str for_query : bool)
         (st : state),
    _lazy d = false ->
    embed d = false ->
    pk_in (saved st) d = VNone ->
    includes_well_typed d (configured_includes d) ->
    for_query && negb (_allow_documents_in_query (backend st)) = false ->
    exists c st',
      let stub :=
        included d (configured_includes d)
          [(KStr "pk", VInt (next_pk st)); (KStr "__collection__", VStr c)] in
      serialize (VList a0 [VDoc d; VDoc d]) convert_keys_to_str 0 None true
        for_query st
      = (Return
           (VList (S (S (next_id st)))
              [VDict (next_id st) stub; VDict (S (next_id st)) stub]), st')
      /\ next_pk st' = (next_pk st + 1)%Z
      /\ saved st' = assoc_set Nat.eqb (oid d) (next_pk st) (saved st)
      /\ pk_in (saved st') d = VInt (next_pk st)
      /\ registered_as (backend st') (__class__ d) c.
Proof.
  intros d a0 k q st Hl He Hpk Hwt Hq.
  set (b1 := ensure_registered (backend st) (__class__ d)).
  set (st1 := with_backend st b1).
  destruct (autosaved_unsaved d st1 Hpk) as [Hs1 Hpk1].
  set (st2 := bump (autosaved true d st1)).
  assert (Hrun1 : serialize (VDoc d) k 0 None true q st
                  = (Return (VDict (next_id st)
                               (included d (configured_includes d)
                                  (minimal_stub d (autosaved true d st1)))),
                     st2)).
  { rewrite serialize_eager_run by assumption. fold b1 st1.
    rewrite Hq. now rewrite add_includes_run by assumption. }
  assert (Hb2 : ensure_registered (backend st2) (__class__ d) = b1).
  { unfold st2, bump. cbn [backend]. rewrite autosaved_backend.
    unfold st1. cbn [with_backend backend]. apply ensure_registered_twice. }
  assert (Hst2 : with_backend st2 b1 = st2).
  { unfold st2, bump, with_backend. cbn [backend saved next_pk next_id].
    now rewrite autosaved_backend. }
  assert (Hsame : autosaved true d st2 = st2).
  { apply (autosaved_saved d true st2 (VInt (next_pk st))); [|discriminate].
    unfold st2, bump. cbn [saved]. exact Hpk1. }
  assert (Hrun2 : serialize (VDoc d) k 0 None true q st2
                  = (Return (VDict (next_id st2)
                               (included d (configured_includes d)
                                  (minimal_stub d st2))),
                     bump st2)).
  { rewrite serialize_eager_run by assumption.
    rewrite Hb2, Hst2, Hsame.
    replace (_allow_documents_in_query (backend st2))
      with (_allow_documents_in_query (backend st)).
    - rewrite Hq. now rewrite add_includes_run by assumption.
    - unfold st2, bump. cbn [backend]. rewrite autosaved_backend.
      unfold st1, b1. cbn [with_backend backend].
      symmetry. apply ensure_registered_flag. }
  exists (collection_of b1 (__class__ d)), (bump (bump st2)).
  cbv zeta. split; [|split; [|split; [|split]]].
  - unfold serialize at 1. unfold apply_coders.
    change (Z.to_nat 0) with O. rewrite serialize_with_opts_list.
    cbn [walk_list].
    change (serialize_with_opts k true q 0 (VDoc d))
      with (serialize (VDoc d) k 0 None true q).
    unfold bind at 1. unfold bind at 1. rewrite Hrun1.
    unfold bind at 1. unfold bind at 1. rewrite Hrun2.
    unfold bind, fresh, ret, minimal_stub.
    cbn [next_id bump backend saved next_pk].
    unfold st2 at 1 2 3. unfold bump. cbn [saved backend next_id].
    rewrite Hpk1, autosaved_next_id, autosaved_backend.
    unfold st1. cbn [with_backend backend next_id next_pk].
    replace (backend st2) with b1; [reflexivity|].
    unfold st2, bump. cbn [backend]. now rewrite autosaved_backend.
  - unfold st2, bump. cbn [next_pk]. rewrite Hs1. reflexivity.
  - unfold st2, bump. cbn [saved]. rewrite Hs1. reflexivity.
  - unfold st2, bump. cbn [saved]. exact Hpk1.
  - unfold st2, bump. cbn [backend]. rewrite autosaved_backend.
    unfold st1. cbn [with_backend backend].
    destruct (ensure_registered_get (backend st) (__class__ d)) as [p Hp].
    exists p. split; [exact Hp|]. unfold collection_of, b1. now rewrite Hp.
Qed.

Lemma autosave_once_witness :
  exists c st',
    serialize (VList 1 [VDoc Sample.draft; VDoc Sample.draft]) false 0 None
      true false (Sample.start Sample.library)
    = (Return
         (VList 102
            [VDict 100 [(KStr "pk", VInt 1000);
                        (KStr "__collection__", VStr c);
                        (KStr "title", VStr "T")];
             VDict 101 [(KStr "pk", VInt 1000);
                        (KStr "__collection__", VStr c);
                        (KStr "title", VStr "T")]]), st')
    /\ next_pk st' = 1001%Z
    /\ saved st' = [(19, 1000%Z)].
Proof.
  destruct (autosave_once Sample.draft 1 false false
              (Sample.start Sample.library)
              eq_refl eq_refl eq_refl)
    as (c & st' & Hrun & Hn & Hs & _).
  - repeat constructor; discriminate.
  - reflexivity.
  - exists c, st'. split; [exact Hrun|]. split; [exact Hn|exact Hs].
Defined.

(** ** What a call never does *)

Section Keeps.
Variable I : state -> state -> Prop.
Hypothesis I_refl : forall st, I st st.
Hypothesis I_trans : forall s1 s2 s3, I s1 s2 -> I s2 s3 -> I s1 s3.

Lemma keeps_ret A (a : A) : keeps I (ret a).
Proof. intros st o st' [= <- <-]. apply I_refl. Qed.

Lemma keeps_raise A e : keeps I (@raise A e).
Proof. intros st o st' [= <- <-]. apply I_refl. Qed.

Lemma keeps_lift A (x : outcome A) : keeps I (lift x).
Proof. intros st o st' [= <- <-]. apply I_refl. Qed.

Lemma keeps_bind A B (m : M A) (k : A -> M B) :
  keeps I m -> (forall a, keeps I (k a)) -> keeps I (bind m k).
Proof.
  intros Hm Hk st o st'. unfold bind.
  destruct (m st) as [[a|e] st1] eqn:E.
  - intros H. eapply I_trans; [eapply Hm; exact E|eapply Hk; exact H].
  - intros [= <- <-]. eapply Hm; exact E.
Qed.


Lemma keeps_walk_items rec f items :
  Forall (fun kv => keeps I (rec (snd kv))) items ->
  forall out, keeps I (walk_items rec f items out).
Proof.
  induction 1 as [|[k v] items Hv _ IH]; intros out; cbn [walk_items].
  - apply keeps_ret.
  - apply keeps_bind; [exact Hv|]. intros v'. apply IH.
Qed.

Lemma keeps_walk_list rec items :
  Forall (fun v => keeps I (rec v)) items -> keeps I (walk_list rec items).
Proof.
  induction 1 as [|v items Hv _ IH]; cbn [walk_list].
  - apply keeps_ret.
  - apply keeps_bind; [exact Hv|]. intros v'.
    apply keeps_bind; [exact IH|]. intros l. apply keeps_ret.
Qed.
End Keeps.




Lemma keeps_fresh_counts : keeps only_counts fresh.
Proof. intros st o st' [= <- <-]. apply only_counts_fresh. Qed.

Lemma keeps_deepcopy_dict items : keeps only_counts (deepcopy_dict items).
Proof.
  intros st o st'. unfold deepcopy_dict.
  destruct (copy_items _ items (S (next_id st))) as [items' n'] eqn:E.
  intros [= <- <-]. unfold only_counts. cbn. repeat split; auto.
  apply copy_items_fresh in E;
    [|apply Forall_forall; intros; apply deepcopy_from_fresh].
  lia.
Qed.

Lemma keeps_weaken A (I J : state -> state -> Prop) (m : M A) :
  (forall st st', I st st' -> J st st') -> keeps I m -> keeps J m.
Proof. intros H Hm st o st' E. apply H. eapply Hm. exact E. Qed.

Ltac keeps_with I Irefl Itrans :=
  repeat first
    [ apply (keeps_ret I Irefl)
    | apply (keeps_raise I Irefl)
    | apply (keeps_lift I Irefl)
    | apply (keeps_bind I Itrans); [|intro] ].

Lemma keeps_get_backend I :
  (forall st, I st st) -> keeps I get_backend.
Proof. intros Hr st o st' [= <- <-]. apply Hr. Qed.

Lemma keeps_create_instance arg attrs lazy :
  keeps only_counts (create_instance arg attrs lazy).
Proof.
  unfold create_instance.
  apply (keeps_bind _ only_counts_trans);
    [apply keeps_get_backend, only_counts_refl|intros self].
  apply (keeps_bind _ only_counts_trans).
  - destruct arg as [name|c].
    + destruct (collection_get name (collections self));
        keeps_with only_counts only_counts_refl only_counts_trans.
    + destruct (assoc_mem class_eqb c (classes self));
        keeps_with only_counts only_counts_refl only_counts_trans.
  - intros cls. destruct (class_get cls (classes self)) as [p|];
      [|apply (keeps_raise _ only_counts_refl)].
    apply (keeps_bind _ only_counts_trans); [apply keeps_fresh_counts|].
    intros i. destruct (e_constructor p);
      apply (keeps_ret _ only_counts_refl).
Qed.

Lemma keeps_in_collections cv : keeps only_counts (in_collections cv).
Proof.
  unfold in_collections.
  apply (keeps_bind _ only_counts_trans);
    [apply keeps_get_backend, only_counts_refl|intros self].
  destruct (hashable cv); [|apply (keeps_raise _ only_counts_refl)].
  destruct cv; try apply (keeps_ret _ only_counts_refl).
  destruct (assoc_mem String.eqb s (collections self));
    apply (keeps_ret _ only_counts_refl).
Qed.

Lemma keeps_deserialize_reference items name pk_field :
  keeps only_counts (deserialize_reference items name pk_field).
Proof.
  unfold deserialize_reference.
  apply (keeps_bind _ only_counts_trans); [apply keeps_deepcopy_dict|].
  intros c. apply (keeps_bind _ only_counts_trans);
    [apply keeps_create_instance|intros d].
  destruct (dict_get (KStr pk_field) items);
    keeps_with only_counts only_counts_refl only_counts_trans.
Qed.

Lemma keeps_walk_dict_counts rec f items :
  Forall (fun kv => keeps only_counts (rec (snd kv))) items ->
  keeps only_counts (walk_dict rec f items).
Proof.
  intros H. unfold walk_dict.
  apply (keeps_bind _ only_counts_trans); [apply keeps_fresh_counts|].
  intros i. apply (keeps_bind _ only_counts_trans).
  - now apply (keeps_walk_items _ only_counts_refl only_counts_trans).
  - intros out. apply (keeps_ret _ only_counts_refl).
Qed.

Lemma keeps_deserialize_value v : keeps only_counts (deserialize_value v).
Proof.
  induction v using value_graph_ind; cbn [deserialize_value];
    try apply (keeps_ret _ only_counts_refl).
  - pose proof (keeps_walk_dict_counts deserialize_value (fun k => k) items H)
      as Hplain.
    destruct (dict_get (KStr "__collection__") items) as [cv|];
      [|exact Hplain].
    apply (keeps_bind _ only_counts_trans); [apply keeps_in_collections|].
    intros [name|]; [|exact Hplain].
    destruct (pk_field_of items); [|exact Hplain].
    apply keeps_deserialize_reference.
  - apply (keeps_bind _ only_counts_trans).
    + now apply (keeps_walk_list _ only_counts_refl only_counts_trans).
    + intros l. apply (keeps_bind _ only_counts_trans);
        [apply keeps_fresh_counts|].
      intros i. apply (keeps_ret _ only_counts_refl).
  - apply (keeps_bind _ only_counts_trans).
    + now apply (keeps_walk_list _ only_counts_refl only_counts_trans).
    + intros l. apply (keeps_bind _ only_counts_trans);
        [apply keeps_fresh_counts|].
      intros i. apply (keeps_ret _ only_counts_refl).
Qed.

(** X13: [deserialize] reads the registry and writes nothing: whatever it
    is given, and whether it returns or raises, the registry, the reverse
    index and the primary keys of the instances are as before; it only
    creates objects. *)
Theorem deserialize_reads_only :
  forall (obj : value) (decoders : option (list coder)) (st : state)
         (o : outcome value) (st' : state),
    deserialize obj decoders st = (o, st') ->
    backend st' = backend st /\ saved st' = saved st
    /\ next_pk st' = next_pk st /\ next_id st <= next_id st'.
Proof.
  intros obj decoders st o st' H.
  exact (keeps_deserialize_value _ _ _ _ H).
Qed.

Lemma deserialize_reads_only_witness :
  exists o st',
    deserialize (VDict 3 Sample.legacy_stub) None (Sample.start Sample.library)
    = (o, st')
    /\ backend st' = Sample.library /\ saved st' = []
    /\ next_pk st' = 1000%Z /\ 100 <= next_id st'.
Proof.
  destruct (deserialize (VDict 3 Sample.legacy_stub) None
              (Sample.start Sample.library)) as [o st'] eqn:E.
  exists o, st'. split; [reflexivity|].
  exact (deserialize_reads_only _ _ _ _ _ E).
Defined.














(** ** The stub of a lazy instance, key by key *)

Lemma copy_items_mem sv items n k :
  dict_mem k (fst (copy_items (deepcopy_from sv) items n)) = dict_mem k items.
Proof.
  unfold dict_mem, assoc_mem. fold dict_get.
  destruct (dict_get k items) as [v|] eqn:E.
  - destruct (copy_items_get sv items n k E) as [m [_ Hg]]. now rewrite Hg.
  - now rewrite (copy_items_get_None sv items n _ E).
Qed.

Lemma dict_mem_set k k' v d :
  dict_mem k (dict_set k' v d) = key_eqb k k' || dict_mem k d.
Proof.
  unfold dict_mem, assoc_mem. fold dict_get. rewrite dict_get_set.
  now destruct (key_eqb k k').
Qed.

Lemma dict_mem_del k k' d :
  dict_mem k (dict_del k' d) = negb (key_eqb k k') && dict_mem k d.
Proof.
  unfold dict_mem, assoc_mem. fold dict_get. rewrite dict_get_del.
  now destruct (key_eqb k k').
Qed.

(** X15: a lazy instance whose embed flag is not set is always serialized
    to a stub with [embed_level=0]: the check of line 185 is not made for it,
    so [for_query] and the backend's setting make no difference.  The stub
    has the keys [pk] and [__collection__], holding the primary key of the
    instance and the collection its class is registered with, and the keys
    of the attributes the instance knows, its primary-key field left out. *)
Theorem lazy_instance_stub :
  forall (d : document) (convert_keys_to_str autosave for_query : bool)
         (st : state),
    _lazy d = true ->
    embed d = false ->
    exists items st',
      serialize (VDoc d) convert_keys_to_str 0 None autosave for_query st
      = (Return (VDict (next_id st) items), st')
      /\ dict_get (KStr "pk") items = Some (pk_in (saved st') d)
      /\ (exists c, dict_get (KStr "__collection__") items = Some (VStr c)
                    /\ registered_as (backend st') (__class__ d) c)
      /\ forall k,
           dict_mem k items
           = key_eqb k (KStr "__collection__") || key_eqb k (KStr "pk")
             || (negb (key_eqb k (KStr (get_pk_name d)))
                 && dict_mem k (lazy_attributes d)).
Proof.
  intros d k a q st Hl He. do 2 eexists.
  split; [now rewrite serialize_lazy_run by assumption|].
  cbn [saved backend]. unfold lazy_stub.
  split; [|split].
  - rewrite !dict_get_set.
    change (key_eqb (KStr "pk") (KStr "__collection__")) with false.
    change (key_eqb (KStr "pk") (KStr "pk")) with true. reflexivity.
  - destruct (ensure_registered_get (backend st) (__class__ d)) as [p Hp].
    exists (e_collection p). split.
    + rewrite dict_get_set.
      change (key_eqb (KStr "__collection__") (KStr "__collection__"))
        with true. cbv iota. unfold collection_of.
      rewrite autosaved_backend. cbn [with_backend backend].
      now rewrite Hp.
    + exists p. split; [exact Hp|reflexivity].
  - intros k0. rewrite !dict_mem_set.
    set (copied := fst (copy_items _ (lazy_attributes d) _)).
    assert (Hc : forall x, dict_mem x copied = dict_mem x (lazy_attributes d))
      by (intros x; apply copy_items_mem).
    rewrite <- orb_assoc. f_equal. f_equal.
    destruct (dict_mem (KStr (get_pk_name d)) copied) eqn:Em.
    + rewrite dict_mem_del. now rewrite Hc.
    + rewrite Hc. destruct (key_eqb k0 (KStr (get_pk_name d))) eqn:Ek;
        [|reflexivity].
      apply key_eqb_spec in Ek. subst k0. rewrite <- Hc. exact Em.
Qed.

Lemma lazy_instance_stub_witness :
  exists items st',
    serialize (VDoc Sample.tagged_lazy) false 0 None true true
      (Sample.start (Sample.empty false))
    = (Return (VDict 100 items), st')
    /\ dict_get (KStr "pk") items = Some (VInt 12)
    /\ dict_mem (KStr "labels") items = true.
Proof.
  destruct (lazy_instance_stub Sample.tagged_lazy false true true
              (Sample.start (Sample.empty false)) eq_refl eq_refl)
    as (items & st' & Hrun & Hpk & _ & Hkeys).
  exists items, st'. split; [exact Hrun|]. split.
  - rewrite Hpk. reflexivity.
  - rewrite Hkeys. reflexivity.
Defined.



(** ** Dotted paths *)

Lemma split_nonempty sep s : split sep s <> [].
Proof.
  destruct s as [|c s]; simpl; [discriminate|].
  destruct (Ascii.eqb c sep); [discriminate|].
  destruct (split sep s); discriminate.
Qed.

Lemma split_app sep p q :
  split sep (p ++ String sep q)%string = split sep p ++ split sep q.
Proof.
  induction p as [|c p IH]; simpl.
  - now rewrite Ascii.eqb_refl.
  - destruct (Ascii.eqb c sep); [now rewrite IH|].
    rewrite IH. destruct (split sep p) as [|w ws] eqn:E; [|reflexivity].
    now elim (split_nonempty sep p).
Qed.

Lemma get_value_loop_app l1 : forall v l2,
  get_value_loop v (l1 ++ l2)
  = match get_value_loop v l1 with
    | Return w => get_value_loop w l2
    | Raise e => Raise e
    end.
Proof.
  induction l1 as [|f l1 IH]; intros v l2; simpl; [reflexivity|].
  destruct (getitem v f); [apply IH|reflexivity].
Qed.

(** X16: [get_value] resolves a dotted path piece by piece: the path
    [p.q] gives what [q] gives on the value [p] leads to, and fails as [p]
    fails when [p] is not there. *)
Theorem get_value_dotted :
  forall (obj : value) (p q : string),
    get_value obj (p ++ String "." q)%string
    = match get_value obj p with
      | Return v => get_value v q
      | Raise e => Raise e
      end.
Proof.
  intros obj p q. unfold get_value.
  rewrite split_app. apply get_value_loop_app.
Qed.

(** ** Plain data through [deserialize] and back *)

Lemma Forall2_listed_doc_free l l' :
  Forall2 listed l l' -> forallb doc_free l' = true.
Proof.
  induction 1 as [|x y l l' [Hxy _] _ IH]; simpl; auto.
  now rewrite Hxy.
Qed.

Lemma Forall2_listed_content sv l l' :
  Forall2 listed l l' ->
  map (content sv) l' = map (content sv) (map listify l).
Proof.
  induction 1 as [|x y l l' [_ Hxy] _ IH]; simpl; auto.
  now rewrite Hxy, IH.
Qed.

Lemma deserialize_plain v :
  doc_free v = true -> unique_keys v = true -> no_collection_key v = true ->
  returns_with deserialize_value listed v.
Proof.
  induction v using value_graph_ind; intros Hfree Hu Hn st.
  - exists VNone, st. repeat split; auto using only_counts_refl.
  - exists (VBool b), st. repeat split; auto using only_counts_refl.
  - exists (VInt z), st. repeat split; auto using only_counts_refl.
  - exists (VStr s), st. repeat split; auto using only_counts_refl.
  - cbn [doc_free unique_keys no_collection_key] in Hfree, Hu, Hn.
    apply andb_true_iff in Hu. destruct Hu as [Hnd Hu].
    apply andb_true_iff in Hn. destruct Hn as [Hnc Hn].
    apply negb_true_iff in Hnc.
    rewrite forallb_forall in Hfree, Hu, Hn.
    assert (Hrec : Forall (fun kv => returns_with deserialize_value listed
                                       (snd kv)) items).
    { rewrite Forall_forall in *. intros kv Hin. apply H; auto. }
    destruct (walk_dict_returns_with _ _ (fun x => x) items Hrec st)
      as (items' & st' & Hrun & Hc & Hk & HF).
    rewrite map_id in Hk.
    assert (Hw : written items' [] = items').
    { apply written_unique; [now rewrite Hk|reflexivity]. }
    rewrite Hw in Hrun.
    exists (VDict (next_id st) items'), st'. split; [|split; [exact Hc|]].
    + cbn [deserialize_value].
      rewrite <- dict_mem_key_in in Hnc.
      rewrite (dict_mem_false_get _ _ Hnc). exact Hrun.
    + split.
      * cbn [doc_free]. clear - HF.
        induction HF as [|x y l l' [Hxy _] _ IH]; simpl; auto.
        now rewrite Hxy.
      * intros sv. cbn [listify content]. f_equal. clear - HF Hk.
        revert Hk.
        induction HF as [|[k1 v1] [k2 v2] l l' [_ Hxy] _ IH]; intros Hk;
          [reflexivity|].
        cbn in Hk. injection Hk as -> Hk. cbn. f_equal; auto.
        f_equal. apply Hxy.
  - cbn [doc_free unique_keys no_collection_key] in Hfree, Hu, Hn.
    rewrite forallb_forall in Hfree, Hu, Hn.
    assert (Hrec : Forall (returns_with deserialize_value listed) items).
    { rewrite Forall_forall in *. intros x Hin. apply H; auto. }
    destruct (walk_list_returns_with _ _ items Hrec st)
      as (items' & st' & Hrun & Hc & HF).
    exists (VList (next_id st') items'), (bump st').
    split; [|split; [|split]].
    + cbn [deserialize_value]. unfold bind at 1. rewrite Hrun. reflexivity.
    + eapply only_counts_trans; [exact Hc|apply only_counts_fresh].
    + cbn [doc_free]. now apply (Forall2_listed_doc_free items).
    + intros sv. cbn [listify content]. f_equal.
      now apply Forall2_listed_content.
  - cbn [doc_free unique_keys no_collection_key] in Hfree, Hu, Hn.
    rewrite forallb_forall in Hfree, Hu, Hn.
    assert (Hrec : Forall (returns_with deserialize_value listed) items).
    { rewrite Forall_forall in *. intros x Hin. apply H; auto. }
    destruct (walk_list_returns_with _ _ items Hrec st)
      as (items' & st' & Hrun & Hc & HF).
    exists (VList (next_id st') items'), (bump st').
    split; [|split; [|split]].
    + cbn [deserialize_value]. unfold bind at 1. rewrite Hrun. reflexivity.
    + eapply only_counts_trans; [exact Hc|apply only_counts_fresh].
    + cbn [doc_free]. now apply (Forall2_listed_doc_free items).
    + intros sv. cbn [listify content]. f_equal.
      now apply Forall2_listed_content.
  - discriminate.
Qed.

Lemma forallb_map_ext A B (f : B -> bool) (g : A -> B) (h : A -> bool) l :
  Forall (fun x => f (g x) = h x) l -> forallb f (map g l) = forallb h l.
Proof.
  induction 1 as [|x l Hx _ IH]; simpl; auto. now rewrite Hx, IH.
Qed.

Lemma map_map_ext A B C (f : B -> C) (g : A -> B) (h : A -> C) l :
  Forall (fun x => f (g x) = h x) l -> map f (map g l) = map h l.
Proof.
  induction 1 as [|x l Hx _ IH]; simpl; auto. now rewrite Hx, IH.
Qed.

Lemma map_fst_content sv (items : dict) :
  map fst (map (fun kv => (fst kv, content sv (snd kv))) items)
  = map fst items.
Proof. rewrite map_map. apply map_ext. reflexivity. Qed.

Lemma doc_free_content sv v : doc_free (content sv v) = doc_free v.
Proof.
  induction v using value_graph_ind; try reflexivity; cbn [content doc_free].
  - apply forallb_map_ext. eapply Forall_impl; [|exact H]. auto.
  - apply forallb_map_ext. eapply Forall_impl; [|exact H]. auto.
  - apply forallb_map_ext. eapply Forall_impl; [|exact H]. auto.
Qed.

Lemma unique_keys_content sv v : unique_keys (content sv v) = unique_keys v.
Proof.
  induction v using value_graph_ind; try reflexivity;
    cbn [content unique_keys].
  - rewrite map_fst_content. f_equal.
    apply forallb_map_ext. eapply Forall_impl; [|exact H]. auto.
  - apply forallb_map_ext. eapply Forall_impl; [|exact H]. auto.
  - apply forallb_map_ext. eapply Forall_impl; [|exact H]. auto.
Qed.

Lemma no_collection_key_content sv v :
  no_collection_key (content sv v) = no_collection_key v.
Proof.
  induction v using value_graph_ind; try reflexivity;
    cbn [content no_collection_key].
  - rewrite map_fst_content. f_equal.
    apply forallb_map_ext. eapply Forall_impl; [|exact H]. auto.
  - apply forallb_map_ext. eapply Forall_impl; [|exact H]. auto.
  - apply forallb_map_ext. eapply Forall_impl; [|exact H]. auto.
Qed.

Lemma listify_content sv v :
  content sv (listify v) = listify (content sv v).
Proof.
  induction v using value_graph_ind; try reflexivity;
    cbn [content listify].
  - f_equal. rewrite !map_map. apply map_ext_Forall.
    eapply Forall_impl; [|exact H]. cbv beta. intros kv Hkv. cbn.
    now rewrite Hkv.
  - f_equal. rewrite !map_map. apply map_ext_Forall. exact H.
  - f_equal. rewrite !map_map. apply map_ext_Forall. exact H.
Qed.

(** X17: on data without document instances and without a key
    [__collection__], [deserialize] never fails and changes nothing but the
    counter of objects; what it returns has the content of what it was given,
    except that every tuple has become a list. *)
Theorem deserialize_plain_data :
  forall (v : value) (st : state),
    doc_free v = true ->
    unique_keys v = true ->
    no_collection_key v = true ->
    exists v' st',
      deserialize v None st = (Return v', st')
      /\ only_counts st st'
      /\ doc_free v' = true
      /\ forall sv, content sv v' = content sv (listify v).
Proof.
  intros v st Hfree Hu Hn.
  destruct (deserialize_plain v Hfree Hu Hn st)
    as (v' & st' & Hrun & Hc & Hd & Hcontent).
  exists v', st'. auto.
Qed.

Lemma deserialize_plain_data_witness :
  exists v' st',
    deserialize Sample.plain None (Sample.start Sample.library)
    = (Return v', st')
    /\ only_counts (Sample.start Sample.library) st'
    /\ doc_free v' = true
    /\ forall sv, content sv v' = content sv (listify Sample.plain).
Proof.
  apply (deserialize_plain_data Sample.plain (Sample.start Sample.library));
    reflexivity.
Defined.

(** X18: the round trip of plain data: serializing data without document
    instances and without a key [__collection__], then deserializing the
    result, gives back the content of the data with every tuple turned into a
    list, and changes nothing but the counter of objects. *)
Theorem plain_data_round_trip :
  forall (v : value) (embed_level : Z) (autosave for_query : bool)
         (st : state),
    doc_free v = true ->
    unique_keys v = true ->
    no_collection_key v = true ->
    exists v1 st1 v2 st2,
      serialize v false embed_level None autosave for_query st
      = (Return v1, st1)
      /\ deserialize v1 None st1 = (Return v2, st2)
      /\ only_counts st st2
      /\ forall sv, content sv v2 = content sv (listify v).
Proof.
  intros v lvl a q st Hfree Hu Hn. unfold serialize, deserialize, apply_coders.
  destruct (serialize_plain false a q v Hfree (Z.to_nat lvl) st)
    as (v1 & st1 & Hser & Hc1 & Hd1 & _ & Hplain).
  destruct (Hplain eq_refl Hu) as [Hu1 Hcontent1].
  assert (Hn1 : no_collection_key v1 = true).
  { rewrite <- (no_collection_key_content [] v1), Hcontent1,
      no_collection_key_content. exact Hn. }
  destruct (deserialize_plain v1 Hd1 Hu1 Hn1 st1)
    as (v2 & st2 & Hdes & Hc2 & _ & Hcontent2).
  exists v1, st1, v2, st2. split; [exact Hser|]. split; [exact Hdes|].
  split; [eapply only_counts_trans; eauto|].
  intros sv. rewrite Hcontent2, !listify_content. now rewrite Hcontent1.
Qed.

Lemma plain_data_round_trip_witness :
  exists v1 st1 v2 st2,
    serialize Sample.plain false 0 None true false
      (Sample.start Sample.library)
    = (Return v1, st1)
    /\ deserialize v1 None st1 = (Return v2, st2)
    /\ only_counts (Sample.start Sample.library) st2
    /\ forall sv, content sv v2 = content sv (listify Sample.plain).
Proof.
  apply (plain_data_round_trip Sample.plain 0 true false
           (Sample.start Sample.library)); reflexivity.
Defined.

(** ** The attributes of a rebuilt instance *)



(** ** Embedding *)

(** X20: with [embed_level > 0] an instance whose fetched attributes are
    plain data is serialized as the mapping of these attributes, whatever its
    embed flag, [for_query] and the backend's setting for queries: the check
    of line 185 is not reached, and the instance is not saved even if it has
    no primary key and [autosave] is set. *)
Theorem embedded_instance_is_its_attributes :
  forall (d : document) (attrs : dict) (embed_level : Z)
         (autosave for_query : bool) (st : state),
    (0 < embed_level)%Z ->
    fetched d = Some attrs ->
    doc_free (VDict 0 attrs) = true ->
    unique_keys (VDict 0 attrs) = true ->
    exists v' st',
      serialize (VDoc d) false embed_level None autosave for_query st
      = (Return v', st')
      /\ (forall sv, content sv v' = content sv (VDict 0 attrs))
      /\ saved st' = saved st /\ next_pk st' = next_pk st
      /\ backend st' = ensure_registered (backend st) (__class__ d).
Proof.
  intros d attrs lvl a q st Hpos Hfetch Hfree Hu.
  assert (E : exists n, lvl = Z.of_nat (S n)).
  { exists (Z.to_nat (lvl - 1)). lia. }
  destruct E as [n ->]. rewrite serialize_embedding_run.
  set (st1 := with_backend st (ensure_registered (backend st) (__class__ d))).
  destruct (serialize_plain false a q (VDict 0 attrs) Hfree n st1)
    as (v' & st' & Hrun & Hc & _ & _ & Hplain).
  rewrite serialize_with_opts_dict in Hrun.
  destruct (Hplain eq_refl Hu) as [_ Hcontent].
  exists v', st'. split; [|split; [exact Hcontent|]].
  - unfold try_except, eager_attributes. unfold fetched in Hfetch.
    destruct (_lazy d); cbn in Hfetch.
    + rewrite Hfetch, bind_ret_run. now rewrite Hrun.
    + injection Hfetch as <-. rewrite bind_ret_run. now rewrite Hrun.
  - destruct Hc as (Hb & Hs & Hn & _). repeat split; auto.
Qed.

Lemma embedded_instance_is_its_attributes_witness :
  exists v' st',
    serialize (VDoc Sample.writer) false 1 None true true
      (Sample.start (Sample.empty false))
    = (Return v', st')
    /\ (forall sv, content sv v'
                   = content sv (VDict 0 (attributes Sample.writer)))
    /\ saved st' = [] /\ next_pk st' = 1000%Z.
Proof.
  destruct (embedded_instance_is_its_attributes Sample.writer
              (attributes Sample.writer) 1 true true
              (Sample.start (Sample.empty false))
              eq_refl eq_refl eq_refl eq_refl)
    as (v' & st' & Hrun & Hcontent & Hs & Hn & _).
  exists v', st'. auto.
Defined.

(** ** Witnesses for the statements that hold beside the claims *)

Lemma include_paths_found_or_skipped_witness :
  exists items st',
    serialize (VDoc Sample.novel) false 0 None true false
      (Sample.start Sample.library)
    = (Return (VDict 100 items), st')
    /\ dict_get (flat_key "title") items = Some (VStr "T")
    /\ dict_mem (flat_key "author.name") items = false.
Proof.
  destruct (@include_paths_found_or_skipped Sample.novel false true false
              (Sample.start Sample.library) eq_refl eq_refl eq_refl)
    as (items & st' & Hrun & Hfound & Hskipped).
  - repeat constructor; discriminate.
  - exists items, st'. split; [exact Hrun|]. split.
    + apply (Hfound [] "title" ["author.name"]); [reflexivity|reflexivity|].
      repeat constructor. intros w Hw. discriminate Hw.
    + apply Hskipped; try discriminate.
      * right. now left.
      * reflexivity.
      * intros p' w [<-|[<-|[]]] Hw; [discriminate|discriminate Hw].
Defined.

Lemma plain_mapping_is_kept_witness :
  exists out st',
    deserialize
      (VDict 3 [(KStr "pk", VInt 1); (KStr "__collection__", VStr "unknown");
                (KStr "x", VTuple [VInt 2])])
      None (Sample.start Sample.library)
    = (Return (VDict 100 out), st')
    /\ forall k, dict_mem k out
                 = dict_mem k [(KStr "pk", VInt 1);
                               (KStr "__collection__", VStr "unknown");
                               (KStr "x", VTuple [VInt 2])].
Proof.
  apply (@plain_mapping_is_kept 3
           [(KStr "pk", VInt 1); (KStr "__collection__", VStr "unknown");
            (KStr "x", VTuple [VInt 2])] (Sample.start Sample.library));
    try reflexivity.
  intros name cls H.
  pose proof (@assoc_get_In _ _ String.eqb String.eqb_eq _ _ _ H) as Hin.
  vm_compute in Hin.
  destruct Hin as [[= <- <-]|[[= <- <-]|[]]]; vm_compute; discriminate.
Defined.

(** ** [for_query] on a backend that allows documents in queries *)

Lemma flag_kept_refl st : flag_kept st st.
Proof. reflexivity. Qed.

Lemma flag_kept_trans s1 s2 s3 :
  flag_kept s1 s2 -> flag_kept s2 s3 -> flag_kept s1 s3.
Proof. unfold flag_kept. congruence. Qed.

Lemma only_counts_flag_kept st st' : only_counts st st' -> flag_kept st st'.
Proof. unfold only_counts, flag_kept. now intros [-> _]. Qed.

Lemma nothing_changes_flag A (m : M A) :
  (forall st, backend (snd (m st)) = backend st) -> keeps flag_kept m.
Proof.
  intros H st o st' E. unfold flag_kept.
  specialize (H st). rewrite E in H. cbn in H. now rewrite H.
Qed.

Lemma keeps_flag_get_collection_for_obj d :
  keeps flag_kept (get_collection_for_obj d).
Proof.
  intros st o st'. unfold get_collection_for_obj.
  rewrite get_collection_for_cls_run. intros [= <- <-].
  unfold flag_kept, with_backend. cbn. apply ensure_registered_flag.
Qed.

Lemma keeps_flag_pk d : keeps flag_kept (pk d).
Proof. now apply nothing_changes_flag. Qed.

Lemma keeps_flag_fresh : keeps flag_kept fresh.
Proof. now apply nothing_changes_flag. Qed.

Lemma keeps_flag_save d : keeps flag_kept (save d).
Proof.
  apply nothing_changes_flag. intros st. unfold save.
  now destruct (is_None (pk_in (saved st) d)).
Qed.

Lemma keeps_flag_deepcopy_dict items : keeps flag_kept (deepcopy_dict items).
Proof.
  apply (keeps_weaken _ only_counts flag_kept);
    [exact only_counts_flag_kept|apply keeps_deepcopy_dict].
Qed.

Ltac flag_steps :=
  repeat first
    [ apply (keeps_ret flag_kept flag_kept_refl)
    | apply (keeps_raise flag_kept flag_kept_refl)
    | apply (keeps_lift flag_kept flag_kept_refl)
    | apply (keeps_get_backend flag_kept flag_kept_refl)
    | apply keeps_flag_pk
    | apply keeps_flag_fresh
    | apply keeps_flag_save
    | apply keeps_flag_deepcopy_dict
    | apply (keeps_bind flag_kept flag_kept_trans); [|intro] ].

Lemma keeps_flag_classes_collection d :
  keeps flag_kept (classes_collection d).
Proof.
  unfold classes_collection.
  apply (keeps_bind _ flag_kept_trans); [flag_steps|intros self].
  destruct (class_get (__class__ d) (classes self)); flag_steps.
Qed.

Lemma keeps_flag_eager_attributes d : keeps flag_kept (eager_attributes d).
Proof.
  unfold eager_attributes.
  destruct (_lazy d); [destruct (remote d)|]; flag_steps.
Qed.

Lemma keeps_flag_document_serialize d :
  keeps flag_kept (document_serialize d).
Proof.
  unfold document_serialize.
  apply (keeps_bind _ flag_kept_trans); [apply keeps_flag_eager_attributes|].
  intros a. flag_steps.
Qed.

Lemma agree_same A (m : M A) : keeps flag_kept m -> agree_when_allowed m m.
Proof.
  intros H st Hst. split; [reflexivity|].
  destruct (m st) as [o st'] eqn:E. cbn. unfold allowed.
  now rewrite (H _ _ _ E).
Qed.

Lemma agree_bind A B (m1 m2 : M A) (k1 k2 : A -> M B) :
  agree_when_allowed m1 m2 ->
  (forall a, agree_when_allowed (k1 a) (k2 a)) ->
  agree_when_allowed (bind m1 k1) (bind m2 k2).
Proof.
  intros Hm Hk st Hst. destruct (Hm st Hst) as [E Ha]. unfold bind.
  rewrite <- E. destruct (m1 st) as [[a|e] st1]; cbn in Ha.
  - apply Hk, Ha.
  - split; [reflexivity|exact Ha].
Qed.

Lemma agree_try A (m1 m2 h1 h2 : M A) handles :
  agree_when_allowed m1 m2 -> agree_when_allowed h1 h2 ->
  agree_when_allowed (try_except m1 handles h1) (try_except m2 handles h2).
Proof.
  intros Hm Hh st Hst. destruct (Hm st Hst) as [E Ha]. unfold try_except.
  rewrite <- E. destruct (m1 st) as [[a|e] st1]; cbn in Ha.
  - split; [reflexivity|exact Ha].
  - destruct (handles e); [apply Hh, Ha|split; [reflexivity|exact Ha]].
Qed.

Lemma agree_walk_items rec1 rec2 f items :
  Forall (fun kv => agree_when_allowed (rec1 (snd kv)) (rec2 (snd kv))) items ->
  forall out,
    agree_when_allowed (walk_items rec1 f items out)
                       (walk_items rec2 f items out).
Proof.
  induction 1 as [|[k v] items Hv _ IH]; intros out; cbn [walk_items].
  - apply agree_same. flag_steps.
  - apply agree_bind; [exact Hv|]. intros v'. apply IH.
Qed.

Lemma agree_walk_list rec1 rec2 items :
  Forall (fun v => agree_when_allowed (rec1 v) (rec2 v)) items ->
  agree_when_allowed (walk_list rec1 items) (walk_list rec2 items).
Proof.
  induction 1 as [|v items Hv _ IH]; cbn [walk_list].
  - apply agree_same. flag_steps.
  - apply agree_bind; [exact Hv|]. intros v'.
    apply agree_bind; [exact IH|]. intros l. apply agree_same. flag_steps.
Qed.

Lemma agree_walk_dict rec1 rec2 f items :
  Forall (fun kv => agree_when_allowed (rec1 (snd kv)) (rec2 (snd kv))) items ->
  agree_when_allowed (walk_dict rec1 f items) (walk_dict rec2 f items).
Proof.
  intros H. unfold walk_dict.
  apply agree_bind; [apply agree_same; flag_steps|]. intros i.
  apply agree_bind; [now apply agree_walk_items|].
  intros out. apply agree_same. flag_steps.
Qed.

Lemma bind_get_backend_run A (k : Backend -> M A) st :
  (self <- get_backend ;; k self) st = k (backend st) st.
Proof. reflexivity. Qed.

Lemma agree_serialize_reference a q q' d :
  agree_when_allowed (serialize_reference a q d) (serialize_reference a q' d).
Proof.
  unfold serialize_reference.
  apply agree_bind; [apply agree_same; flag_steps|]. intros p.
  apply agree_bind.
  { apply agree_same. destruct (is_None p && a); flag_steps. }
  intros _. destruct (_lazy d).
  - apply agree_same.
    apply (keeps_bind _ flag_kept_trans); [flag_steps|]. intros c.
    apply (keeps_bind _ flag_kept_trans); [flag_steps|]. intros p1.
    apply (keeps_bind _ flag_kept_trans);
      [apply keeps_flag_classes_collection|]. intros name. flag_steps.
  - intros st Hst. rewrite !bind_get_backend_run.
    unfold allowed in Hst. rewrite Hst. cbn [negb]. rewrite !andb_false_r.
    apply agree_same; [|exact Hst].
    apply (keeps_bind _ flag_kept_trans); [flag_steps|]. intros i.
    apply (keeps_bind _ flag_kept_trans); [flag_steps|]. intros p1.
    apply (keeps_bind _ flag_kept_trans);
      [apply keeps_flag_classes_collection|]. intros name.
    destruct (m_dbref_includes (Meta (__class__ d))) as [[|x l]|];
      flag_steps.
Qed.

Lemma agree_serialize_with_opts k a q q' n :
  forall v,
    agree_when_allowed (serialize_with_opts k a q n v)
                       (serialize_with_opts k a q' n v).
Proof.
  induction n as [|n IHn]; intros v;
    induction v using value_graph_ind;
    try (cbn [serialize_with_opts]; apply agree_same; flag_steps).
  all: try (rewrite !serialize_with_opts_dict; now apply agree_walk_dict).
  all: try (rewrite !serialize_with_opts_list;
            apply agree_bind; [now apply agree_walk_list|];
            intros l0; apply agree_same; flag_steps).
  all: try (rewrite !serialize_with_opts_tuple;
            apply agree_bind; [now apply agree_walk_list|];
            intros l0; apply agree_same; flag_steps).
  - cbn [serialize_with_opts].
    apply agree_bind;
      [apply agree_same, keeps_flag_get_collection_for_obj|intros _].
    destruct e; [apply agree_same, keeps_flag_document_serialize
                |apply agree_serialize_reference].
  - cbn [serialize_with_opts].
    apply agree_bind;
      [apply agree_same, keeps_flag_get_collection_for_obj|intros _].
    assert (Hw : forall attrs,
              agree_when_allowed
                (walk_dict (serialize_with_opts k a q n)
                   (if k then str else fun x => x) attrs)
                (walk_dict (serialize_with_opts k a q' n)
                   (if k then str else fun x => x) attrs)).
    { intros attrs. apply agree_walk_dict.
      apply Forall_forall. intros kv _. apply IHn. }
    apply agree_try; [|apply Hw].
    apply agree_bind;
      [apply agree_same, keeps_flag_eager_attributes|]. intros attrs.
    apply Hw.
Qed.

(** X21: on a backend that allows documents in queries [for_query] makes no
    difference: for every graph, embedding depth and list of encoders the
    call with [for_query=True] returns or raises what the call with
    [for_query=False] does, and leaves the same state.  The flag is read at
    line 185 only, and no step of [serialize] changes the backend's setting. *)
Theorem for_query_is_idle_when_documents_are_allowed :
  forall (obj : value) (convert_keys_to_str : bool) (embed_level : Z)
         (encoders : option (list coder)) (autosave : bool) (st : state),
    _allow_documents_in_query (backend st) = true ->
    serialize obj convert_keys_to_str embed_level encoders autosave true st
    = serialize obj convert_keys_to_str embed_level encoders autosave false st.
Proof.
  intros obj k lvl encoders a st Hst. unfold serialize.
  now apply agree_serialize_with_opts.
Qed.

Lemma for_query_is_idle_when_documents_are_allowed_witness :
  serialize (VList 1 [VDoc Sample.novel; VDoc Sample.jane]) false 0 None
    true true (Sample.start Sample.library)
  = serialize (VList 1 [VDoc Sample.novel; VDoc Sample.jane]) false 0 None
      true false (Sample.start Sample.library).
Proof.
  apply (for_query_is_idle_when_documents_are_allowed
           (VList 1 [VDoc Sample.novel; VDoc Sample.jane]) false 0 None true
           (Sample.start Sample.library)).
  reflexivity.
Defined.
